(** * tb_pivot_excel/v1: telemetry pivot and calendar resampling

    A shallow embedding of [main.py] and [settings.py]: payload parsing,
    chunked telemetry retrieval, row unification, pivot construction and
    the period resampler, followed by the properties established about
    them.

    Conventions of the embedding
    - Epoch and wall-clock timestamps are integers ([Z]) in milliseconds;
      every timestamp the program handles comes from an integer number of
      milliseconds, so pandas' nanosecond resolution is never observable.
    - A calendar date ([Timestamp.date()]) is the number of days since
      1970-01-01; [days_from_civil] and [civil_from_days] convert to and
      from the proleptic Gregorian calendar pandas uses.
    - A Python [dict] is an association list in insertion order.
    - Telemetry values are exact rationals; a missing cell (NaN / None)
      is [None].
    - Exceptions are the [Raise] case of [result]; the HTTP transport and
      the credential cache are an explicit [World]. *)

From Stdlib Require Import ZArith List Bool Lia String Ascii QArith.
From Stdlib Require Import Permutation Sorted.
Import ListNotations.

Open Scope string_scope.
Open Scope list_scope.
Open Scope Z_scope.

(** ** Exceptions *)

Inductive exn : Type :=
| ValueError (msg : string)
| TypeError (msg : string)
| KeyError (msg : string)
| HTTPError (status : Z)
| AuthError
| AttributeError (msg : string).

Inductive result (A : Type) : Type :=
| Ok (a : A)
| Raise (e : exn).
Arguments Ok {A} a.
Arguments Raise {A} e.

Definition is_ok {A} (r : result A) : bool :=
  match r with Ok _ => true | Raise _ => false end.

Definition rbind {A B} (r : result A) (k : A -> result B) : result B :=
  match r with Ok a => k a | Raise e => Raise e end.

Fixpoint rmap_list {A B} (f : A -> result B) (l : list A) : result (list B) :=
  match l with
  | [] => Ok []
  | x :: l' => rbind (f x) (fun y => rbind (rmap_list f l') (fun ys => Ok (y :: ys)))
  end.

(** ** Python dictionaries (insertion ordered) *)

Module PyDict.

Definition t (V : Type) : Type := list (string * V).

Fixpoint get {V} (d : t V) (k : string) : option V :=
  match d with
  | [] => None
  | (k', v) :: d' => if String.eqb k' k then Some v else get d' k
  end.

(** [d[k] = v]: overwrite in place, or append a new entry. *)
Fixpoint set {V} (d : t V) (k : string) (v : V) : t V :=
  match d with
  | [] => [(k, v)]
  | (k', v') :: d' =>
      if String.eqb k' k then (k', v) :: d' else (k', v') :: set d' k v
  end.

Definition keys {V} (d : t V) : list string := map fst d.

Definition mem {V} (d : t V) (k : string) : bool :=
  match get d k with Some _ => true | None => false end.

(** Python's [==] on dictionaries ignores insertion order. *)
Definition equiv {V} (d1 d2 : t V) : Prop := forall k, get d1 k = get d2 k.

End PyDict.

(** ** Calendar arithmetic *)

Definition MS_PER_SECOND : Z := 1000.
Definition MS_PER_DAY : Z := 86400000.

(** [Timestamp.date()] as a day number, [Timestamp.normalize()] and the
    midnight of a day. *)
Definition date_of (t : Z) : Z := t / MS_PER_DAY.
Definition midnight (d : Z) : Z := d * MS_PER_DAY.
Definition normalize (t : Z) : Z := midnight (date_of t).
Definition time_of_day (t : Z) : Z := t mod MS_PER_DAY.

Definition is_leap (y : Z) : bool :=
  (y mod 4 =? 0) && (negb (y mod 100 =? 0) || (y mod 400 =? 0)).

Definition days_in_month (y m : Z) : Z :=
  if m =? 2 then (if is_leap y then 29 else 28)
  else if (m =? 4) || (m =? 6) || (m =? 9) || (m =? 11) then 30
  else 31.

(** Day number of the civil date [y]-[m]-[d] (proleptic Gregorian). *)
Definition days_from_civil (y m d : Z) : Z :=
  let y' := if m <=? 2 then y - 1 else y in
  let era := y' / 400 in
  let yoe := y' - era * 400 in
  let mp := (m + 9) mod 12 in
  let doy := (153 * mp + 2) / 5 + d - 1 in
  let doe := yoe * 365 + yoe / 4 - yoe / 100 + doy in
  era * 146097 + doe - 719468.

(** Civil date [(year, month, day)] of a day number. *)
Definition civil_from_days (z : Z) : Z * Z * Z :=
  let z := z + 719468 in
  let era := z / 146097 in
  let doe := z - era * 146097 in
  let yoe := (doe - doe / 1460 + doe / 36524 - doe / 146096) / 365 in
  let doy := doe - (365 * yoe + yoe / 4 - yoe / 100) in
  let mp := (5 * doy + 2) / 153 in
  let d := doy - (153 * mp + 2) / 5 + 1 in
  let m := if mp <? 10 then mp + 3 else mp - 9 in
  let y := yoe + era * 400 in
  ((if m <=? 2 then y + 1 else y), m, d).

(** Wall-clock timestamp of [y]-[m]-[d] [hh]:[mm]:[ss]. *)
Definition ts_of (y m d hh mm ss : Z) : Z :=
  midnight (days_from_civil y m d) + ((hh * 60 + mm) * 60 + ss) * MS_PER_SECOND.

(** pandas weekday numbering: Monday = 0 ... Sunday = 6.
    Day 0 (1970-01-01) is a Thursday. *)
Definition weekday (d : Z) : Z := (d + 3) mod 7.

(** The first day on or after [d] whose weekday is [anchor]. *)
Definition week_end_day (anchor d : Z) : Z := d + (anchor - weekday d) mod 7.

(** Months counted from year 0: [12 * year + (month - 1)]. *)
Definition month_index (d : Z) : Z :=
  let '(y, m, _) := civil_from_days d in 12 * y + (m - 1).
Definition month_start_day (i : Z) : Z := days_from_civil (i / 12) (i mod 12 + 1) 1.

Definition year_of (d : Z) : Z := let '(y, _, _) := civil_from_days d in y.
Definition year_start_day (y : Z) : Z := days_from_civil y 1 1.

(** The next month end after day [d]: the last day of the month of [d],
    or of the following month when [d] is a month end itself. *)
Definition month_end_after (d : Z) : Z :=
  let '(y, m, dd) := civil_from_days d in
  let i := 12 * y + (m - 1) + (if dd =? days_in_month y m then 1 else 0) in
  let y' := i / 12 in
  let m' := i mod 12 + 1 in
  days_from_civil y' m' (days_in_month y' m').

(** The next 31 December after day [d]. *)
Definition year_end_after (d : Z) : Z :=
  let '(y, m, dd) := civil_from_days d in
  let y' := if (m =? 12) && (dd =? 31) then y + 1 else y in
  days_from_civil y' 12 31.

(** [t + pd.offsets.MonthEnd(1)]: roll forward to the next month end,
    keeping the time of day; a timestamp already on a month end moves to
    the end of the following month. *)
Definition add_MonthEnd (t : Z) : Z :=
  midnight (month_end_after (date_of t)) + time_of_day t.

(** [t + pd.offsets.YearEnd(1)]: roll forward to the next 31 December,
    keeping the time of day. *)
Definition add_YearEnd (t : Z) : Z :=
  midnight (year_end_after (date_of t)) + time_of_day t.

(** Inclusive integer ranges. *)
Definition zrange (a : Z) (n : nat) : list Z :=
  map (fun k => a + Z.of_nat k) (seq 0 n).
Definition zspan (a b : Z) : list Z := zrange a (Z.to_nat (b - a + 1)).

(** ** Tables *)

(** A cell holds a number or is missing (NaN). *)
Definition cell : Type := option Q.

(** The pivot table: its data columns (the "Timestamp" column is kept
    apart) and one row per timestamp. *)
Record PivotTable : Type := mkPivot {
  pv_columns : list string;
  pv_rows : list (Z * list cell)
}.

(** A frame as [_resample_pivot] returns it: all column names, and rows
    holding the "Date" (a day number) and the data cells.
    [pd.DataFrame()] has neither columns nor rows. *)
Record DataFrame : Type := mkFrame {
  df_columns : list string;
  df_rows : list (Z * list cell)
}.

Definition DataFrame_empty : DataFrame := mkFrame [] [].

(** [df.empty]: some axis has length zero. *)
Definition df_empty (df : DataFrame) : bool :=
  match df_columns df, df_rows df with
  | [], _ => true
  | _, [] => true
  | _, _ => false
  end.

(** ** 3. Aggregation helpers *)

(** Python's [a or b] on an optional string: [None] and [""] are falsy. *)
Definition str_or (a : option string) (b : string) : string :=
  match a with
  | Some s => if String.eqb s "" then b else s
  | None => b
  end.

Definition _get_agg_func (key : string) (agg_map : PyDict.t string) : string :=
  str_or (PyDict.get agg_map key) (str_or (PyDict.get agg_map "default") "mean").

Definition lower_ascii (c : ascii) : ascii :=
  let n := N_of_ascii c in
  if (65 <=? n)%N && (n <=? 90)%N then ascii_of_N (n + 32) else c.

Fixpoint lower (s : string) : string :=
  match s with
  | EmptyString => EmptyString
  | String c s' => String (lower_ascii c) (lower s')
  end.

Definition _week_start_offset (week_start : string) : Z :=
  if String.eqb (lower week_start) "sunday" then 6 else 0.

Definition _build_agg_dict (data_cols : list string) (agg_map : PyDict.t string)
  : PyDict.t string :=
  fold_left (fun d col => PyDict.set d col (_get_agg_func col agg_map)) data_cols [].

(** The six aggregation names the configuration documents. *)
Inductive AggFunc : Type := Mean | Sum | Min | Max | First | Last.

Definition agg_of_string (s : string) : option AggFunc :=
  if String.eqb s "mean" then Some Mean
  else if String.eqb s "sum" then Some Sum
  else if String.eqb s "min" then Some Min
  else if String.eqb s "max" then Some Max
  else if String.eqb s "first" then Some First
  else if String.eqb s "last" then Some Last
  else None.

(** The non-missing values of a group, in row order. *)
Fixpoint present (xs : list cell) : list Q :=
  match xs with
  | [] => []
  | Some q :: xs' => q :: present xs'
  | None :: xs' => present xs'
  end.

Definition Qsum (qs : list Q) : Q := fold_left Qplus qs (0%Q).
Definition Qleast (a b : Q) : Q := if Qle_bool a b then a else b.
Definition Qgreatest (a b : Q) : Q := if Qle_bool a b then b else a.

(** pandas group aggregations skip missing values; over no value at all
    [sum] is 0 and the others are missing.  [first], [last], [min] and
    [max] pick one of the values; [sum] and [mean] are the exact sum and
    mean, which pandas rounds to its floating-point format. *)
Definition aggregate (f : AggFunc) (xs : list cell) : cell :=
  match present xs with
  | [] => match f with Sum => Some (0%Q) | _ => None end
  | q :: qs =>
      match f with
      | Mean => Some (Qred (Qsum (q :: qs) / inject_Z (Z.of_nat (List.length (q :: qs)))))
      | Sum => Some (Qred (Qsum (q :: qs)))
      | Min => Some (fold_left Qleast qs q)
      | Max => Some (fold_left Qgreatest qs q)
      | First => Some q
      | Last => Some (last qs q)
      end
  end.

(** Settings of the aggregated sheets ([reportConfig.sheets]); an absent
    key is [None]. *)
Record SheetsCfg : Type := mkSheets {
  week_start : option string;
  partial_period : option bool
}.

Inductive Freq : Type := D | W | MS | YS.

(** pandas frequency strings used by [_resample_pivot]. *)
Inductive FreqStr : Type := F_D | F_W_SAT | F_W_SUN | F_MS | F_YS.

(** One bin of [df.resample(freq_str)]: its label and the half-open range
    [bin_lo <= t < bin_hi] of the timestamps it groups. *)
Record Bin : Type := mkBin { bin_label : Z; bin_lo : Z; bin_hi : Z }.

Definition day_bin (d : Z) : Bin :=
  mkBin (midnight d) (midnight d) (midnight (d + 1)).

(** Weekly bins are closed on the right and labelled by their last day;
    pandas moves the right edge to the end of that day, so the bin
    labelled [e] groups the seven days ending on [e]. *)
Definition week_bin (e : Z) : Bin :=
  mkBin (midnight e) (midnight (e - 6)) (midnight (e + 1)).

Definition month_bin (i : Z) : Bin :=
  mkBin (midnight (month_start_day i)) (midnight (month_start_day i))
        (midnight (month_start_day (i + 1))).

Definition year_bin (y : Z) : Bin :=
  mkBin (midnight (year_start_day y)) (midnight (year_start_day y))
        (midnight (year_start_day (y + 1))).

Definition week_bins (anchor d0 d1 : Z) : list Bin :=
  let e0 := week_end_day anchor d0 in
  let e1 := week_end_day anchor d1 in
  map (fun k => week_bin (e0 + 7 * k)) (zspan 0 ((e1 - e0) / 7)).

(** The bins of a resample: every period from the one holding the
    earliest timestamp to the one holding the latest, empty ones
    included. *)
Definition resample_bins (fs : FreqStr) (tmin tmax : Z) : list Bin :=
  let d0 := date_of tmin in
  let d1 := date_of tmax in
  match fs with
  | F_D => map day_bin (zspan d0 d1)
  | F_W_SAT => week_bins 5 d0 d1
  | F_W_SUN => week_bins 6 d0 d1
  | F_MS => map month_bin (zspan (month_index d0) (month_index d1))
  | F_YS => map year_bin (zspan (year_of d0) (year_of d1))
  end.

Definition ts_min (l : list Z) : option Z :=
  match l with [] => None | x :: l' => Some (fold_left Z.min l' x) end.
Definition ts_max (l : list Z) : option Z :=
  match l with [] => None | x :: l' => Some (fold_left Z.max l' x) end.

(** Stable sorting by insertion, for a boolean order [leb]. *)
Fixpoint insert_by {A} (leb : A -> A -> bool) (x : A) (l : list A) : list A :=
  match l with
  | [] => [x]
  | y :: l' => if leb x y then x :: l else y :: insert_by leb x l'
  end.
Definition sort_by {A} (leb : A -> A -> bool) (l : list A) : list A :=
  fold_right (insert_by leb) [] l.

(** Resampling first orders the rows by timestamp (stable). *)
Definition sort_by_ts {A} (l : list (Z * A)) : list (Z * A) :=
  sort_by (fun a b => fst a <=? fst b) l.

Definition in_bin (b : Bin) (t : Z) : bool := (bin_lo b <=? t) && (t <? bin_hi b).

Definition column_values (j : nat) (rows : list (Z * list cell)) : list cell :=
  map (fun r => nth j (snd r) None) rows.

(** [df.resample(freq_str).agg(agg_dict)]: one row per bin, labelled by
    the bin.  The model covers the six aggregation names the
    configuration documents and raises on every other name, also on one
    pandas would compute (such as median). *)
Definition resample_agg (df : PivotTable) (fs : FreqStr) (agg_dict : PyDict.t string)
  : result (list (Z * list cell)) :=
  rbind (rmap_list (fun col =>
           match agg_of_string (str_or (PyDict.get agg_dict col) "") with
           | Some f => Ok f
           | None => Raise (ValueError "unknown aggregation")
           end) (pv_columns df)) (fun funcs =>
  let rows := sort_by_ts (pv_rows df) in
  match ts_min (map fst rows), ts_max (map fst rows) with
  | Some tmin, Some tmax =>
      Ok (map (fun b =>
             let group := filter (fun r => in_bin b (fst r)) rows in
             (bin_label b,
              map (fun jf => aggregate (snd jf) (column_values (fst jf) group))
                  (combine (seq 0 (List.length funcs)) funcs)))
            (resample_bins fs tmin tmax))
  | _, _ => Ok []
  end).

(** The period a resampled row stands for, as the loop of
    [_resample_pivot] computes it from the row's label:
    [(period_start, period_end_excl)]. *)
Definition period_bounds (freq : Freq) (period_end : Z) : Z * Z :=
  match freq with
  | D =>
      let period_start := normalize period_end in
      (period_start, period_start + MS_PER_DAY - MS_PER_SECOND)
  | W =>
      (period_end - 6 * MS_PER_DAY, period_end)
  | MS =>
      let period_start := period_end in
      let next_month := add_MonthEnd period_start in
      (period_start, normalize next_month + MS_PER_DAY - MS_PER_SECOND)
  | YS =>
      let period_start := period_end in
      (period_start, add_YearEnd period_start)
  end.

(** The body of the loop: [Some period_start] when the row is appended to
    [complete_rows], [None] when it is skipped. *)
Definition complete_period (freq : Freq) (data_start data_end period_end : Z)
  : option Z :=
  let '(period_start, period_end_excl) := period_bounds freq period_end in
  let first_day_complete := data_start =? normalize data_start in
  if (normalize data_start <=? period_start) && (period_end_excl <=? data_end) then
    if (date_of period_start =? date_of data_start) && negb first_day_complete
    then None
    else Some period_start
  else None.

Fixpoint complete_rows_of {A} (freq : Freq) (data_start data_end : Z)
    (df_resampled : list (Z * A)) : list (Z * A) :=
  match df_resampled with
  | [] => []
  | (period_end, row) :: rest =>
      match complete_period freq data_start data_end period_end with
      | Some period_start =>
          (period_start, row) :: complete_rows_of freq data_start data_end rest
      | None => complete_rows_of freq data_start data_end rest
      end
  end.

Definition freq_str_of (freq : Freq) (sheets_cfg : SheetsCfg) : FreqStr :=
  match freq with
  | W =>
      let offset :=
        _week_start_offset
          (match week_start sheets_cfg with Some s => s | None => "Sunday" end) in
      if offset =? 6 then F_W_SAT else F_W_SUN
  | D => F_D
  | MS => F_MS
  | YS => F_YS
  end.

(** [complete_rows] of [_resample_pivot]: the surviving periods with
    their aggregated rows. *)
Definition complete_rows (df_pivot : PivotTable) (freq : Freq)
    (df_resampled : list (Z * list cell)) : list (Z * list cell) :=
  match ts_min (map fst (pv_rows df_pivot)), ts_max (map fst (pv_rows df_pivot)) with
  | Some data_start, Some data_end =>
      complete_rows_of freq data_start data_end df_resampled
  | _, _ => []
  end.

Definition _resample_pivot (df_pivot : PivotTable) (freq : Freq)
    (agg_map : PyDict.t string) (sheets_cfg : SheetsCfg) : result DataFrame :=
  let data_cols := pv_columns df_pivot in
  let agg_dict := _build_agg_dict data_cols agg_map in
  let freq_str := freq_str_of freq sheets_cfg in
  rbind (resample_agg df_pivot freq_str agg_dict) (fun df_resampled =>
  match complete_rows df_pivot freq df_resampled with
  | [] => Ok DataFrame_empty
  | rows =>
      Ok (mkFrame ("Date" :: data_cols)
                  (map (fun dr => (date_of (fst dr), snd dr)) rows))
  end).

(** ** settings.py *)

Module S.

Definition DEFAULT_TIMEZONE : string := "Asia/Bangkok".
Definition MAX_ENTITIES : Z := 500.
Definition MAX_KEYS : Z := 100.
Definition MAX_POINTS_PER_KEY_PER_ENTITY : Z := 10000.

(** The resolved report configuration.  Formatting values are opaque
    to the core and kept as text. *)
Record ReportConfig : Type := mkReportConfig {
  filename : string;
  filename_timestamp : bool;
  column_map : PyDict.t (list string);
  agg_map : PyDict.t string;
  sheets : SheetsCfg;
  formatting : PyDict.t string
}.

Definition DEFAULT_REPORT_CONFIG : ReportConfig :=
  mkReportConfig "tb_pivot_export.xlsx" true []
    [("default", "mean")]
    (mkSheets (Some "Sunday") (Some false))
    [("sheet_raw", "Raw Data"); ("sheet_pivot", "Pivot");
     ("sheet_daily", "Daily"); ("sheet_weekly", "Weekly");
     ("sheet_monthly", "Monthly"); ("sheet_yearly", "Yearly");
     ("header_fill_colors", "B8CCE4,D9E1F2,EEF2FA");
     ("header_font_bold", "True"); ("header_font_size", "11");
     ("header_alignment", "center"); ("border_style", "thin");
     ("number_format", "#,##0.00");
     ("datetime_format", "yyyy-mm-dd hh:mm:ss");
     ("date_format", "yyyy-mm-dd");
     ("max_col_width", "60"); ("min_col_width", "18");
     ("freeze_raw", "1,0"); ("freeze_pivot", "1,1");
     ("freeze_daily", "1,1"); ("freeze_weekly", "1,1");
     ("freeze_monthly", "1,1"); ("freeze_yearly", "1,1")].

(** [payload.reportConfig]: every key may be absent ([None]); for
    [column_map] an explicit null ([Some None]) differs from absence. *)
Record Overrides : Type := mkOverrides {
  o_filename : option string;
  o_filename_timestamp : option bool;
  o_column_map : option (option (PyDict.t (list string)));
  o_agg_map : option (PyDict.t string);
  o_sheets : option SheetsCfg;
  o_formatting : option (PyDict.t string)
}.

(** [{**a, **b}] *)
Definition dict_merge {V} (a b : PyDict.t V) : PyDict.t V :=
  fold_left (fun d kv => PyDict.set d (fst kv) (snd kv)) b a.

Definition or_else {A} (o : option A) (d : option A) : option A :=
  match o with Some _ => o | None => d end.

Definition sheets_is_empty (s : SheetsCfg) : bool :=
  match week_start s, partial_period s with
  | None, None => true
  | _, _ => false
  end.

Definition sheets_merge (a b : SheetsCfg) : SheetsCfg :=
  mkSheets (or_else (week_start b) (week_start a))
           (or_else (partial_period b) (partial_period a)).

Definition is_nil {A} (l : list A) : bool :=
  match l with [] => true | _ => false end.

Definition resolve_config (defaults : ReportConfig) (overrides : option Overrides)
  : ReportConfig :=
  match overrides with
  | None => defaults
  | Some rc =>
      mkReportConfig
        (match o_filename rc with Some f => f | None => filename defaults end)
        (match o_filename_timestamp rc with
         | Some b => b | None => filename_timestamp defaults end)
        (match o_column_map rc with
         | Some (Some m) => m
         | Some None => []
         | None => column_map defaults
         end)
        (match o_agg_map rc with
         | Some pa => if is_nil pa then [] else dict_merge (agg_map defaults) pa
         | None => agg_map defaults
         end)
        (match o_sheets rc with
         | Some ps =>
             if sheets_is_empty ps then mkSheets None None
             else sheets_merge (sheets defaults) ps
         | None => sheets defaults
         end)
        (match o_formatting rc with
         | Some pf => if is_nil pf then [] else dict_merge (formatting defaults) pf
         | None => formatting defaults
         end)
  end.

End S.

(** ** 1. Config and payload *)

Definition _merge_report_config (payload_report_config : option S.Overrides)
  : S.ReportConfig :=
  S.resolve_config S.DEFAULT_REPORT_CONFIG payload_report_config.

(** The widget payload (a JSON object); an absent or null member is
    [None].  Where the code applies an operation that only some JSON
    values support, a value is given by what the code observes of it. *)

(** An element of [payload.entities].  The code calls [e.get] on it,
    which only an object has, and [.upper()] on a truthy "type", which
    only a string has.  Of an object with a usable "type" the members are
    given as the code sees them: the "type" is [None] when it is absent,
    null or another falsy value, and [Some s] for the string [s]; "id"
    and "name" are [None] when absent, null or falsy without being a
    string, and [Some s] for the string [s] or for a truthy value of
    another type that [str()] renders as [s]. *)
Inductive EntityJson : Type :=
| mkEntityJson (e_type e_id e_name : option string)
| entity_with_odd_type (e_id e_name : option string)
| not_an_object.

Definition e_type (e : EntityJson) : option string :=
  match e with mkEntityJson t _ _ => t | _ => None end.
Definition e_id (e : EntityJson) : option string :=
  match e with
  | mkEntityJson _ i _ | entity_with_odd_type i _ => i
  | not_an_object => None
  end.
Definition e_name (e : EntityJson) : option string :=
  match e with
  | mkEntityJson _ _ n | entity_with_odd_type _ n => n
  | not_an_object => None
  end.

(** A JSON value that the code passes to [int()]: null, an integer, or
    any other value (a string, a boolean, a fraction, an array, an
    object), of which the code sees the truthiness and what [int()] makes
    of it. *)
Inductive JNum : Type :=
| NNull
| NInt (z : Z)
| NOther (truthy : bool) (as_int : result Z).

(** A JSON value on which the code calls a string method: null, a
    string, or a value without string methods, of which the code sees
    the truthiness. *)
Inductive JStr : Type :=
| SNull
| SStr (s : string)
| SOther (truthy : bool).

Record TimeEpoch : Type := mkTimeEpoch {
  startTs_ms : option Z;
  endTs_ms : option Z
}.

Record Query : Type := mkQuery {
  q_agg : option string;
  q_interval : option Z;
  q_limit : JNum;
  q_order : JStr
}.

Record Payload : Type := mkPayload {
  p_timezone : option string;
  p_timeEpoch : option TimeEpoch;
  p_entities : option (list EntityJson);
  (* a key is [None] for null and otherwise its [str()] *)
  p_keys : option (list (option string));
  p_query : option Query;
  p_reportConfig : option S.Overrides
}.

Definition empty_payload : Payload := mkPayload None None None None None None.

Record Entity : Type := mkEntity {
  ent_type : string;
  ent_id : string;
  ent_name : string
}.

(** The dictionary [_parse_payload] returns. *)
Record Parsed : Type := mkParsed {
  timezone : string;
  startTs : Z;
  endTs : Z;
  entities : list Entity;
  keys : list string;
  agg : string;
  interval : option Z;
  limit : Z;
  order : string;
  cfg : S.ReportConfig
}.

(** [str.upper()] on the letters a..z; other characters are left as they
    are (the entity types and the sort orders of the API are ASCII
    words; [str.upper()] maps letters outside ASCII as well). *)
Definition upper_ascii (c : ascii) : ascii :=
  let n := N_of_ascii c in
  if (97 <=? n)%N && (n <=? 122)%N then ascii_of_N (n - 32) else c.

Fixpoint upper (s : string) : string :=
  match s with
  | EmptyString => EmptyString
  | String c s' => String (upper_ascii c) (upper s')
  end.

(** Whitespace as [str.strip()] sees it.  A string is the UTF-8
    encoding of its text: the whitespace characters are the ASCII ones
    (U+0009..U+000D, U+001C..U+0020) and, in two or three bytes, U+0085,
    U+00A0, U+1680, U+2000..U+200A, U+2028, U+2029, U+202F, U+205F and
    U+3000. *)
Definition is_space (c : ascii) : bool :=
  let n := N_of_ascii c in
  ((9 <=? n)%N && (n <=? 13)%N) || ((28 <=? n)%N && (n <=? 32)%N).

Definition is_space2 (c1 c2 : ascii) : bool :=
  let n1 := N_of_ascii c1 in
  let n2 := N_of_ascii c2 in
  (n1 =? 194)%N && ((n2 =? 133) || (n2 =? 160))%N.

Definition is_space3 (c1 c2 c3 : ascii) : bool :=
  let n1 := N_of_ascii c1 in
  let n2 := N_of_ascii c2 in
  let n3 := N_of_ascii c3 in
  ((n1 =? 225) && (n2 =? 154) && (n3 =? 128))%N
  || ((n1 =? 226) && (n2 =? 128)
      && (((128 <=? n3) && (n3 <=? 138)) || (n3 =? 168) || (n3 =? 169) || (n3 =? 175)))%N
  || ((n1 =? 226) && (n2 =? 129) && (n3 =? 159))%N
  || ((n1 =? 227) && (n2 =? 128) && (n3 =? 128))%N.

(** [bool(s.strip())]: some character is not whitespace. *)
Fixpoint strip_nonempty (s : string) : bool :=
  match s with
  | EmptyString => false
  | String c1 s1 =>
      if is_space c1 then strip_nonempty s1
      else
        match s1 with
        | EmptyString => true
        | String c2 s2 =>
            if is_space2 c1 c2 then strip_nonempty s2
            else
              match s2 with
              | EmptyString => true
              | String c3 s3 =>
                  if is_space3 c1 c2 c3 then strip_nonempty s3 else true
              end
        end
  end.

(** [l[:n]] for a non-negative [n]. *)
Definition take {A} (n : Z) (l : list A) : list A := firstn (Z.to_nat n) l.

Definition len {A} (l : list A) : Z := Z.of_nat (List.length l).

Definition some_or {A} (o : option A) (d : A) : A :=
  match o with Some a => a | None => d end.

(** [int(x)] of an optional JSON number: [int(None)] raises. *)
Definition int_of (o : option Z) : result Z :=
  match o with
  | Some z => Ok z
  | None => Raise (TypeError "int() argument must be a number, not NoneType")
  end.

(** A truthy optional integer: present and non-zero. *)
Definition truthy_Z (o : option Z) : bool :=
  match o with Some z => negb (z =? 0) | None => false end.

Definition truthy_str (o : option string) : bool :=
  match o with Some s => negb (String.eqb s "") | None => false end.

Definition truthy_num (j : JNum) : bool :=
  match j with
  | NNull => false
  | NInt z => negb (z =? 0)
  | NOther truthy _ => truthy
  end.

(** [int(x)] *)
Definition int_num (j : JNum) : result Z :=
  match j with
  | NNull => Raise (TypeError "int() argument must be a number, not NoneType")
  | NInt z => Ok z
  | NOther _ as_int => as_int
  end.

(** [(x or default).upper()] *)
Definition upper_or (x : JStr) (default : string) : result string :=
  match x with
  | SNull | SOther false => Ok (upper default)
  | SStr s => Ok (upper (if String.eqb s "" then default else s))
  | SOther true => Raise (AttributeError "object has no attribute 'upper'")
  end.

(** The body of the loop over the entities: [Ok None] for an entity
    that is skipped, an [AttributeError] for an element without [.get]
    or a "type" without [.upper()]. *)
Definition norm_entity (e : EntityJson) : result (option Entity) :=
  match e with
  | not_an_object => Raise (AttributeError "object has no attribute 'get'")
  | entity_with_odd_type _ _ =>
      Raise (AttributeError "object has no attribute 'upper'")
  | mkEntityJson ty eid name =>
      let et := upper (str_or ty "ASSET") in
      if truthy_str eid then
        Ok (Some (mkEntity et (some_or eid "") (str_or name (some_or eid ""))))
      else Ok None
  end.

(** A loop that appends the results it gets and stops at the first
    exception. *)
Fixpoint rfilter_map {A B} (f : A -> result (option B)) (l : list A) : result (list B) :=
  match l with
  | [] => Ok []
  | x :: l' =>
      rbind (f x) (fun y =>
      rbind (rfilter_map f l') (fun ys =>
      Ok (match y with Some b => b :: ys | None => ys end)))
  end.

Fixpoint filter_map {A B} (f : A -> option B) (l : list A) : list B :=
  match l with
  | [] => []
  | x :: l' =>
      match f x with
      | Some y => y :: filter_map f l'
      | None => filter_map f l'
      end
  end.

Definition norm_key (k : option string) : option string :=
  match k with
  | Some s => if strip_nonempty s then Some s else None
  | None => None
  end.

Definition _parse_payload (payload : Payload) : result Parsed :=
  let tz := str_or (p_timezone payload) S.DEFAULT_TIMEZONE in
  let te := some_or (p_timeEpoch payload) (mkTimeEpoch None None) in
  rbind (int_of (startTs_ms te)) (fun start_ts =>
  rbind (int_of (endTs_ms te)) (fun end_ts =>
  let entities := some_or (p_entities payload) [] in
  let keys := some_or (p_keys payload) [] in
  let q := some_or (p_query payload) (mkQuery None None NNull SNull) in
  let agg := str_or (q_agg q) "NONE" in
  let interval := q_interval q in
  rbind (if truthy_num (q_limit q) then int_num (q_limit q)
         else Ok S.MAX_POINTS_PER_KEY_PER_ENTITY) (fun limit =>
  rbind (upper_or (q_order q) "ASC") (fun order =>
  let entities :=
    if S.MAX_ENTITIES <? len entities then take S.MAX_ENTITIES entities
    else entities in
  let keys := if S.MAX_KEYS <? len keys then take S.MAX_KEYS keys else keys in
  let limit :=
    if S.MAX_POINTS_PER_KEY_PER_ENTITY <? limit
    then S.MAX_POINTS_PER_KEY_PER_ENTITY else limit in
  rbind (rfilter_map norm_entity entities) (fun norm_entities =>
  let norm_keys := filter_map norm_key keys in
  let rc := _merge_report_config (p_reportConfig payload) in
  Ok (mkParsed tz start_ts end_ts norm_entities norm_keys agg interval limit order
               rc)))))).

(** ** 2. ThingsBoard fetch *)

(** A telemetry point as the API returns it. *)
Record Point : Type := mkPoint {
  pt_ts : option Z;
  pt_value : cell
}.

Definition KeyedSeries : Type := PyDict.t (list Point).

(** The request [_fetch_timeseries_single] sends: the members of its URL.
    [rq_interval] is the [interval_param]: [None] for the empty string. *)
Record Request : Type := mkRequest {
  rq_entity_type : string;
  rq_entity_id : string;
  rq_keys : list string;
  rq_startTs : Z;
  rq_endTs : Z;
  rq_limit : Z;
  rq_agg : string;
  rq_interval : option Z
}.

Record Response : Type := mkResponse {
  status_code : Z;
  json : KeyedSeries
}.

(** What the program does to the outside world, in order. *)
Inductive Event : Type :=
| EvGet (rq : Request)
| EvRefresh.

(** The collaborators: the HTTP transport answers a request (or fails
    with a transport exception) and the authentication service renews
    the token (or fails); either may depend on everything done so far.
    [utc_offset tz t] is the time-zone database: the offset of zone [tz]
    from UTC at the instant [t], in milliseconds, for a zone name the
    database knows (on an unknown name the code raises when it converts
    the timestamps). *)
Record Env : Type := mkEnv {
  transport : list Event -> Request -> result Response;
  refresh : list Event -> result unit;
  utc_offset : string -> Z -> Z
}.

(** Computations that act on the world and may raise: the trace of
    events so far is threaded through. *)
Definition M (A : Type) : Type := list Event -> result A * list Event.

Definition ret {A} (a : A) : M A := fun tr => (Ok a, tr).
Definition raise {A} (e : exn) : M A := fun tr => (Raise e, tr).
Definition bind {A B} (c : M A) (k : A -> M B) : M B :=
  fun tr =>
    match c tr with
    | (Ok a, tr') => k a tr'
    | (Raise e, tr') => (Raise e, tr')
    end.
Definition lift {A} (r : result A) : M A := fun tr => (r, tr).

Notation "x <- c ;; k" := (bind c (fun x => k))
  (at level 61, c at next level, right associativity).

Definition requests_get (env : Env) (rq : Request) : M Response :=
  fun tr => (transport env tr rq, tr ++ [EvGet rq]).

Definition get_jwt (env : Env) : M unit :=
  fun tr => (refresh env tr, tr ++ [EvRefresh]).

(** [Response.ok] is false, and [raise_for_status] raises, exactly for
    the 4xx and 5xx codes. *)
Definition is_http_error (status : Z) : bool := (400 <=? status) && (status <? 600).

Definition _MAX_INTERVALS_PER_REQUEST : Z := 700.

Definition _fetch_timeseries_single (env : Env) (rq : Request) : M KeyedSeries :=
  r <- requests_get env rq ;;
  r <- (if status_code r =? 401
        then (_ <- get_jwt env ;; requests_get env rq)
        else ret r) ;;
  if is_http_error (status_code r)
  then raise (HTTPError (status_code r))
  else ret (json r).

(** [for key, points in chunk.items(): merged.setdefault(key, []).extend(points)] *)
Definition merge_chunk (merged chunk : KeyedSeries) : KeyedSeries :=
  fold_left
    (fun m kp => PyDict.set m (fst kp) (some_or (PyDict.get m (fst kp)) [] ++ snd kp))
    chunk merged.

(** The same request over another time range. *)
Definition with_range (rq : Request) (start_ts end_ts : Z) : Request :=
  mkRequest (rq_entity_type rq) (rq_entity_id rq) (rq_keys rq) start_ts end_ts
            (rq_limit rq) (rq_agg rq) (rq_interval rq).

(** Raised by the model only, when the fuel of a loop runs out; the
    theorems below show it is never reached. *)
Definition OutOfFuel : exn := ValueError "out of fuel".

(** The [while t < end_ts] loop. *)
Fixpoint chunk_loop (fuel : nat) (env : Env) (rq : Request) (chunk_ms end_ts : Z)
    (t : Z) (merged : KeyedSeries) : M KeyedSeries :=
  if t <? end_ts then
    match fuel with
    | O => raise OutOfFuel
    | S fuel' =>
        let chunk_end := Z.min (t + chunk_ms) end_ts in
        chunk <- _fetch_timeseries_single env (with_range rq t chunk_end) ;;
        chunk_loop fuel' env rq chunk_ms end_ts chunk_end (merge_chunk merged chunk)
    end
  else ret merged.

(** [(end_ts - start_ts) / interval > _MAX_INTERVALS_PER_REQUEST], the
    true division taken exactly; the float division of the code gives
    the same answer for every range shorter than 2^53 ms. *)
Definition exceeds_cap (start_ts end_ts interval : Z) : bool :=
  negb (Qle_bool (inject_Z (end_ts - start_ts) / inject_Z interval)
                 (inject_Z _MAX_INTERVALS_PER_REQUEST)).

Definition _fetch_timeseries (env : Env) (entity_type entity_id : string)
    (keys : list string) (start_ts end_ts limit : Z) (agg : string)
    (interval : option Z) : M KeyedSeries :=
  let active := truthy_Z interval && negb (String.eqb agg "NONE") in
  let interval_param := if active then interval else None in
  let rq := mkRequest entity_type entity_id keys start_ts end_ts limit agg
                      interval_param in
  if active && exceeds_cap start_ts end_ts (some_or interval 0) then
    let chunk_ms := _MAX_INTERVALS_PER_REQUEST * some_or interval 0 in
    chunk_loop (Z.to_nat (end_ts - start_ts)) env rq chunk_ms end_ts start_ts []
  else _fetch_timeseries_single env rq.

(** ** Row unifier *)

(** A unified row: [{"ts": ts, "entity": entity_name, key: value, ...}]. *)
Record RawRow : Type := mkRawRow {
  rr_ts : Z;
  rr_entity : string;
  rr_vals : PyDict.t cell
}.

(** [rows.setdefault(ts, {...}); rows[ts][k] = value] on the dictionary
    of rows, kept in first-seen order of the timestamps.  The code keeps
    "ts" and "entity" in the same dictionary as the values, so a telemetry
    key of that name would overwrite them; the record keeps them apart
    and stands for the code's row for every other key
    ([no_row_field]). *)
Fixpoint set_row_value (rows : list RawRow) (entity_name : string) (ts : Z)
    (k : string) (v : cell) : list RawRow :=
  match rows with
  | [] => [mkRawRow ts entity_name [(k, v)]]
  | r :: rows' =>
      if rr_ts r =? ts
      then mkRawRow (rr_ts r) (rr_entity r) (PyDict.set (rr_vals r) k v) :: rows'
      else r :: set_row_value rows' entity_name ts k v
  end.

Definition _to_raw_rows (entity_name : string) (data_dict : KeyedSeries)
  : list RawRow :=
  fold_left
    (fun rows kp =>
       fold_left
         (fun rows p =>
            match pt_ts p with
            | None => rows
            | Some ts => set_row_value rows entity_name ts (fst kp) (pt_value p)
            end)
         (snd kp) rows)
    data_dict [].

(** The value a row holds for a key: missing when the key is absent or
    its value is null. *)
Definition row_value (r : RawRow) (k : string) : cell :=
  match PyDict.get (rr_vals r) k with Some v => v | None => None end.

(** ** 5. Core logic: raw table and pivot table *)

(** [pd.to_datetime(ts, unit="ms", utc=True).tz_convert(tz).tz_localize(None)]:
    the wall-clock time of an epoch timestamp. *)
Definition to_wall (env : Env) (tz : string) (t : Z) : Z := t + utc_offset env tz t.

(** The raw table: columns "Timestamp", "Asset Name" and the requested
    keys that occur in some row. *)
Record RawTable : Type := mkRawTable {
  rt_columns : list string;
  rt_rows : list (Z * string * list cell)
}.

Definition has_column (raw_rows : list RawRow) (k : string) : bool :=
  existsb (fun r => PyDict.mem (rr_vals r) k) raw_rows.

(** The timestamps the pivot is keyed by, in epoch milliseconds: snapped
    to the start of the aggregation interval when aggregation is active. *)
Definition pivot_ts_ms (p : Parsed) (raw_rows : list RawRow) : list Z :=
  if negb (String.eqb (agg p) "NONE") && truthy_Z (interval p) then
    let interval_ms := some_or (interval p) 0 in
    map (fun r => rr_ts r - rr_ts r mod interval_ms) raw_rows
  else map rr_ts raw_rows.

Definition raw_table (env : Env) (p : Parsed) (raw_rows : list RawRow) : RawTable :=
  let cols := filter (has_column raw_rows) (keys p) in
  mkRawTable cols
    (map (fun r => (to_wall env (timezone p) (rr_ts r), rr_entity r,
                    map (row_value r) cols)) raw_rows).

(** [df_pivot_src]: the raw rows with the "Timestamp" column replaced by
    the wall-clock time of the pivot timestamp. *)
Definition pivot_source (env : Env) (p : Parsed) (raw_rows : list RawRow)
  : list (Z * RawRow) :=
  combine (map (to_wall env (timezone p)) (pivot_ts_ms p raw_rows)) raw_rows.

Definition is_some {A} (o : option A) : bool :=
  match o with Some _ => true | None => false end.

(** The cell of the pivot at timestamp [t] for asset [asset] and key [k]:
    [aggfunc="first"] takes the first non-missing value among the source
    rows of that timestamp and asset, in row order. *)
Definition first_value (src : list (Z * RawRow)) (t : Z) (asset k : string) : cell :=
  match find (fun s => (fst s =? t) && String.eqb (rr_entity (snd s)) asset
                       && is_some (row_value (snd s) k)) src with
  | Some s => row_value (snd s) k
  | None => None
  end.

(** Keep the first occurrence of every element. *)
Fixpoint dedup {A} (eqb : A -> A -> bool) (l : list A) : list A :=
  match l with
  | [] => []
  | x :: l' => x :: filter (fun y => negb (eqb x y)) (dedup eqb l')
  end.

Definition pair_eqb (a b : string * string) : bool :=
  String.eqb (fst a) (fst b) && String.eqb (snd a) (snd b).

(** Tuple order of Python on pairs of strings. *)
Definition pair_leb (a b : string * string) : bool :=
  match String.compare (fst a) (fst b) with
  | Lt => true
  | Eq => String.leb (snd a) (snd b)
  | Gt => false
  end.

(** The timestamps of the pivot index: those at which some requested key
    has a value, ascending. *)
Definition pivot_index (src : list (Z * RawRow)) (keys : list string) : list Z :=
  sort_by Z.leb
    (dedup Z.eqb
       (map fst (filter (fun s => existsb (fun k => is_some (row_value (snd s) k)) keys)
                        src))).

(** The [(key, asset)] columns of [pivot_table]: the pairs for which some
    row holds a value, in the sorted order of the column index. *)
Definition pivot_pairs (src : list (Z * RawRow)) (keys : list string)
  : list (string * string) :=
  sort_by pair_leb
    (dedup pair_eqb
       (flat_map (fun s =>
                    map (fun k => (k, rr_entity (snd s)))
                        (filter (fun k => is_some (row_value (snd s) k)) keys))
                 src)).

(** [f"{asset} {key}"] *)
Definition column_name (ka : string * string) : string :=
  String.append (snd ka) (String.append " " (fst ka)).

(** [c.split(" ", 1)] as the sort key of the remaining columns:
    [(c.split(" ", 1)[0], c.split(" ", 1)[1] if " " in c else "")]. *)
Fixpoint split_space (c : string) : string * string :=
  match c with
  | EmptyString => (EmptyString, EmptyString)
  | String ch c' =>
      if Ascii.eqb ch " "%char then (EmptyString, c')
      else let '(a, b) := split_space c' in (String ch a, b)
  end.

Definition column_leb (c1 c2 : string) : bool :=
  pair_leb (split_space c1) (split_space c2).

Definition mem_str (c : string) (l : list string) : bool :=
  existsb (String.eqb c) l.

(** The final order of the data columns: the keys of [column_map] that
    are pivot columns, in declared order, then the others sorted by the
    part of the name before its first space and then by the part behind
    it.  [columns] are the data columns only: a [column_map] key
    "Timestamp", which the code finds among the columns of the frame and
    repeats, is outside the model. *)
Definition column_order (column_map : PyDict.t (list string)) (columns : list string)
  : list string :=
  let col_order := filter (fun c => mem_str c columns) (PyDict.keys column_map) in
  let remaining :=
    filter (fun c => negb (mem_str c ("Timestamp" :: col_order))) columns in
  col_order ++ sort_by column_leb remaining.

(** The cells of the column named [c]. *)
Definition named_value (src : list (Z * RawRow)) (pairs : list (string * string))
    (t : Z) (c : string) : cell :=
  match find (fun ka => String.eqb (column_name ka) c) pairs with
  | Some ka => first_value src t (snd ka) (fst ka)
  | None => None
  end.

(** [pivot_table(index="Timestamp", columns="Asset Name", values=keys,
    aggfunc="first")], the renaming of the columns, [sort_index] and the
    column ordering.  [pivot_table] raises [KeyError] for a requested key
    that is no column of its input.  The columns looked at are those of
    the telemetry values: a requested key named "Timestamp" or
    "Asset Name", which the frame of the code has as a column of its
    own, is outside the model. *)
Definition build_pivot (src : list (Z * RawRow)) (keys : list string)
    (column_map : PyDict.t (list string)) : result PivotTable :=
  match find (fun k => negb (has_column (map snd src) k)) keys with
  | Some k => Raise (KeyError k)
  | None =>
      let pairs := pivot_pairs src keys in
      let columns := column_order column_map (map column_name pairs) in
      Ok (mkPivot columns
            (map (fun t => (t, map (named_value src pairs t) columns))
                 (pivot_index src keys)))
  end.

Definition sort_desc {A} (l : list (Z * A)) : list (Z * A) :=
  sort_by (fun a b => fst b <=? fst a) l.

(** The four aggregate sheets, in the order the loop tries them. *)
Definition freq_keys : list (Freq * string) :=
  [(D, "daily"); (W, "weekly"); (MS, "monthly"); (YS, "yearly")].

Fixpoint build_agg_sheets (df_pivot : PivotTable) (agg_map : PyDict.t string)
    (sheets_cfg : SheetsCfg) (todo : list (Freq * string))
    (agg_sheets : PyDict.t DataFrame) : result (PyDict.t DataFrame) :=
  match todo with
  | [] => Ok agg_sheets
  | (freq, key) :: todo' =>
      rbind (_resample_pivot df_pivot freq agg_map sheets_cfg) (fun df_agg =>
      build_agg_sheets df_pivot agg_map sheets_cfg todo'
        (if negb (df_empty df_agg) then PyDict.set agg_sheets key df_agg
         else agg_sheets))
  end.

(** What [build_dataframes_from_widget_payload] returns. *)
Record Tables : Type := mkTables {
  df_raw : RawTable;
  df_pivot : PivotTable;
  agg_sheets : PyDict.t DataFrame;
  parsed : Parsed
}.

(** The loop over the entities: fetch, unify, extend [raw_rows]. *)
Fixpoint fetch_entities (env : Env) (p : Parsed) (es : list Entity)
    (raw_rows : list RawRow) : M (list RawRow) :=
  match es with
  | [] => ret raw_rows
  | e :: es' =>
      data <- _fetch_timeseries env (ent_type e) (ent_id e) (keys p)
                (startTs p) (endTs p) (limit p) (agg p) (interval p) ;;
      fetch_entities env p es' (raw_rows ++ _to_raw_rows (ent_name e) data)
  end.

(** The tables built from the unified rows. *)
Definition tables_of_rows (env : Env) (p : Parsed) (raw_rows : list RawRow)
  : result Tables :=
  match raw_rows with
  | [] => Ok (mkTables (mkRawTable [] []) (mkPivot [] []) [] p)
  | _ =>
      let raw := raw_table env p raw_rows in
      rbind (build_pivot (pivot_source env p raw_rows) (keys p)
                         (S.column_map (cfg p))) (fun pivot =>
      let desc := String.eqb (order p) "DESC" in
      let raw :=
        if desc
        then mkRawTable (rt_columns raw)
               (sort_by (fun a b => fst (fst b) <=? fst (fst a)) (rt_rows raw))
        else raw in
      let pivot :=
        if desc then mkPivot (pv_columns pivot) (sort_desc (pv_rows pivot))
        else pivot in
      rbind (build_agg_sheets pivot (S.agg_map (cfg p)) (S.sheets (cfg p))
                              freq_keys []) (fun sheets =>
      Ok (mkTables raw pivot sheets p)))
  end.

Definition build_dataframes_from_widget_payload (env : Env) (payload : Payload)
  : M Tables :=
  p <- lift (_parse_payload payload) ;;
  raw_rows <- fetch_entities env p (entities p) [] ;;
  lift (tables_of_rows env p raw_rows).

(** ** 6. Public API *)

(** The entry point up to the tables: validation, parsing, fetching and
    table building.  The export stage that follows in the code
    ([generate_xlsx_from_widget_payload]: writing and styling the
    workbook, which raises [ValueError] on tables without columns) is
    not part of this definition; of it the file models
    [_resolve_headers], [_write_headers] and the formatting helpers. *)
Definition generate_pivot_excel_file (env : Env) (payload : option Payload) : M Tables :=
  let payload := some_or payload empty_payload in
  let te := some_or (p_timeEpoch payload) (mkTimeEpoch None None) in
  if negb (is_some (startTs_ms te)) || negb (is_some (endTs_ms te)) then
    raise (ValueError "Missing timeEpoch.startTs_ms or timeEpoch.endTs_ms")
  else if S.is_nil (some_or (p_entities payload) []) then
    raise (ValueError "No entities in payload")
  else if S.is_nil (some_or (p_keys payload) []) then
    raise (ValueError "No keys in payload")
  else build_dataframes_from_widget_payload env payload.

(** ** Sample inputs *)

Module Samples.

(** [make_df] of [test_resample.py]: one column "asset1 key1", a row
    every [interval_hours] from [start] for [days] days, values rising
    by 10 from 1000. *)
Fixpoint make_rows (n : nat) (t step v : Z) : list (Z * list cell) :=
  match n with
  | O => []
  | S n' => (t, [Some (inject_Z v)]) :: make_rows n' (t + step) step (v + 10)
  end.

Definition make_df (start days interval_hours : Z) : PivotTable :=
  mkPivot ["asset1 key1"]
    (make_rows (Z.to_nat (days * 24 / interval_hours)) start
               (interval_hours * 3600 * MS_PER_SECOND) 1000).

Definition sheets_cfg : SheetsCfg := mkSheets (Some "Sunday") (Some false).

(** Hourly rows from 2026-01-01 08:00 to 18:00: a window of 10 hours. *)
Definition ten_hours : PivotTable :=
  mkPivot ["asset1 key1"]
    (make_rows 11 (ts_of 2026 1 1 8 0 0) (3600 * MS_PER_SECOND) 1000).

(** One row each midnight from Sunday 2026-01-04 to Saturday
    2026-01-10: the data ends with the first instant of the Saturday. *)
Definition sunday_to_saturday_midnight : PivotTable :=
  mkPivot ["asset1 key1"]
    (make_rows 7 (ts_of 2026 1 4 0 0 0) (24 * 3600 * MS_PER_SECOND) 1000).

(** One row at the first midnight of every month of 2025 and one at the
    midnight of 2025-12-31: the data ends with the first instant of the
    last day of the year. *)
Definition year_to_last_midnight : PivotTable :=
  mkPivot ["asset1 key1"]
    (map (fun m => (ts_of 2025 m 1 0 0 0, [Some (inject_Z m)]))
         [1; 2; 3; 4; 5; 6; 7; 8; 9; 10; 11; 12]
     ++ [(ts_of 2025 12 31 0 0 0, [Some (13 # 1)])]).

(** U+00A0, the no-break space, in UTF-8. *)
Definition nbsp : string :=
  String (ascii_of_N 194) (String (ascii_of_N 160) EmptyString).

(** A payload with 501 entities, the first without an id, and keys of
    which three are unusable. *)
Definition big_payload : Payload :=
  mkPayload None (Some (mkTimeEpoch (Some 0) (Some 3600000)))
    (Some (mkEntityJson None None (Some "ghost")
           :: repeat (mkEntityJson (Some "device") (Some "id1") None) 500))
    (Some [None; Some "  "; Some nbsp; Some "temperature"])
    (Some (mkQuery None None (NInt 50000) SNull))
    None.

(** A payload that asks for 50 points per key, in descending order. *)
Definition small_limit_payload : Payload :=
  mkPayload None (Some (mkTimeEpoch (Some 0) (Some 3600000)))
    (Some [mkEntityJson (Some "device") (Some "id1") None])
    (Some [Some "temperature"])
    (Some (mkQuery None None (NInt 50) (SStr "desc")))
    None.

(** A payload whose entity list holds a null behind a good entity. *)
Definition null_entity_payload : Payload :=
  mkPayload None (Some (mkTimeEpoch (Some 0) (Some 3600000)))
    (Some [mkEntityJson (Some "device") (Some "id1") None; not_an_object])
    (Some [Some "temperature"])
    None None.

Definition is_get (ev : Event) : bool :=
  match ev with EvGet _ => true | EvRefresh => false end.

(** A transport that answers the n-th request with the n-th status of
    a script (200 once the script is over), always with the same
    body; the token renewal succeeds and the zone is UTC. *)
Definition scripted (statuses : list Z) (body : KeyedSeries) : Env :=
  mkEnv (fun tr _ =>
           Ok (mkResponse (nth (List.length (filter is_get tr)) statuses 200) body))
        (fun _ => Ok tt)
        (fun _ _ => 0).

Definition one_point : KeyedSeries := [("k", [mkPoint (Some 1000) (Some (5 # 1))])].

Definition a_request : Request :=
  mkRequest "DEVICE" "id1" ["k"] 0 3600000 100 "NONE" None.

(** Two entities, one key, no aggregation. *)
Definition two_entities : Payload :=
  mkPayload None (Some (mkTimeEpoch (Some 0) (Some 3600000)))
    (Some [mkEntityJson (Some "device") (Some "id1") (Some "first");
           mkEntityJson (Some "device") (Some "id2") (Some "second")])
    (Some [Some "k"]) None None.

(** A telemetry source over a store of points of one key "k": it
    answers a request with the stored points of the requested range,
    taken as the closed range [[startTs, endTs]] or as the half-open
    range [[startTs, endTs)]. *)
Definition point_at (t : Z) : Point := mkPoint (Some t) (Some (inject_Z t)).

Definition closed_source (store : list Z) (a b : Z) : KeyedSeries :=
  [("k", map point_at (filter (fun t => (a <=? t) && (t <=? b)) store))].

Definition halfopen_source (store : list Z) (a b : Z) : KeyedSeries :=
  [("k", map point_at (filter (fun t => (a <=? t) && (t <? b)) store))].

(** A source that aggregates: it sums the stored values (each point is
    worth its timestamp) over the intervals of width [I] counted from the
    start of the requested range, the last one cut at the end of the
    range, which is exclusive, and stamps every interval that holds a
    point with the start of the interval. *)
Definition bucket_point (store : list Z) (lo hi : Z) : option Point :=
  match filter (fun t => (lo <=? t) && (t <? hi)) store with
  | [] => None
  | ts => Some (mkPoint (Some lo) (Some (inject_Z (fold_left Z.add ts 0))))
  end.

Definition bucket_source (store : list Z) (I a b : Z) : KeyedSeries :=
  [("k", filter_map (fun j => bucket_point store (a + j * I) (Z.min (a + (j + 1) * I) b))
                    (zspan 0 ((b - a - 1) / I)))].

Definition source_env (src : Z -> Z -> KeyedSeries) : Env :=
  mkEnv (fun _ rq => Ok (mkResponse 200 (src (rq_startTs rq) (rq_endTs rq))))
        (fun _ => Ok tt)
        (fun _ _ => 0).

Definition store : list Z := [100; 700; 1400; 1500].

Definition wide_store : list Z :=
  [7; 12; 6995; 7000; 7003; 7499; 13999; 14000; 14995; 15000].

(** Unified rows of one asset "asset1" with one telemetry key "key1":
    four samples a day for two days and one more. *)
Definition asset1_rows : list (Z * RawRow) :=
  map (fun n => (ts_of 2026 1 1 0 0 0 + n * 6 * 3600 * MS_PER_SECOND,
                 mkRawRow (ts_of 2026 1 1 0 0 0 + n * 6 * 3600 * MS_PER_SECOND)
                          "asset1" [("key1", Some (inject_Z (10 * n)))]))
      [0; 1; 2; 3; 4; 5; 6; 7; 8].

(** An aggregation map as [settings.py] documents it: an entry per
    telemetry key and a default. *)
Definition per_key_agg_map : PyDict.t string := [("key1", "sum"); ("default", "mean")].


Definition no_agg : Parsed :=
  mkParsed "Asia/Bangkok" 0 7200000 [mkEntity "DEVICE" "id1" "asset1"] ["key1"]
           "NONE" None 10000 "ASC" S.DEFAULT_REPORT_CONFIG.

Definition midpoint_rows : list RawRow :=
  [mkRawRow 1800000 "asset1" [("key1", Some (1 # 1))];
   mkRawRow 5400000 "asset1" [("key1", Some (2 # 1))]].

(** Two rows of one asset that share a pivot timestamp and differ in
    their value, in both orders. *)
Definition collide_a : Z * RawRow := (0, mkRawRow 1000 "asset1" [("key1", Some (1 # 1))]).
Definition collide_b : Z * RawRow := (0, mkRawRow 2000 "asset1" [("key1", Some (2 # 1))]).

End Samples.

(** ** Vocabulary of the properties *)

(** The three defects of a payload that the entry point rejects. *)
Definition time_range_missing (payload : Payload) : Prop :=
  forall s e, p_timeEpoch payload <> Some (mkTimeEpoch (Some s) (Some e)).
Definition entity_list_empty (payload : Payload) : Prop :=
  p_entities payload = None \/ p_entities payload = Some [].
Definition key_list_empty (payload : Payload) : Prop :=
  p_keys payload = None \/ p_keys payload = Some [].

(** An element of the entity list on which the loop body does not
    raise: an object whose "type" is a string or falsy. *)
Definition usable_entity (ej : EntityJson) : Prop :=
  exists ty eid name, ej = mkEntityJson ty eid name.

(** What the loop appends for an element, if anything. *)
Definition kept_entity (ej : EntityJson) : option Entity :=
  match norm_entity ej with Ok o => o | Raise _ => None end.

(** The id and the name under which an element is kept: those of an
    element with a truthy id, the name being the id when there is no
    truthy name. *)
Definition kept_id_name (ej : EntityJson) : option (string * string) :=
  if truthy_str (e_id ej)
  then Some (some_or (e_id ej) "", str_or (e_name ej) (some_or (e_id ej) ""))
  else None.

(** Text of ASCII characters, on which [upper] is [str.upper()]. *)
Fixpoint ascii_text (s : string) : bool :=
  match s with
  | EmptyString => true
  | String c s' => (N_of_ascii c <? 128)%N && ascii_text s'
  end.

Definition plain_type (ej : EntityJson) : Prop :=
  match e_type ej with Some ty => ascii_text ty = true | None => True end.

Definition plain_order (x : JStr) : Prop :=
  match x with SStr o => ascii_text o = true | _ => True end.

(** The sub-ranges the loop requests, from [t] on. *)
Fixpoint chunk_ranges (fuel : nat) (chunk_ms end_ts t : Z) : list (Z * Z) :=
  if t <? end_ts then
    match fuel with
    | O => []
    | S fuel' =>
        let chunk_end := Z.min (t + chunk_ms) end_ts in
        (t, chunk_end) :: chunk_ranges fuel' chunk_ms end_ts chunk_end
    end
  else [].

(** Sub-ranges that follow one another from [a] to [b]: each is not
    empty, at most [w] wide, and starts where the one before ends. *)
Inductive chained (w : Z) : Z -> Z -> list (Z * Z) -> Prop :=
| chained_nil a : chained w a a []
| chained_cons a b c l :
    a < b -> b - a <= w -> chained w b c l -> chained w a c ((a, b) :: l).

(** What has been merged when the loop stands at [t], for a source that
    answers the range from [a] to [b] with [src a b]. *)
Definition merged_upto (src : Z -> Z -> KeyedSeries) (start_ts t : Z)
    (merged : KeyedSeries) : Prop :=
  (t = start_ts /\ merged = []) \/ (start_ts < t /\ PyDict.equiv merged (src start_ts t)).

(** At every seam the loop makes (a whole number of chunks behind
    [start_ts], before [end_ts]) the source answers the range from
    [start_ts] to the end of the chunk behind the seam as the merge of
    its answer up to the seam and its answer to that chunk.  A source
    that takes [endTs] as exclusive and counts its aggregation intervals
    from [startTs] is of this kind. *)
Definition seam_additive (src : Z -> Z -> KeyedSeries) (chunk_ms start_ts end_ts : Z)
  : Prop :=
  forall n, 1 <= n -> start_ts + n * chunk_ms < end_ts ->
    PyDict.equiv
      (src start_ts (Z.min (start_ts + n * chunk_ms + chunk_ms) end_ts))
      (merge_chunk
         (src start_ts (start_ts + n * chunk_ms))
         (src (start_ts + n * chunk_ms)
              (Z.min (start_ts + n * chunk_ms + chunk_ms) end_ts))).

(** The points of key [k] in the answers to a list of ranges, one answer
    behind the other. *)
Definition concat_points (src : Z -> Z -> KeyedSeries) (ranges : list (Z * Z))
    (k : string) : list Point :=
  flat_map (fun ab => some_or (PyDict.get (src (fst ab) (snd ab)) k) []) ranges.

(** The Gregorian calendar repeats every 400 years, that is every 4800
    months or 146097 days.  [month_check i] and [year_check y] hold the
    facts about the month with index [i] and the year [y] that the proofs
    need: the day after the next month end (year end) following the first
    day of the period is the first day of the next period, at least 28
    days later.  [all_from check n i] checks [n] indices from [i]. *)
Definition month_check (i : Z) : bool :=
  (month_end_after (month_start_day i) + 1 =? month_start_day (i + 1))
  && (month_start_day i + 28 <=? month_start_day (i + 1)).

Definition year_check (y : Z) : bool :=
  (year_end_after (year_start_day y) + 1 =? year_start_day (y + 1))
  && (year_start_day y + 28 <=? year_start_day (y + 1)).

Fixpoint all_from (check : Z -> bool) (n : nat) (i : Z) : bool :=
  match n with
  | O => true
  | S n' => check i && all_from check n' (i + 1)
  end.

(** The labels a resample of granularity [freq] can carry: midnights of
    days, of first days of months, or of first days of years. *)
Definition label_of_freq (freq : Freq) (t : Z) : Prop :=
  match freq with
  | D | W => exists d, t = midnight d
  | MS => exists i, t = midnight (month_start_day i)
  | YS => exists y, t = midnight (year_start_day y)
  end.

(** The data, which reaches from [data_start] to [data_end], covers the
    period from [period_start] up to (not including) [next_start]: it
    starts no later than the period and reaches the period's last
    second. *)
Definition fully_covered (data_start data_end period_start next_start : Z) : Prop :=
  data_start <= period_start /\ next_start - MS_PER_SECOND <= data_end.

(** No two source rows of one asset at one pivot timestamp hold
    different values for a requested key. *)
Definition collision_free (src : list (Z * RawRow)) (keys : list string) : Prop :=
  forall s1 s2 k v1 v2,
    In s1 src -> In s2 src -> In k keys ->
    fst s1 = fst s2 ->
    rr_entity (snd s1) = rr_entity (snd s2) ->
    row_value (snd s1) k = Some v1 ->
    row_value (snd s2) k = Some v2 ->
    v1 = v2.

(** The collaborators answer the same whatever happened before. *)
Definition stable_env (env : Env) : Prop :=
  (forall tr tr' rq, transport env tr rq = transport env tr' rq)
  /\ (forall tr tr', refresh env tr = refresh env tr').

(** The result of a computation does not depend on the events before. *)
Definition trace_independent {A} (c : M A) : Prop :=
  forall tr tr', fst (c tr) = fst (c tr').

(** ** 4. Excel formatting helpers *)

(** [l[i]] of Python for an integer index: a negative index counts from
    the end; [None] stands for the [IndexError] of an index out of
    range. *)
Definition py_index {A} (l : list A) (i : Z) : option A :=
  if (0 <=? i) && (i <? len l) then nth_error l (Z.to_nat i)
  else if (- len l <=? i) && (i <? 0) then nth_error l (Z.to_nat (len l + i))
  else None.

Definition default_fill_colors : list string := ["B8CCE4"; "D9E1F2"; "EEF2FA"].

(** [_get_fill_color]: [colors] is [fmt.get("header_fill_colors")],
    absent for [None]. *)
Definition _get_fill_color (colors : option (list string)) (row_index : Z)
  : option string :=
  let colors := some_or colors default_fill_colors in
  let idx := Z.min row_index (len colors - 1) in
  py_index colors idx.

Fixpoint has_space (c : string) : bool :=
  match c with
  | EmptyString => false
  | String ch c' => Ascii.eqb ch " "%char || has_space c'
  end.

(** [col.split(" ", 1)]: two parts around the first space, or the
    string alone when it has no space. *)
Definition split1 (col : string) : list string :=
  if has_space col then [fst (split_space col); snd (split_space col)] else [col].

(** The header labels [_resolve_headers] gives a column before padding. *)
Definition header_labels (column_map : PyDict.t (list string)) (col : string)
  : list string :=
  if String.eqb col "Date" then ["Date"]
  else if String.eqb col "Timestamp" then ["Timestamp"]
  else match PyDict.get column_map col with
       | Some labels => labels
       | None => split1 col
       end.

(** [while len(l) < n: l.append("")] *)
Definition pad_labels (n : nat) (l : list string) : list string :=
  l ++ repeat "" (n - List.length l).

Definition max_length (d : PyDict.t (list string)) : nat :=
  fold_left (fun m kv => Nat.max m (List.length (snd kv))) d 0%nat.

(** [_resolve_headers]: the padded labels of every column and the
    number of header rows; [max()] of no column raises [ValueError]. *)
Definition _resolve_headers (pivot_cols : list string)
    (column_map : PyDict.t (list string)) : result (PyDict.t (list string) * nat) :=
  let resolved :=
    fold_left (fun d col => PyDict.set d col (header_labels column_map col))
              pivot_cols [] in
  match resolved with
  | [] => Raise (ValueError "max() arg is an empty sequence")
  | _ =>
      let max_rows := max_length resolved in
      Ok (map (fun kv => (fst kv, pad_labels max_rows (snd kv))) resolved, max_rows)
  end.

(** The loop over the first header row in [_write_headers], which runs
    when the header has more than one row: [values] are the cell values
    of row 1 as written just before (the labels; openpyxl keeps a string
    as it is), the first being column 1.  The
    loop runs [col_idx] from 3 to [n_cols + 1] with [start_col] starting
    at 2, and merges [start_col .. col_idx - 1] when the value changes or
    the columns end, if that range has more than one cell.  A cell beyond
    the last column reads as [None]. *)
Definition cell_value (values : list string) (col_idx : Z) : option string :=
  if (1 <=? col_idx) && (col_idx <=? len values)
  then nth_error values (Z.to_nat (col_idx - 1))
  else None.

Definition option_str_eqb (a b : option string) : bool :=
  match a, b with
  | Some x, Some y => String.eqb x y
  | None, None => true
  | _, _ => false
  end.

Definition merge_step (values : list string) (st : Z * list (Z * Z)) (col_idx : Z)
  : Z * list (Z * Z) :=
  let '(start_col, merges) := st in
  let n_cols := len values in
  let curr_val := if col_idx <=? n_cols then cell_value values col_idx else None in
  let prev_val := cell_value values start_col in
  if negb (option_str_eqb curr_val prev_val) || (n_cols <? col_idx) then
    let end_col := col_idx - 1 in
    (col_idx, if start_col <? end_col then merges ++ [(start_col, end_col)] else merges)
  else (start_col, merges).

Definition header_merge_loop (values : list string) : list (Z * Z) :=
  snd (fold_left (merge_step values) (zspan 3 (len values + 1)) (2, [])).

(** The first header row as [_write_headers] fills it: the first label
    of every column. *)
Definition first_header_row (cols : list string) (resolved : PyDict.t (list string))
  : list string :=
  map (fun col => hd "" (some_or (PyDict.get resolved col) [])) cols.

(** [_write_headers]: the number of header rows, which it returns, and
    the horizontal merges it makes in row 1.  Only a header of more than
    one row is merged (then column 1 is also merged downwards over the
    header rows). *)
Definition _write_headers (cols : list string) (column_map : PyDict.t (list string))
  : result (nat * list (Z * Z)) :=
  rbind (_resolve_headers cols column_map) (fun rm =>
  let '(resolved, max_header_rows) := rm in
  Ok (max_header_rows,
      if (1 <? max_header_rows)%nat
      then header_merge_loop (first_header_row cols resolved)
      else [])).

(** [_autosize]: the width of a column from the lengths of its cell
    texts. *)
Definition _autosize_width (lengths : list Z) (min_width max_width : Z) : Z :=
  let max_len := fold_left (fun m v => if m <? v then v else m) lengths 0 in
  Z.min (Z.max (max_len + 2) min_width) max_width.

(** ** The name of the exported file *)

(** [s.endswith(suffix)] *)
Definition ends_with (suffix s : string) : bool :=
  let n := String.length s in
  let m := String.length suffix in
  (m <=? n)%nat && String.eqb (substring (n - m) m s) suffix.

(** [s.replace(old, new)] for a non-empty [old]: every occurrence, left
    to right, without overlap.  After a match the scan resumes behind the
    occurrence; [skip] passes over the rest of it. *)
Fixpoint replace_all (old new s : string) {struct s} : string :=
  match s with
  | EmptyString => EmptyString
  | String c s' =>
      if String.prefix old s && negb (String.eqb old "")
      then String.append new
             ((fix skip (t : string) (k : nat) {struct t} : string :=
                 match k with
                 | O => replace_all old new t
                 | S k' =>
                     match t with
                     | String _ t' => skip t' k'
                     | EmptyString => EmptyString
                     end
                 end) s' (String.length old - 1)%nat)
      else String c (replace_all old new s')
  end.

(** The name of the workbook in [generate_xlsx_from_widget_payload]:
    [ts] is the formatted time of the export. *)
Definition output_filename (filename : string) (filename_timestamp : bool)
    (ts : string) : string :=
  let fname :=
    if negb (ends_with ".xlsx" (lower filename))
    then String.append filename ".xlsx" else filename in
  if filename_timestamp
  then replace_all ".xlsx" (String.append "_" (String.append ts ".xlsx")) fname
  else fname.

(** ** Vocabulary of the further properties *)

(** The timestamps of all points of a response, in the order in which
    [_to_raw_rows] meets them; points without a timestamp give none. *)
Definition point_timestamps (data : KeyedSeries) : list Z :=
  flat_map (fun kp => filter_map pt_ts (snd kp)) data.

(** The value of the last point of a series at timestamp [t]. *)
Definition last_point_value (pts : list Point) (t : Z) : option cell :=
  fold_left
    (fun acc p =>
       match pt_ts p with
       | Some t' => if t' =? t then Some (pt_value p) else acc
       | None => acc
       end)
    pts None.

(** The row of a timestamp among unified rows. *)
Definition row_at (rows : list RawRow) (t : Z) : option RawRow :=
  find (fun r => rr_ts r =? t) rows.


(** The pairs of key and point of a response, in iteration order. *)
Definition keyed_points (data : KeyedSeries) : list (string * Point) :=
  flat_map (fun kp => map (pair (fst kp)) (snd kp)) data.

Definition unify_step (entity_name : string) (rows : list RawRow) (kp : string * Point)
  : list RawRow :=
  match pt_ts (snd kp) with
  | None => rows
  | Some ts => set_row_value rows entity_name ts (fst kp) (pt_value (snd kp))
  end.

(** The value that unified rows hold at timestamp [t] for key [k]. *)
Definition cell_at (rows : list RawRow) (t : Z) (k : string) : option cell :=
  match row_at rows t with
  | Some r => PyDict.get (rr_vals r) k
  | None => None
  end.

(** The write of one point, seen at one timestamp and key. *)
Definition write_at (t : Z) (k : string) (acc : option cell) (kp : string * Point)
  : option cell :=
  match pt_ts (snd kp) with
  | Some t' => if (t' =? t) && String.eqb (fst kp) k then Some (pt_value (snd kp)) else acc
  | None => acc
  end.


(** The character [ch] occurs in [s]. *)
Fixpoint has_char (ch : ascii) (s : string) : bool :=
  match s with
  | EmptyString => false
  | String c s' => Ascii.eqb c ch || has_char ch s'
  end.

(** The cells of the first header row from column [s] to column [e] all
    carry the label of column [s]. *)
Definition same_label (values : list string) (s e : Z) : Prop :=
  forall c, s <= c <= e -> cell_value values c = cell_value values s.

(** Columns [s .. e] are a maximal run of equal labels among the data
    columns (column 1 holds the timestamp). *)
Definition maximal_run (values : list string) (s e : Z) : Prop :=
  2 <= s /\ s <= e /\ e <= len values
  /\ same_label values s e
  /\ cell_value values (e + 1) <> cell_value values s
  /\ (s = 2 \/ cell_value values (s - 1) <> cell_value values s).

(** What holds of [start_col] and the merges made when the loop is about
    to visit column [c]. *)
Definition merge_inv (values : list string) (c : Z) (st : Z * list (Z * Z)) : Prop :=
  2 <= fst st < c
  /\ (len values + 1 < c -> fst st = len values + 1)
  /\ same_label values (fst st) (c - 1)
  /\ (fst st = 2 \/ cell_value values (fst st - 1) <> cell_value values (fst st))
  /\ StronglySorted (fun a b => snd a < fst b) (snd st)
  /\ (forall s e, In (s, e) (snd st) <-> (maximal_run values s e /\ s < e /\ e < fst st)).

(** The names the code gives the fields of a row and the columns of its
    frames.  A telemetry key of such a name would collide with them (in
    the row dictionary, which holds "ts" and "entity" beside the values,
    or in [df_raw.columns]); the rows and tables of the model keep these
    fields apart, so they stand for the code's only where no telemetry
    key has such a name. *)
Definition row_field_names : list string := ["ts"; "entity"].

Definition no_row_field (k : string) : Prop := ~ In k row_field_names.



(** * Properties *)

(** ** Payload parsing *)

Lemma take_firstn {A} (n : Z) (l : list A) :
  (if n <? len l then take n l else l) = take n l.
Proof.
  unfold take, len. destruct (n <? Z.of_nat (List.length l)) eqn:E; [reflexivity|].
  apply Z.ltb_ge in E. symmetry. apply firstn_all2. lia.
Qed.

Lemma filter_map_length {A B} (f : A -> option B) (l : list A) :
  (List.length (filter_map f l) <= List.length l)%nat.
Proof.
  induction l as [|x l IH]; simpl; [lia|]. destruct (f x); simpl; lia.
Qed.

Lemma filter_map_In {A B} (f : A -> option B) (l : list A) (y : B) :
  In y (filter_map f l) <-> exists x, In x l /\ f x = Some y.
Proof.
  induction l as [|x l IH]; simpl.
  - split; [tauto | intros [x [[] _]]].
  - destruct (f x) eqn:E; simpl; rewrite IH; split.
    + intros [<- | [x' [Hin Hf]]]; eauto.
    + intros [x' [[<- | Hin] Hf]]; [left; congruence | right; eauto].
    + intros [x' [Hin Hf]]; eauto.
    + intros [x' [[<- | Hin] Hf]]; [congruence | eauto].
Qed.

Lemma take_length {A} (n : Z) (l : list A) : 0 <= n -> len (take n l) <= n.
Proof.
  intros Hn. unfold len, take. rewrite length_firstn. lia.
Qed.

Lemma In_firstn {A} (n : nat) (l : list A) (x : A) : In x (firstn n l) -> In x l.
Proof.
  intros H. rewrite <- (firstn_skipn n l). apply in_app_iff. now left.
Qed.

Lemma rfilter_map_usable (es : list EntityJson) :
  Forall usable_entity es -> rfilter_map norm_entity es = Ok (filter_map kept_entity es).
Proof.
  induction 1 as [|ej es [ty [eid [name ->]]] _ IH]; [reflexivity|].
  cbn [rfilter_map filter_map]. unfold kept_entity at 1. cbn [norm_entity].
  destruct (truthy_str eid); cbn [rbind]; rewrite IH; reflexivity.
Qed.

Lemma kept_id_name_map (es : list EntityJson) :
  Forall usable_entity es ->
  map (fun x => (ent_id x, ent_name x)) (filter_map kept_entity es)
  = filter_map kept_id_name es.
Proof.
  induction 1 as [|ej es [ty [eid [name ->]]] _ IH]; [reflexivity|].
  cbn [filter_map]. unfold kept_entity at 1, kept_id_name at 1.
  cbn [norm_entity e_id e_name].
  destruct (truthy_str eid); cbn [map ent_id ent_name]; rewrite IH; reflexivity.
Qed.

Lemma rfilter_map_raises (es : list EntityJson) (ej : EntityJson) :
  In ej es -> ~ usable_entity ej ->
  exists msg, rfilter_map norm_entity es = Raise (AttributeError msg).
Proof.
  induction es as [|x es IH]; intros Hin Hbad; [destruct Hin|].
  cbn [rfilter_map]. destruct x as [ty eid name | eid name |]; cbn [norm_entity].
  - assert (In ej es) as Hin'.
    { destruct Hin as [<- | Hin]; [|exact Hin].
      exfalso. apply Hbad. exists ty, eid, name. reflexivity. }
    destruct (IH Hin' Hbad) as [msg ->].
    destruct (truthy_str eid); cbn [rbind]; eexists; reflexivity.
  - eexists. reflexivity.
  - eexists. reflexivity.
Qed.

(** Parsing up to the loop over the entities. *)
Lemma _parse_payload_eq (payload : Payload) (s e : Z) (requested : Z) (ord : string) :
  p_timeEpoch payload = Some (mkTimeEpoch (Some s) (Some e)) ->
  (if truthy_num (q_limit (some_or (p_query payload) (mkQuery None None NNull SNull)))
   then int_num (q_limit (some_or (p_query payload) (mkQuery None None NNull SNull)))
   else Ok 10000) = Ok requested ->
  upper_or (q_order (some_or (p_query payload) (mkQuery None None NNull SNull))) "ASC"
  = Ok ord ->
  _parse_payload payload
  = rbind (rfilter_map norm_entity (firstn 500 (some_or (p_entities payload) [])))
      (fun norm_entities =>
         Ok (mkParsed (str_or (p_timezone payload) S.DEFAULT_TIMEZONE) s e
               norm_entities
               (filter_map norm_key (firstn 100 (some_or (p_keys payload) [])))
               (str_or (q_agg (some_or (p_query payload) (mkQuery None None NNull SNull)))
                       "NONE")
               (q_interval (some_or (p_query payload) (mkQuery None None NNull SNull)))
               (Z.min requested 10000) ord
               (_merge_report_config (p_reportConfig payload)))).
Proof.
  intros Hte Hlim Hord. unfold _parse_payload. rewrite Hte.
  cbn [some_or startTs_ms endTs_ms int_of rbind].
  unfold S.MAX_POINTS_PER_KEY_PER_ENTITY in *. rewrite Hlim.
  cbn [rbind]. rewrite Hord. cbn [rbind]. rewrite !take_firstn.
  unfold take, S.MAX_ENTITIES, S.MAX_KEYS.
  replace (if 10000 <? requested then 10000 else requested) with (Z.min requested 10000)
    by (destruct (Z.ltb_spec 10000 requested); lia).
  reflexivity.
Qed.

(** C10: [_parse_payload] truncates and filters an oversized entity or
    key list and never rejects it, but not every malformed element
    passes.  With the time range present, a point limit on which [int()]
    succeeds and an order that has [.upper()]: if each of the first 500
    payload entities is an object with a usable "type", parsing returns a
    result in which the entities are those of the first 500 that have a
    non-empty id, in payload order and under their ids and names (with
    the upper-cased type, for types of ASCII characters), the keys are
    those of the first 100 payload keys that are neither null nor
    whitespace-only, and the point limit is the smaller of the requested
    limit (10000 when none is requested) and 10000; and if one of the
    first 500 entities is null, no object, or has a truthy "type" that is
    no string, parsing raises an [AttributeError]. *)
Theorem C10_parse_truncates_silently (payload : Payload) (s e : Z)
    (requested : Z) (ord : string) :
  let es := firstn 500 (some_or (p_entities payload) []) in
  let ks := firstn 100 (some_or (p_keys payload) []) in
  let q := some_or (p_query payload) (mkQuery None None NNull SNull) in
  p_timeEpoch payload = Some (mkTimeEpoch (Some s) (Some e)) ->
  (if truthy_num (q_limit q) then int_num (q_limit q) else Ok 10000) = Ok requested ->
  upper_or (q_order q) "ASC" = Ok ord ->
  (Forall usable_entity es ->
   exists p,
     _parse_payload payload = Ok p
     /\ map (fun x => (ent_id x, ent_name x)) (entities p) = filter_map kept_id_name es
     /\ (Forall plain_type es -> entities p = filter_map kept_entity es)
     /\ keys p = filter_map norm_key ks
     /\ limit p = Z.min requested 10000
     /\ (plain_order (q_order q) -> order p = ord)
     /\ len (entities p) <= 500
     /\ len (keys p) <= 100
     /\ (forall x, In x (entities p) -> ent_id x <> "")
     /\ (forall ej, In ej es -> truthy_str (e_id ej) = false -> kept_entity ej = None)
     /\ (forall k, In k (keys p) -> strip_nonempty k = true)
     /\ (forall k, In k ks ->
                   (k = None \/ exists s', k = Some s' /\ strip_nonempty s' = false) ->
                   norm_key k = None))
  /\ (forall ej, In ej es -> ~ usable_entity ej ->
                 exists msg, _parse_payload payload = Raise (AttributeError msg)).
Proof.
  intros es ks q Hte Hlim Hord.
  pose proof (_parse_payload_eq payload s e requested ord Hte Hlim Hord) as Hrun.
  fold es ks q in Hrun.
  split.
  - intros Hes. rewrite Hrun, (rfilter_map_usable es Hes). cbn [rbind].
    eexists. split; [reflexivity|]. cbn [entities keys limit order].
    split; [apply kept_id_name_map, Hes|].
    split; [reflexivity|]. split; [reflexivity|]. split; [reflexivity|].
    split; [reflexivity|].
    split.
    { unfold len, es.
      pose proof (filter_map_length kept_entity
                    (firstn 500 (some_or (p_entities payload) []))) as H.
      rewrite length_firstn in H. lia. }
    split.
    { unfold len, ks.
      pose proof (filter_map_length norm_key
                    (firstn 100 (some_or (p_keys payload) []))) as H.
      rewrite length_firstn in H. lia. }
    split.
    { intros x Hx. apply filter_map_In in Hx. destruct Hx as [ej [_ Hn]].
      unfold kept_entity in Hn. destruct ej as [ty eid name | eid name |];
        cbn [norm_entity] in Hn; try discriminate.
      destruct (truthy_str eid) eqn:Et; [|discriminate].
      injection Hn as <-. cbn [ent_id]. unfold truthy_str in Et.
      destruct eid as [i|]; [|discriminate]. cbn [some_or].
      intros ->. discriminate. }
    split.
    { intros ej _ Ht. unfold kept_entity.
      destruct ej as [ty eid name | eid name |]; cbn [norm_entity e_id] in *;
        try reflexivity.
      rewrite Ht. reflexivity. }
    split.
    { intros k Hk. apply filter_map_In in Hk. destruct Hk as [ok [_ Hn]].
      unfold norm_key in Hn. destruct ok as [s'|]; [|discriminate].
      destruct (strip_nonempty s') eqn:Es; [|discriminate]. congruence. }
    { intros k _ [-> | [s' [-> Hs]]]; [reflexivity|]. unfold norm_key. rewrite Hs.
      reflexivity. }
  - intros ej Hin Hbad. destruct (rfilter_map_raises es ej Hin Hbad) as [msg Hr].
    exists msg. rewrite Hrun, Hr. reflexivity.
Qed.

Lemma C10_parse_truncates_silently_witness :
  (exists p,
      _parse_payload Samples.big_payload = Ok p
      /\ List.length (entities p) = 499%nat
      /\ keys p = ["temperature"]
      /\ limit p = 10000)
  /\ (exists p,
         _parse_payload Samples.small_limit_payload = Ok p
         /\ limit p = 50
         /\ order p = "DESC").
Proof.
  split.
  - destruct (C10_parse_truncates_silently Samples.big_payload 0 3600000 50000 "ASC"
                eq_refl eq_refl eq_refl) as [H _].
    destruct H as [p [Hp [_ [He [Hk [Hl _]]]]]].
    { apply Forall_forall. intros ej Hin. apply In_firstn in Hin.
      destruct Hin as [<- | Hin]; [eexists _, _, _; reflexivity|].
      apply repeat_spec in Hin. subst ej. eexists _, _, _; reflexivity. }
    exists p. split; [exact Hp|].
    split; [rewrite He; [vm_compute; reflexivity|]|].
    { apply Forall_forall. intros ej Hin. apply In_firstn in Hin.
      destruct Hin as [<- | Hin]; [reflexivity|].
      apply repeat_spec in Hin. subst ej. reflexivity. }
    split; [rewrite Hk; vm_compute; reflexivity|].
    rewrite Hl. reflexivity.
  - destruct (C10_parse_truncates_silently Samples.small_limit_payload 0 3600000 50 "DESC"
                eq_refl eq_refl eq_refl) as [H _].
    destruct H as [p [Hp [_ [_ [_ [Hl [Ho _]]]]]]].
    { repeat constructor. eexists _, _, _; reflexivity. }
    exists p. split; [exact Hp|].
    split; [rewrite Hl; reflexivity | apply Ho; reflexivity].
Defined.

(** C10 as the claim words it fails: a partly malformed entity list can
    make parsing raise.  A null among the entities, here behind a good
    entity, has no [.get]. *)
Lemma C10_counterexample_null_entity :
  exists msg,
    _parse_payload Samples.null_entity_payload = Raise (AttributeError msg)
    /\ In not_an_object (some_or (p_entities Samples.null_entity_payload) []).
Proof.
  eexists. split; [vm_compute; reflexivity | right; left; reflexivity].
Qed.

(** ** Sorting and duplicate removal *)

Section Sorting.

Context {A : Type}.
Variable leb : A -> A -> bool.

Lemma insert_by_perm (x : A) (l : list A) : Permutation (insert_by leb x l) (x :: l).
Proof.
  induction l as [|y l IH]; cbn [insert_by]; [reflexivity|].
  destruct (leb x y); [reflexivity|].
  rewrite IH. apply perm_swap.
Qed.

Lemma sort_by_perm (l : list A) : Permutation (sort_by leb l) l.
Proof.
  induction l as [|x l IH]; cbn [sort_by fold_right]; [reflexivity|].
  fold (sort_by leb l). rewrite insert_by_perm, IH. reflexivity.
Qed.

Lemma sort_by_In (x : A) (l : list A) : In x (sort_by leb l) <-> In x l.
Proof.
  split; apply Permutation_in; [|symmetry]; apply sort_by_perm.
Qed.

Lemma sort_by_NoDup (l : list A) : NoDup l -> NoDup (sort_by leb l).
Proof.
  intros H. eapply Permutation_NoDup; [symmetry; apply sort_by_perm | exact H].
Qed.

Hypothesis leb_total : forall x y, leb x y = true \/ leb y x = true.
Hypothesis leb_trans : forall x y z, leb x y = true -> leb y z = true -> leb x z = true.

Lemma insert_by_sorted (x : A) (l : list A) :
  StronglySorted (fun a b => leb a b = true) l ->
  StronglySorted (fun a b => leb a b = true) (insert_by leb x l).
Proof.
  induction 1 as [|y l Hs IH Hall]; cbn [insert_by].
  - constructor; constructor.
  - destruct (leb x y) eqn:E.
    + constructor; [constructor; assumption|].
      constructor; [exact E|].
      eapply Forall_impl; [|exact Hall]. cbn. intros z Hz. eapply leb_trans; eassumption.
    + constructor; [exact IH|].
      assert (leb y x = true) as Hyx by (destruct (leb_total x y); congruence).
      eapply Permutation_Forall; [symmetry; apply insert_by_perm|].
      constructor; assumption.
Qed.

Lemma sort_by_sorted (l : list A) :
  StronglySorted (fun a b => leb a b = true) (sort_by leb l).
Proof.
  induction l as [|x l IH]; cbn [sort_by fold_right]; [constructor|].
  apply insert_by_sorted. exact IH.
Qed.

Hypothesis leb_antisym : forall x y, leb x y = true -> leb y x = true -> x = y.

(** Two duplicate-free sorted lists with the same elements are equal. *)
Lemma sorted_unique (l1 l2 : list A) :
  StronglySorted (fun a b => leb a b = true) l1 ->
  StronglySorted (fun a b => leb a b = true) l2 ->
  NoDup l1 -> NoDup l2 ->
  (forall x, In x l1 <-> In x l2) ->
  l1 = l2.
Proof.
  intros H1. revert l2. induction H1 as [|a l1 Hs1 IH Hall1]; intros l2 H2 Hn1 Hn2 Hin.
  - destruct l2 as [|b l2]; [reflexivity|].
    exfalso. apply (proj2 (Hin b)). now left.
  - destruct H2 as [|b l2 Hs2 Hall2].
    + exfalso. apply (proj1 (Hin a)). now left.
    + assert (a = b) as <-.
      { destruct (proj1 (Hin a) (or_introl eq_refl)) as [Hba | Hina]; [congruence|].
        destruct (proj2 (Hin b) (or_introl eq_refl)) as [Hab | Hinb]; [congruence|].
        rewrite Forall_forall in Hall1, Hall2.
        apply leb_antisym; [apply Hall1, Hinb | apply Hall2, Hina]. }
      inversion Hn1 as [|? ? Hna1 Hn1']; inversion Hn2 as [|? ? Hna2 Hn2']; subst.
      f_equal. apply IH; try assumption.
      intros x. split; intros Hx.
      * destruct (proj1 (Hin x) (or_intror Hx)) as [-> | H]; [contradiction | exact H].
      * destruct (proj2 (Hin x) (or_intror Hx)) as [-> | H]; [contradiction | exact H].
Qed.

Variable eqb : A -> A -> bool.
Hypothesis eqb_eq : forall x y, eqb x y = true <-> x = y.

Lemma dedup_In (x : A) (l : list A) : In x (dedup eqb l) <-> In x l.
Proof.
  induction l as [|y l IH]; cbn [dedup In]; [tauto|].
  rewrite filter_In, IH. split.
  - intros [H | [H _]]; tauto.
  - intros [H | H]; [now left|].
    destruct (eqb y x) eqn:E; [left; apply eqb_eq; exact E | right; split; [exact H | reflexivity]].
Qed.

Lemma dedup_NoDup (l : list A) : NoDup (dedup eqb l).
Proof.
  induction l as [|y l IH]; cbn [dedup]; constructor.
  - rewrite filter_In. intros [_ H]. apply negb_true_iff in H.
    assert (eqb y y = true) by (apply eqb_eq; reflexivity). congruence.
  - apply NoDup_filter. exact IH.
Qed.

(** Sorting the distinct elements gives a list that depends on the set
    of elements only. *)
Lemma sort_dedup_canonical (l1 l2 : list A) :
  (forall x, In x l1 <-> In x l2) ->
  sort_by leb (dedup eqb l1) = sort_by leb (dedup eqb l2).
Proof.
  intros H. apply sorted_unique.
  - apply sort_by_sorted.
  - apply sort_by_sorted.
  - apply sort_by_NoDup, dedup_NoDup.
  - apply sort_by_NoDup, dedup_NoDup.
  - intros x. rewrite !sort_by_In, !dedup_In. apply H.
Qed.

End Sorting.

(** ** The order of strings *)

Lemma ascii_compare_trans (c1 c2 c3 : ascii) (r : comparison) :
  Ascii.compare c1 c2 = r -> Ascii.compare c2 c3 = r -> Ascii.compare c1 c3 = r.
Proof.
  unfold Ascii.compare. destruct r; intros H1 H2.
  - apply N.compare_eq_iff in H1, H2. apply N.compare_eq_iff. congruence.
  - rewrite N.compare_lt_iff in *. lia.
  - rewrite N.compare_gt_iff in *. lia.
Qed.

Lemma string_compare_refl (s : string) : String.compare s s = Eq.
Proof.
  induction s as [|c s IH]; cbn [String.compare]; [reflexivity|].
  unfold Ascii.compare. rewrite N.compare_refl. exact IH.
Qed.

Lemma string_compare_trans (s1 s2 s3 : string) (r : comparison) :
  String.compare s1 s2 = r -> String.compare s2 s3 = r -> String.compare s1 s3 = r.
Proof.
  revert s2 s3 r. induction s1 as [|c1 s1 IH]; intros [|c2 s2] [|c3 s3] r;
    cbn [String.compare]; try congruence.
  destruct (Ascii.compare c1 c2) eqn:E12, (Ascii.compare c2 c3) eqn:E23;
    intros H1 H2; try congruence.
  - rewrite (ascii_compare_trans c1 c2 c3 Eq E12 E23). eapply IH; eassumption.
  - apply Ascii.compare_eq_iff in E12. subst c2. rewrite E23. exact H2.
  - apply Ascii.compare_eq_iff in E12. subst c2. rewrite E23. exact H2.
  - apply Ascii.compare_eq_iff in E23. subst c3. rewrite E12. exact H1.
  - rewrite (ascii_compare_trans c1 c2 c3 Lt E12 E23). exact H1.
  - apply Ascii.compare_eq_iff in E23. subst c3. rewrite E12. exact H1.
  - rewrite (ascii_compare_trans c1 c2 c3 Gt E12 E23). exact H1.
Qed.

Lemma string_leb_trans (s1 s2 s3 : string) :
  String.leb s1 s2 = true -> String.leb s2 s3 = true -> String.leb s1 s3 = true.
Proof.
  unfold String.leb.
  destruct (String.compare s1 s2) eqn:E12; try discriminate;
    destruct (String.compare s2 s3) eqn:E23; try discriminate; intros _ _.
  - rewrite (string_compare_trans _ _ _ Eq E12 E23). reflexivity.
  - apply String.compare_eq_iff in E12. subst. rewrite E23. reflexivity.
  - apply String.compare_eq_iff in E23. subst. rewrite E12. reflexivity.
  - rewrite (string_compare_trans _ _ _ Lt E12 E23). reflexivity.
Qed.

Lemma pair_leb_total (a b : string * string) : pair_leb a b = true \/ pair_leb b a = true.
Proof.
  unfold pair_leb. rewrite (String.compare_antisym (fst a) (fst b)).
  destruct (String.compare (fst b) (fst a)); cbn [CompOpp]; auto.
  apply String.leb_total.
Qed.

Lemma pair_leb_trans (a b c : string * string) :
  pair_leb a b = true -> pair_leb b c = true -> pair_leb a c = true.
Proof.
  unfold pair_leb.
  destruct (String.compare (fst a) (fst b)) eqn:E12; try discriminate;
    destruct (String.compare (fst b) (fst c)) eqn:E23; try discriminate; intros H1 H2.
  - rewrite (string_compare_trans _ _ _ Eq E12 E23). eapply string_leb_trans; eassumption.
  - apply String.compare_eq_iff in E12. rewrite E12, E23. reflexivity.
  - apply String.compare_eq_iff in E23. rewrite <- E23, E12. reflexivity.
  - rewrite (string_compare_trans _ _ _ Lt E12 E23). reflexivity.
Qed.

Lemma pair_leb_antisym (a b : string * string) :
  pair_leb a b = true -> pair_leb b a = true -> a = b.
Proof.
  unfold pair_leb. rewrite (String.compare_antisym (fst a) (fst b)).
  destruct (String.compare (fst b) (fst a)) eqn:E; cbn [CompOpp]; try discriminate.
  intros H1 H2. apply String.compare_eq_iff in E.
  pose proof (String.leb_antisym _ _ H1 H2) as E2.
  destruct a, b; cbn in *; congruence.
Qed.

Lemma pair_eqb_eq (a b : string * string) : pair_eqb a b = true <-> a = b.
Proof.
  unfold pair_eqb. rewrite andb_true_iff, !String.eqb_eq.
  destruct a, b; cbn. split; [intros [-> ->]; reflexivity | intros H; inversion H; auto].
Qed.

Lemma Z_leb_total (x y : Z) : (x <=? y) = true \/ (y <=? x) = true.
Proof. rewrite !Z.leb_le. lia. Qed.

Lemma Z_leb_trans (x y z : Z) : (x <=? y) = true -> (y <=? z) = true -> (x <=? z) = true.
Proof. rewrite !Z.leb_le. lia. Qed.

Lemma Z_leb_antisym (x y : Z) : (x <=? y) = true -> (y <=? x) = true -> x = y.
Proof. rewrite !Z.leb_le. lia. Qed.

Lemma append_length (s1 s2 : string) :
  String.length (String.append s1 s2) = (String.length s1 + String.length s2)%nat.
Proof.
  induction s1 as [|c s1 IH]; cbn [String.append String.length]; [reflexivity|].
  rewrite IH. reflexivity.
Qed.

(** A pivot column is never named like its telemetry key alone. *)
Lemma column_name_not_key (k a : string) : column_name (k, a) <> k.
Proof.
  intros H. apply (f_equal String.length) in H. unfold column_name in H.
  cbn [fst snd] in H. rewrite !append_length in H. cbn in H. lia.
Qed.

(** ** Validation and transport failures *)

(** C8: a payload with a missing time range, an empty entity list or an
    empty key list makes the entry point raise a [ValueError], and the
    trace of events is unchanged: nothing was fetched. *)
Theorem C8_validation_before_fetch (env : Env) (payload : option Payload)
    (tr : list Event) :
  time_range_missing (some_or payload empty_payload)
  \/ entity_list_empty (some_or payload empty_payload)
  \/ key_list_empty (some_or payload empty_payload) ->
  exists msg,
    generate_pivot_excel_file env payload tr = (Raise (ValueError msg), tr).
Proof.
  intros H. unfold generate_pivot_excel_file.
  set (pl := some_or payload empty_payload) in *.
  destruct (p_timeEpoch pl) as [[[s|] [e|]]|] eqn:Ete; cbn [some_or startTs_ms endTs_ms is_some negb orb];
    try (eexists; reflexivity).
  destruct (p_entities pl) as [[|ej ejs]|] eqn:Een; cbn [some_or S.is_nil];
    try (eexists; reflexivity).
  destruct (p_keys pl) as [[|k ks]|] eqn:Eks; cbn [some_or S.is_nil];
    try (eexists; reflexivity).
  exfalso. destruct H as [H | [[H | H] | [H | H]]];
    [ exact (H s e Ete) | congruence .. ].
Qed.

Lemma C8_validation_before_fetch_witness :
  exists msg,
    generate_pivot_excel_file (Samples.scripted [] Samples.one_point)
      (Some (mkPayload None (Some (mkTimeEpoch (Some 0) None))
               (Some [mkEntityJson None (Some "id1") None]) (Some [Some "k"])
               None None))
      [] = (Raise (ValueError msg), []).
Proof.
  apply (C8_validation_before_fetch (Samples.scripted [] Samples.one_point)). left.
  intros s e. cbn. discriminate.
Defined.

(** One request whose answer is not a 401. *)
Lemma single_without_retry (env : Env) (rq : Request) (tr : list Event) (r : Response) :
  transport env tr rq = Ok r ->
  status_code r <> 401 ->
  _fetch_timeseries_single env rq tr
  = ((if is_http_error (status_code r)
      then Raise (HTTPError (status_code r)) else Ok (json r)),
     tr ++ [EvGet rq]).
Proof.
  intros Ht Hs. unfold _fetch_timeseries_single, bind, requests_get.
  rewrite Ht. apply Z.eqb_neq in Hs. rewrite Hs. cbn.
  destruct (is_http_error (status_code r)); reflexivity.
Qed.

(** A 401 answer: the token is renewed and the request repeated once. *)
Lemma single_with_retry (env : Env) (rq : Request) (tr : list Event) (r r2 : Response) :
  transport env tr rq = Ok r ->
  status_code r = 401 ->
  refresh env (tr ++ [EvGet rq]) = Ok tt ->
  transport env (tr ++ [EvGet rq; EvRefresh]) rq = Ok r2 ->
  _fetch_timeseries_single env rq tr
  = ((if is_http_error (status_code r2)
      then Raise (HTTPError (status_code r2)) else Ok (json r2)),
     tr ++ [EvGet rq; EvRefresh; EvGet rq]).
Proof.
  intros Ht Hs Hr Ht2.
  unfold _fetch_timeseries_single, bind, requests_get, get_jwt.
  rewrite Ht, Hs. cbn. rewrite Hr.
  replace ((tr ++ [EvGet rq]) ++ [EvRefresh]) with (tr ++ [EvGet rq; EvRefresh])
    by (rewrite <- app_assoc; reflexivity).
  rewrite Ht2.
  replace ((tr ++ [EvGet rq; EvRefresh]) ++ [EvGet rq])
    with (tr ++ [EvGet rq; EvRefresh; EvGet rq])
    by (rewrite <- app_assoc; reflexivity).
  destruct (is_http_error (status_code r2)); reflexivity.
Qed.

(** A failed token renewal is fatal as well. *)
Lemma single_refresh_fails (env : Env) (rq : Request) (tr : list Event) (r : Response)
    (e : exn) :
  transport env tr rq = Ok r ->
  status_code r = 401 ->
  refresh env (tr ++ [EvGet rq]) = Raise e ->
  _fetch_timeseries_single env rq tr = (Raise e, tr ++ [EvGet rq; EvRefresh]).
Proof.
  intros Ht Hs Hr.
  unfold _fetch_timeseries_single, bind, requests_get, get_jwt.
  rewrite Ht, Hs. cbn. rewrite Hr. rewrite <- app_assoc. reflexivity.
Qed.

(** An exception in one chunk leaves the loop at once: what was merged
    so far is dropped. *)
Lemma chunk_loop_raises (fuel : nat) (env : Env) (rq : Request) (chunk_ms end_ts t : Z)
    (merged : KeyedSeries) (tr tr' : list Event) (e : exn) :
  t < end_ts ->
  _fetch_timeseries_single env (with_range rq t (Z.min (t + chunk_ms) end_ts)) tr
  = (Raise e, tr') ->
  chunk_loop (S fuel) env rq chunk_ms end_ts t merged tr = (Raise e, tr').
Proof.
  intros Hlt Hs. cbn [chunk_loop]. apply Z.ltb_lt in Hlt. rewrite Hlt.
  unfold bind. rewrite Hs. reflexivity.
Qed.

Lemma fetch_entities_app (env : Env) (p : Parsed) (es1 es2 : list Entity)
    (rows : list RawRow) (tr : list Event) :
  fetch_entities env p (es1 ++ es2) rows tr
  = match fetch_entities env p es1 rows tr with
    | (Ok rows', tr') => fetch_entities env p es2 rows' tr'
    | (Raise e, tr') => (Raise e, tr')
    end.
Proof.
  revert rows tr. induction es1 as [|e es1 IH]; intros rows tr; [reflexivity|].
  cbn [app fetch_entities]. unfold bind.
  destruct (_fetch_timeseries env _ _ _ _ _ _ _ _ tr) as [[data|x] tr1]; [|reflexivity].
  apply IH.
Qed.

Lemma validation_passes (env : Env) (payload : Payload) (s e : Z)
    (ej : EntityJson) (ejs : list EntityJson) (k : option string)
    (ks : list (option string)) :
  p_timeEpoch payload = Some (mkTimeEpoch (Some s) (Some e)) ->
  p_entities payload = Some (ej :: ejs) ->
  p_keys payload = Some (k :: ks) ->
  generate_pivot_excel_file env (Some payload)
  = build_dataframes_from_widget_payload env payload.
Proof.
  intros Ht He Hk. unfold generate_pivot_excel_file. cbn [some_or].
  rewrite Ht, He, Hk. reflexivity.
Qed.

(** A fetch that raises for any entity makes the whole run raise: no
    table is returned. *)
Lemma run_aborts (env : Env) (payload : Payload) (p : Parsed)
    (es1 es2 : list Entity) (e : Entity) (rows1 : list RawRow)
    (tr tr1 tr2 : list Event) (x : exn) :
  _parse_payload payload = Ok p ->
  entities p = es1 ++ e :: es2 ->
  fetch_entities env p es1 [] tr = (Ok rows1, tr1) ->
  _fetch_timeseries env (ent_type e) (ent_id e) (keys p) (startTs p) (endTs p)
    (limit p) (agg p) (interval p) tr1 = (Raise x, tr2) ->
  build_dataframes_from_widget_payload env payload tr = (Raise x, tr2).
Proof.
  intros Hp He H1 Hf.
  unfold build_dataframes_from_widget_payload, bind, lift. rewrite Hp, He.
  rewrite fetch_entities_app, H1. cbn [fetch_entities]. unfold bind.
  rewrite Hf. reflexivity.
Qed.

(** C7, as the code has it: only a 401 answer is retried, once, after
    the token is renewed; every other 4xx or 5xx answer raises at once
    with a single request sent; an error answer to the retry or a failed
    renewal raises; and an exception in the fetch of any entity is the
    result of the whole run, which then returns no table. *)
Theorem C7_retry_on_401_only :
  (forall env rq tr r,
      transport env tr rq = Ok r ->
      status_code r <> 401 ->
      is_http_error (status_code r) = true ->
      _fetch_timeseries_single env rq tr
      = (Raise (HTTPError (status_code r)), tr ++ [EvGet rq]))
  /\ (forall env rq tr r r2,
         transport env tr rq = Ok r ->
         status_code r = 401 ->
         refresh env (tr ++ [EvGet rq]) = Ok tt ->
         transport env (tr ++ [EvGet rq; EvRefresh]) rq = Ok r2 ->
         _fetch_timeseries_single env rq tr
         = ((if is_http_error (status_code r2)
             then Raise (HTTPError (status_code r2)) else Ok (json r2)),
            tr ++ [EvGet rq; EvRefresh; EvGet rq]))
  /\ (forall env rq tr r e,
         transport env tr rq = Ok r ->
         status_code r = 401 ->
         refresh env (tr ++ [EvGet rq]) = Raise e ->
         _fetch_timeseries_single env rq tr = (Raise e, tr ++ [EvGet rq; EvRefresh]))
  /\ (forall env payload s e ej ejs k ks p es1 en es2 rows1 tr tr1 tr2 x,
         p_timeEpoch payload = Some (mkTimeEpoch (Some s) (Some e)) ->
         p_entities payload = Some (ej :: ejs) ->
         p_keys payload = Some (k :: ks) ->
         _parse_payload payload = Ok p ->
         entities p = es1 ++ en :: es2 ->
         fetch_entities env p es1 [] tr = (Ok rows1, tr1) ->
         _fetch_timeseries env (ent_type en) (ent_id en) (keys p) (startTs p)
           (endTs p) (limit p) (agg p) (interval p) tr1 = (Raise x, tr2) ->
         generate_pivot_excel_file env (Some payload) tr = (Raise x, tr2)).
Proof.
  repeat split.
  - intros env rq tr r Ht Hs He.
    rewrite (single_without_retry env rq tr r Ht Hs), He. reflexivity.
  - intros env rq tr r r2. apply single_with_retry.
  - intros env rq tr r e. apply single_refresh_fails.
  - intros env payload s e ej ejs k ks p es1 en es2 rows1 tr tr1 tr2 x
           Ht He Hk Hp Hes H1 Hf.
    rewrite (validation_passes env payload s e ej ejs k ks Ht He Hk).
    eapply run_aborts; eassumption.
Qed.

Lemma C7_retry_on_401_only_witness :
  _fetch_timeseries_single (Samples.scripted [503] Samples.one_point)
    Samples.a_request []
  = (Raise (HTTPError 503), [EvGet Samples.a_request])
  /\ _fetch_timeseries_single (Samples.scripted [401; 200] Samples.one_point)
       Samples.a_request []
     = (Ok Samples.one_point,
        [EvGet Samples.a_request; EvRefresh; EvGet Samples.a_request])
  /\ _fetch_timeseries_single (Samples.scripted [401; 401] Samples.one_point)
       Samples.a_request []
     = (Raise (HTTPError 401),
        [EvGet Samples.a_request; EvRefresh; EvGet Samples.a_request])
  /\ fst (generate_pivot_excel_file (Samples.scripted [200; 500] Samples.one_point)
            (Some Samples.two_entities) [])
     = Raise (HTTPError 500).
Proof.
  destruct C7_retry_on_401_only as [H1 [H2 [_ H4]]].
  split; [|split; [|split]].
  - apply (H1 (Samples.scripted [503] Samples.one_point) Samples.a_request []
              (mkResponse 503 Samples.one_point));
      [reflexivity | cbn; lia | reflexivity].
  - apply (H2 (Samples.scripted [401; 200] Samples.one_point) Samples.a_request []
              (mkResponse 401 Samples.one_point) (mkResponse 200 Samples.one_point));
      reflexivity.
  - apply (H2 (Samples.scripted [401; 401] Samples.one_point) Samples.a_request []
              (mkResponse 401 Samples.one_point) (mkResponse 401 Samples.one_point));
      reflexivity.
  - set (env := Samples.scripted [200; 500] Samples.one_point).
    destruct (_parse_payload Samples.two_entities) as [p|] eqn:Hp; [|discriminate Hp].
    vm_compute in Hp. injection Hp as Hp.
    rewrite (H4 env Samples.two_entities 0 3600000
               (mkEntityJson (Some "device") (Some "id1") (Some "first"))
               [mkEntityJson (Some "device") (Some "id2") (Some "second")]
               (Some "k") [] p
               [mkEntity "DEVICE" "id1" "first"] (mkEntity "DEVICE" "id2" "second") []
               [mkRawRow 1000 "first" [("k", Some (5 # 1))]]
               [] [EvGet (mkRequest "DEVICE" "id1" ["k"] 0 3600000 10000 "NONE" None)]
               [EvGet (mkRequest "DEVICE" "id1" ["k"] 0 3600000 10000 "NONE" None);
                EvGet (mkRequest "DEVICE" "id2" ["k"] 0 3600000 10000 "NONE" None)]
               (HTTPError 500)).
    all: try reflexivity.
    all: subst p; vm_compute; reflexivity.
Defined.

(** C7 as the claim words it fails: a 503 answer is not retried.  One
    request is sent, the token is not renewed, and the call raises. *)
Lemma C7_counterexample_503_not_retried :
  let out := _fetch_timeseries_single (Samples.scripted [503; 200] Samples.one_point)
               Samples.a_request [] in
  fst out = Raise (HTTPError 503)
  /\ snd out = [EvGet Samples.a_request]
  /\ ~ In EvRefresh (snd out).
Proof.
  cbn. repeat split. intros [H | []]. discriminate H.
Qed.

(** ** Chunked retrieval *)

Lemma get_set {V} (d : PyDict.t V) (k k' : string) (v : V) :
  PyDict.get (PyDict.set d k v) k' = if String.eqb k k' then Some v else PyDict.get d k'.
Proof.
  induction d as [|[k0 v0] d IH]; cbn [PyDict.set PyDict.get].
  - reflexivity.
  - destruct (String.eqb_spec k0 k) as [->|Hne]; cbn [PyDict.get].
    + destruct (String.eqb k k'); reflexivity.
    + rewrite IH. destruct (String.eqb_spec k0 k') as [->|Hne'].
      * destruct (String.eqb_spec k k'); [congruence | reflexivity].
      * reflexivity.
Qed.

Lemma get_None_keys {V} (d : PyDict.t V) (k : string) :
  PyDict.get d k = None <-> ~ In k (PyDict.keys d).
Proof.
  induction d as [|[k0 v0] d IH]; cbn [PyDict.get PyDict.keys map fst In].
  - tauto.
  - destruct (String.eqb_spec k0 k) as [->|Hne].
    + split; [discriminate | intros H; exfalso; apply H; now left].
    + unfold PyDict.keys in IH. rewrite IH. tauto.
Qed.

Lemma merge_chunk_cons (m : KeyedSeries) (k : string) (pts : list Point)
    (c : KeyedSeries) :
  merge_chunk m ((k, pts) :: c)
  = merge_chunk (PyDict.set m k (some_or (PyDict.get m k) [] ++ pts)) c.
Proof. reflexivity. Qed.

(** Merging the same chunk into equal dictionaries gives equal
    dictionaries. *)
Lemma merge_chunk_equiv (c m1 m2 : KeyedSeries) :
  PyDict.equiv m1 m2 -> PyDict.equiv (merge_chunk m1 c) (merge_chunk m2 c).
Proof.
  revert m1 m2. induction c as [|[k pts] c IH]; intros m1 m2 H; [exact H|].
  rewrite !merge_chunk_cons. apply IH. intros k'.
  rewrite !get_set, (H k). destruct (String.eqb k k'); [reflexivity | apply H].
Qed.

Lemma merge_chunk_fresh (c m : KeyedSeries) :
  NoDup (PyDict.keys c) ->
  (forall k, In k (PyDict.keys c) -> PyDict.get m k = None) ->
  forall k, PyDict.get (merge_chunk m c) k
            = match PyDict.get c k with Some pts => Some pts | None => PyDict.get m k end.
Proof.
  revert m. induction c as [|[k0 p0] c IH]; intros m Hnd Hfresh k; [reflexivity|].
  rewrite merge_chunk_cons. cbn [PyDict.keys map fst] in Hnd, Hfresh.
  inversion Hnd as [|? ? Hnotin Hnd']; subst.
  rewrite (Hfresh k0 (or_introl eq_refl)). cbn [some_or app].
  rewrite IH; [| exact Hnd' |].
  - cbn [PyDict.get]. rewrite get_set.
    destruct (String.eqb_spec k0 k) as [->|Hne]; [|reflexivity].
    apply get_None_keys in Hnotin. rewrite Hnotin. reflexivity.
  - intros k' Hin. rewrite get_set.
    destruct (String.eqb_spec k0 k') as [->|Hne]; [contradiction|].
    apply Hfresh. now right.
Qed.

(** The first chunk merged into the empty dictionary is the chunk. *)
Lemma merge_chunk_first (c : KeyedSeries) :
  NoDup (PyDict.keys c) -> PyDict.equiv (merge_chunk [] c) c.
Proof.
  intros Hnd k. rewrite (merge_chunk_fresh c [] Hnd); [|reflexivity].
  destruct (PyDict.get c k); reflexivity.
Qed.

(** The cap test, for a positive interval. *)
Lemma exceeds_cap_pos (s e i : Z) :
  0 < i -> exceeds_cap s e i = true <-> 700 * i < e - s.
Proof.
  intros Hi. unfold exceeds_cap, Qle_bool, Qdiv, Qmult, Qinv, inject_Z.
  destruct i as [|p|p]; try lia. cbn [Qnum Qden].
  rewrite negb_true_iff, Z.leb_gt. unfold _MAX_INTERVALS_PER_REQUEST.
  lia.
Qed.

Lemma chunk_ranges_chained (chunk_ms end_ts : Z) (fuel : nat) (t : Z) :
  0 < chunk_ms -> t <= end_ts -> (Z.to_nat (end_ts - t) <= fuel)%nat ->
  chained chunk_ms t end_ts (chunk_ranges fuel chunk_ms end_ts t).
Proof.
  intros Hc. revert t. induction fuel as [|fuel IH]; intros t Hle Hfuel.
  - assert (t = end_ts) as -> by lia. cbn. rewrite Z.ltb_irrefl. constructor.
  - cbn [chunk_ranges]. destruct (Z.ltb_spec t end_ts) as [Hlt|Hge].
    + constructor; [lia | lia | apply IH; lia].
    + assert (t = end_ts) as -> by lia. constructor.
Qed.

(** Every instant of [[a, c)] lies in exactly one of the chained
    sub-ranges, each read as half-open. *)
Lemma chained_lower (w a c : Z) (l : list (Z * Z)) :
  chained w a c l -> forall ab, In ab l -> a <= fst ab /\ fst ab < snd ab /\ snd ab <= c.
Proof.
  induction 1 as [a | a b c l Hab Hw Hch IH]; intros ab Hin; [destruct Hin|].
  assert (b <= c) as Hbc.
  { clear -Hch. induction Hch; lia. }
  destruct Hin as [<- | Hin]; cbn [fst snd]; [lia|].
  specialize (IH ab Hin). lia.
Qed.

Lemma chained_cover (w a c : Z) (l : list (Z * Z)) :
  chained w a c l ->
  forall x, a <= x < c -> exists ab, In ab l /\ fst ab <= x < snd ab.
Proof.
  induction 1 as [a | a b c l Hab Hw Hch IH]; intros x Hx; [lia|].
  destruct (Z_lt_ge_dec x b) as [Hlt|Hge].
  - exists (a, b). split; [now left | cbn; lia].
  - destruct (IH x ltac:(lia)) as [ab [Hin Hr]]. exists ab. split; [now right | exact Hr].
Qed.

Lemma chained_disjoint (w a c : Z) (l : list (Z * Z)) :
  chained w a c l ->
  forall x ab ab', In ab l -> In ab' l ->
                   fst ab <= x < snd ab -> fst ab' <= x < snd ab' -> ab = ab'.
Proof.
  induction 1 as [a | a b c l Hab Hw Hch IH]; intros x ab ab' Hin Hin' Hx Hx';
    [destruct Hin|].
  destruct Hin as [<- | Hin], Hin' as [<- | Hin']; cbn [fst snd] in *.
  - reflexivity.
  - pose proof (chained_lower _ _ _ _ Hch ab' Hin'). lia.
  - pose proof (chained_lower _ _ _ _ Hch ab Hin). lia.
  - eapply IH; eassumption.
Qed.

(** Merging a chunk appends its points key by key. *)
Lemma merge_chunk_get (c m : KeyedSeries) :
  NoDup (PyDict.keys c) ->
  forall k, PyDict.get (merge_chunk m c) k
            = match PyDict.get c k with
              | Some pts => Some (some_or (PyDict.get m k) [] ++ pts)
              | None => PyDict.get m k
              end.
Proof.
  revert m. induction c as [|[k0 p0] c IH]; intros m Hnd k; [reflexivity|].
  rewrite merge_chunk_cons. cbn [PyDict.keys map fst] in Hnd.
  inversion Hnd as [|? ? Hnotin Hnd']; subst.
  rewrite (IH _ Hnd'). cbn [PyDict.get]. rewrite get_set.
  destruct (String.eqb_spec k0 k) as [->|Hne]; [|reflexivity].
  apply get_None_keys in Hnotin. rewrite Hnotin. reflexivity.
Qed.

Section Stable_source.

(** A telemetry source that answers every sub-range request of [rq]
    with status 200 and a body [src a b] depending on the range only. *)
Variable env : Env.
Variable rq : Request.
Variable src : Z -> Z -> KeyedSeries.

Hypothesis stable :
  forall tr a b, transport env tr (with_range rq a b) = Ok (mkResponse 200 (src a b)).

(** A JSON object has no key twice. *)
Hypothesis well_formed : forall a b, NoDup (PyDict.keys (src a b)).

Lemma single_stable (a b : Z) (tr : list Event) :
  _fetch_timeseries_single env (with_range rq a b) tr
  = (Ok (src a b), tr ++ [EvGet (with_range rq a b)]).
Proof.
  rewrite (single_without_retry env _ tr (mkResponse 200 (src a b)) (stable tr a b));
    [reflexivity | cbn; lia].
Qed.

(** The loop sends the requests for [chunk_ranges], in order, and what
    it returns holds for every key the points the dictionary held
    before, followed by those of the answers, one answer behind the
    other. *)
Lemma chunk_loop_concat (chunk_ms end_ts : Z) :
  0 < chunk_ms ->
  forall fuel t merged tr,
    t <= end_ts ->
    (Z.to_nat (end_ts - t) <= fuel)%nat ->
    exists merged',
      chunk_loop fuel env rq chunk_ms end_ts t merged tr
      = (Ok merged',
         tr ++ map (fun ab => EvGet (with_range rq (fst ab) (snd ab)))
                   (chunk_ranges fuel chunk_ms end_ts t))
      /\ forall k,
           some_or (PyDict.get merged' k) []
           = some_or (PyDict.get merged k) []
             ++ concat_points src (chunk_ranges fuel chunk_ms end_ts t) k
           /\ (PyDict.get merged' k = None <->
               PyDict.get merged k = None
               /\ forall ab, In ab (chunk_ranges fuel chunk_ms end_ts t) ->
                             PyDict.get (src (fst ab) (snd ab)) k = None).
Proof.
  intros Hc. induction fuel as [|fuel IH]; intros t merged tr Hte Hfuel.
  - assert (t = end_ts) as -> by lia. cbn. rewrite Z.ltb_irrefl.
    exists merged. rewrite !app_nil_r. split; [reflexivity|].
    intros k. unfold concat_points. cbn [flat_map]. rewrite app_nil_r.
    split; [reflexivity|]. split; [intros H; split; [exact H | intros ab []] | tauto].
  - cbn [chunk_loop chunk_ranges]. destruct (Z.ltb_spec t end_ts) as [Hlt|Hge].
    + set (ce := Z.min (t + chunk_ms) end_ts).
      unfold bind. rewrite single_stable.
      destruct (IH ce (merge_chunk merged (src t ce))
                   (tr ++ [EvGet (with_range rq t ce)])) as [m' [Hrun Hm']];
        try (subst ce; lia).
      exists m'. split.
      * rewrite Hrun. cbn [map fst snd]. rewrite <- app_assoc. reflexivity.
      * intros k. destruct (Hm' k) as [Hpts Hnone].
        rewrite (merge_chunk_get _ merged (well_formed t ce) k) in Hpts, Hnone.
        unfold concat_points in *. cbn [flat_map fst snd]. split.
        -- rewrite Hpts. destruct (PyDict.get (src t ce) k) as [pts|];
             cbn [some_or]; [rewrite <- app_assoc | rewrite app_nil_l]; reflexivity.
        -- rewrite Hnone. destruct (PyDict.get (src t ce) k) as [pts|] eqn:Ek.
           ++ split; [intros [H _]; discriminate H|].
              intros [_ H]. specialize (H (t, ce) (or_introl eq_refl)).
              cbn [fst snd] in H. congruence.
           ++ split.
              ** intros [Hm Hall]. split; [exact Hm|].
                 intros ab [<- | Hin]; [exact Ek | apply Hall, Hin].
              ** intros [Hm Hall]. split; [exact Hm|].
                 intros ab Hin. apply Hall. now right.
    + assert (t = end_ts) as -> by lia.
      exists merged. cbn [map]. rewrite !app_nil_r. split; [reflexivity|].
      intros k. unfold concat_points. cbn [flat_map]. rewrite app_nil_r.
      split; [reflexivity|].
      split; [intros H; split; [exact H | intros ab []] | tauto].
Qed.

(** With a source that is additive at the seams, what the loop returns
    is the answer to the whole range. *)
Lemma chunk_loop_additive (chunk_ms start_ts end_ts : Z) :
  0 < chunk_ms ->
  seam_additive src chunk_ms start_ts end_ts ->
  forall fuel t merged tr out,
    (t = end_ts \/ exists n, 0 <= n /\ t = start_ts + n * chunk_ms) ->
    start_ts <= t -> t <= end_ts ->
    (Z.to_nat (end_ts - t) <= fuel)%nat ->
    merged_upto src start_ts t merged ->
    chunk_loop fuel env rq chunk_ms end_ts t merged tr = out ->
    exists merged', fst out = Ok merged' /\ merged_upto src start_ts end_ts merged'.
Proof.
  intros Hc Hseam. induction fuel as [|fuel IH];
    intros t merged tr out Hn Hst Hte Hfuel Hinv Hrun.
  - assert (t = end_ts) as -> by lia. subst out. cbn. rewrite Z.ltb_irrefl.
    exists merged. split; [reflexivity | exact Hinv].
  - cbn [chunk_loop] in Hrun. destruct (Z.ltb_spec t end_ts) as [Hlt|Hge].
    + destruct Hn as [-> | [n [Hn0 Hn]]]; [lia|].
      unfold bind in Hrun. rewrite single_stable in Hrun.
      apply (IH (Z.min (t + chunk_ms) end_ts)
                (merge_chunk merged (src t (Z.min (t + chunk_ms) end_ts)))
                (tr ++ [EvGet (with_range rq t (Z.min (t + chunk_ms) end_ts))]) out);
        try lia; try exact Hrun.
      * destruct (Z.min_spec (t + chunk_ms) end_ts) as [[Hm ->] | [Hm ->]];
          [right; exists (n + 1); split; [lia | subst t; lia] | now left].
      * right. split; [lia|].
        destruct Hinv as [[-> ->] | [Hlt' Heq]].
        -- apply merge_chunk_first, well_formed.
        -- assert (1 <= n) as Hn1 by (subst t; nia).
           subst t. intros k. rewrite (Hseam n Hn1 Hlt k).
           apply merge_chunk_equiv. exact Heq.
    + assert (t = end_ts) as -> by lia. subst out.
      exists merged. split; [reflexivity | exact Hinv].
Qed.

End Stable_source.

(** C3, as the code has it.  When chunking is triggered (positive
    interval, active aggregation, more than 700 intervals) and the
    telemetry source is stable, the loop requests the sub-ranges
    [chunk_ranges]: they start at [start_ts], each starts where the
    previous one ends, each is at most 700 intervals wide and the last
    ends at [end_ts]; read as half-open they hold every instant of
    [[start_ts, end_ts)] exactly once, while two neighbours share their
    seam as closed ranges.  The merged series is the per-key
    concatenation, in request order, of the answers to the sub-ranges: a
    key has the points of the answers one behind the other, and is
    absent when no answer has it.  It equals the answer to the single
    unsplit request provided the source is additive at the seams the
    loop makes. *)
Theorem C3_chunked_merge_of_additive_source (env : Env) (et eid : string)
    (ks : list string) (start_ts end_ts lim : Z) (ag : string) (i : Z)
    (src : Z -> Z -> KeyedSeries) (tr : list Event) :
  let rq := mkRequest et eid ks start_ts end_ts lim ag (Some i) in
  let ranges :=
    chunk_ranges (Z.to_nat (end_ts - start_ts)) (700 * i) end_ts start_ts in
  0 < i ->
  ag <> "NONE" ->
  exceeds_cap start_ts end_ts i = true ->
  (forall tr' a b,
      transport env tr' (with_range rq a b) = Ok (mkResponse 200 (src a b))) ->
  (forall a b, NoDup (PyDict.keys (src a b))) ->
  exists merged,
    _fetch_timeseries env et eid ks start_ts end_ts lim ag (Some i) tr
    = (Ok merged,
       tr ++ map (fun ab => EvGet (with_range rq (fst ab) (snd ab))) ranges)
    /\ chained (700 * i) start_ts end_ts ranges
    /\ (forall x, start_ts <= x < end_ts ->
                  exists ab, In ab ranges /\ fst ab <= x < snd ab
                             /\ forall ab', In ab' ranges ->
                                            fst ab' <= x < snd ab' -> ab' = ab)
    /\ (forall k,
           some_or (PyDict.get merged k) [] = concat_points src ranges k
           /\ (PyDict.get merged k = None <->
               forall ab, In ab ranges -> PyDict.get (src (fst ab) (snd ab)) k = None))
    /\ (seam_additive src (700 * i) start_ts end_ts ->
        PyDict.equiv merged (src start_ts end_ts))
    /\ _fetch_timeseries_single env rq tr = (Ok (src start_ts end_ts), tr ++ [EvGet rq]).
Proof.
  intros rq ranges Hi Hag Hcap Hst Hwf.
  pose proof (proj1 (exceeds_cap_pos start_ts end_ts i Hi) Hcap) as Hspan.
  assert (chained (700 * i) start_ts end_ts ranges) as Hch.
  { apply chunk_ranges_chained; lia. }
  assert (_fetch_timeseries env et eid ks start_ts end_ts lim ag (Some i) tr
          = chunk_loop (Z.to_nat (end_ts - start_ts)) env rq (700 * i) end_ts
              start_ts [] tr) as Hfetch.
  { unfold _fetch_timeseries. cbn [truthy_Z some_or].
    replace (negb (i =? 0)) with true by (symmetry; apply negb_true_iff, Z.eqb_neq; lia).
    replace (negb (String.eqb ag "NONE")) with true
      by (symmetry; apply negb_true_iff, String.eqb_neq; exact Hag).
    cbn [andb]. rewrite Hcap. reflexivity. }
  destruct (chunk_loop_concat env rq src Hst Hwf (700 * i) end_ts ltac:(lia)
              (Z.to_nat (end_ts - start_ts)) start_ts [] tr)
    as [merged [Hrun Hcat]]; try lia.
  fold ranges in Hrun, Hcat.
  exists merged. split; [rewrite Hfetch; exact Hrun|].
  split; [exact Hch|]. split; [|split; [|split]].
  - intros x Hx. destruct (chained_cover _ _ _ _ Hch x Hx) as [ab [Hin Hr]].
    exists ab. split; [exact Hin | split; [exact Hr|]].
    intros ab' Hin' Hr'. eapply chained_disjoint; eassumption.
  - intros k. destruct (Hcat k) as [Hpts Hnone]. cbn [PyDict.get some_or app] in *.
    split; [exact Hpts|]. rewrite Hnone. split; [intros [_ H]; exact H | auto].
  - intros Hseam.
    destruct (chunk_loop_additive env rq src Hst Hwf (700 * i) start_ts end_ts
                ltac:(lia) Hseam (Z.to_nat (end_ts - start_ts)) start_ts [] tr _
                ltac:(right; exists 0; lia) ltac:(lia) ltac:(lia) ltac:(lia)
                ltac:(left; split; reflexivity) Hrun) as [m' [Hm' Hinv]].
    cbn [fst] in Hm'. injection Hm' as <-.
    destruct Hinv as [[Heq _] | [_ Heq]]; [lia | exact Heq].
  - replace rq with (with_range rq start_ts end_ts) by reflexivity.
    rewrite (single_stable env rq src Hst). reflexivity.
Qed.

(** A source that aggregates over intervals counted from the start of
    the range and cut at its exclusive end is additive at the seams of
    the loop, though not at every split of a range: the answer over
    [[0, 20)] in intervals of 10 is not the merge of the answers over
    [[0, 5)] and [[5, 20)]. *)
Lemma bucket_source_seam_additive :
  seam_additive (Samples.bucket_source Samples.wide_store 10) (700 * 10) 0 15000.
Proof.
  intros n Hn Hlt. assert (n = 1 \/ n = 2) as [-> | ->] by lia;
    vm_compute; intros k; reflexivity.
Qed.

Lemma bucket_source_not_additive :
  Samples.bucket_source Samples.wide_store 10 0 20
  = [("k", [mkPoint (Some 0) (Some (7 # 1)); mkPoint (Some 10) (Some (12 # 1))])]
  /\ merge_chunk (Samples.bucket_source Samples.wide_store 10 0 5)
                 (Samples.bucket_source Samples.wide_store 10 5 20)
     = [("k", [mkPoint (Some 5) (Some (19 # 1))])].
Proof. split; vm_compute; reflexivity. Qed.

(** The half-open source over a sorted store is additive. *)
Lemma filter_from_above (a b : Z) (l : list Z) :
  Forall (fun t => b <= t) l ->
  filter (fun t => (a <=? t) && (t <? b)) l = [].
Proof.
  induction 1 as [|t l Ht _ IH]; [reflexivity|]. cbn [filter].
  replace (t <? b) with false by (symmetry; apply Z.ltb_ge; exact Ht).
  rewrite andb_false_r. exact IH.
Qed.

Lemma filter_lower_bound (a b c : Z) (l : list Z) :
  a <= b -> Forall (fun t => b <= t) l ->
  filter (fun t => (a <=? t) && (t <? c)) l = filter (fun t => (b <=? t) && (t <? c)) l.
Proof.
  intros Hab. induction 1 as [|t l Ht _ IH]; [reflexivity|]. cbn [filter].
  replace (a <=? t) with true by (symmetry; apply Z.leb_le; lia).
  replace (b <=? t) with true by (symmetry; apply Z.leb_le; lia).
  rewrite IH. reflexivity.
Qed.

Lemma filter_halfopen_split (a b c : Z) (store : list Z) :
  StronglySorted Z.le store -> a <= b -> b <= c ->
  filter (fun t => (a <=? t) && (t <? c)) store
  = filter (fun t => (a <=? t) && (t <? b)) store
    ++ filter (fun t => (b <=? t) && (t <? c)) store.
Proof.
  intros Hs Hab Hbc. induction Hs as [|t l Hs IH Hall]; [reflexivity|].
  cbn [filter].
  destruct (Z.leb_spec a t) as [Hat|Hat], (Z.ltb_spec t b) as [Htb|Htb],
           (Z.leb_spec b t) as [Hbt|Hbt], (Z.ltb_spec t c) as [Htc|Htc];
    cbn [andb]; try lia; try (rewrite IH; reflexivity).
  assert (Forall (fun u => b <= u) l) as Hl.
  { eapply Forall_impl; [|exact Hall]. cbn. intros u Hu. lia. }
  rewrite (filter_from_above a b l Hl), (filter_lower_bound a b c l Hab Hl).
  reflexivity.
Qed.

Lemma halfopen_additive (store : list Z) (a b c : Z) :
  StronglySorted Z.le store -> a <= b -> b <= c ->
  PyDict.equiv (Samples.halfopen_source store a c)
    (merge_chunk (Samples.halfopen_source store a b) (Samples.halfopen_source store b c)).
Proof.
  intros Hs Hab Hbc k. unfold Samples.halfopen_source.
  cbn [merge_chunk fold_left fst snd PyDict.get PyDict.set String.eqb Ascii.eqb
       Bool.eqb some_or].
  rewrite (filter_halfopen_split a b c store Hs Hab Hbc), map_app. reflexivity.
Qed.

(** The half-open source of raw points over a sorted store is additive
    at the seams of every chunk width. *)
Lemma halfopen_seam_additive (store : list Z) (chunk_ms start_ts end_ts : Z) :
  StronglySorted Z.le store -> 0 < chunk_ms ->
  seam_additive (Samples.halfopen_source store) chunk_ms start_ts end_ts.
Proof.
  intros Hs Hc n Hn Hlt. apply halfopen_additive; [exact Hs | nia | lia].
Qed.

Lemma C3_chunked_merge_of_additive_source_witness :
  exists merged,
    _fetch_timeseries (Samples.source_env (Samples.bucket_source Samples.wide_store 10))
      "DEVICE" "id1" ["k"] 0 15000 100 "SUM" (Some 10) []
    = (Ok merged,
       [EvGet (mkRequest "DEVICE" "id1" ["k"] 0 7000 100 "SUM" (Some 10));
        EvGet (mkRequest "DEVICE" "id1" ["k"] 7000 14000 100 "SUM" (Some 10));
        EvGet (mkRequest "DEVICE" "id1" ["k"] 14000 15000 100 "SUM" (Some 10))])
    /\ PyDict.equiv merged (Samples.bucket_source Samples.wide_store 10 0 15000)
    /\ PyDict.get merged "k"
       = Some [mkPoint (Some 0) (Some (7 # 1)); mkPoint (Some 10) (Some (12 # 1));
               mkPoint (Some 6990) (Some (6995 # 1));
               mkPoint (Some 7000) (Some (14003 # 1));
               mkPoint (Some 7490) (Some (7499 # 1));
               mkPoint (Some 13990) (Some (13999 # 1));
               mkPoint (Some 14000) (Some (14000 # 1));
               mkPoint (Some 14990) (Some (14995 # 1))].
Proof.
  destruct (C3_chunked_merge_of_additive_source
              (Samples.source_env (Samples.bucket_source Samples.wide_store 10))
              "DEVICE" "id1" ["k"] 0 15000 100 "SUM" 10
              (Samples.bucket_source Samples.wide_store 10) [])
    as [merged [Hrun [_ [_ [_ [Heq _]]]]]].
  - lia.
  - discriminate.
  - reflexivity.
  - intros tr' a b. reflexivity.
  - intros a b. cbn. constructor; [intros [] | constructor].
  - exists merged. split; [exact Hrun|].
    specialize (Heq bucket_source_seam_additive).
    split; [exact Heq|]. rewrite (Heq "k"). vm_compute. reflexivity.
Defined.

(** C3 as the claim words it fails.  For the closed range [[0, 1500]]
    and an interval of 1 ms the loop requests [[0, 700]], [[700, 1400]]
    and [[1400, 1500]]: as closed ranges two neighbours share their seam.
    A source that answers a closed range with every stored point of it
    returns the points stored at 700 and 1400 twice, so the merged series
    differs from the answer to the unsplit request. *)
Lemma C3_counterexample_closed_seams :
  let env := Samples.source_env (Samples.closed_source Samples.store) in
  let rq := mkRequest "DEVICE" "id1" ["k"] 0 1500 100 "AVG" (Some 1) in
  _fetch_timeseries env "DEVICE" "id1" ["k"] 0 1500 100 "AVG" (Some 1) []
  = (Ok [("k", map Samples.point_at [100; 700; 700; 1400; 1400; 1500])],
     [EvGet (with_range rq 0 700); EvGet (with_range rq 700 1400);
      EvGet (with_range rq 1400 1500)])
  /\ _fetch_timeseries_single env rq []
     = (Ok [("k", map Samples.point_at [100; 700; 1400; 1500])], [EvGet rq])
  /\ ~ PyDict.equiv [("k", map Samples.point_at [100; 700; 700; 1400; 1400; 1500])]
                    [("k", map Samples.point_at [100; 700; 1400; 1500])].
Proof.
  cbv zeta. split; [vm_compute; reflexivity|]. split; [vm_compute; reflexivity|].
  intros H. specialize (H "k"). cbn in H. discriminate H.
Qed.

(** ** Aggregation function of a column *)

(** The fallback chain of [_get_agg_func], for the name it is given. *)
Lemma agg_fallback_chain (name : string) (agg_map : PyDict.t string) :
  (forall f, PyDict.get agg_map name = Some f -> f <> "" ->
             _get_agg_func name agg_map = f)
  /\ (forall d, PyDict.get agg_map name = None ->
                PyDict.get agg_map "default" = Some d -> d <> "" ->
                _get_agg_func name agg_map = d)
  /\ (PyDict.get agg_map name = None ->
      PyDict.get agg_map "default" = None ->
      _get_agg_func name agg_map = "mean").
Proof.
  unfold _get_agg_func, str_or. repeat split.
  - intros f -> Hf. apply String.eqb_neq in Hf. rewrite Hf. reflexivity.
  - intros d -> -> Hd. apply String.eqb_neq in Hd. rewrite Hd. reflexivity.
  - intros -> ->. reflexivity.
Qed.

(** The name looked up for a pivot column is the column name
    "<asset> <key>", so an entry under the telemetry key is never found. *)
Lemma agg_entry_of_key_not_used (k a f d : string) :
  k <> "default" -> d <> "" ->
  _get_agg_func (column_name (k, a)) [(k, f); ("default", d)] = d.
Proof.
  intros Hk Hd. unfold _get_agg_func. cbn [PyDict.get].
  pose proof (column_name_not_key k a) as Hne.
  replace (String.eqb k (column_name (k, a))) with false
    by (symmetry; apply String.eqb_neq; congruence).
  replace (String.eqb k "default") with false
    by (symmetry; apply String.eqb_neq; exact Hk).
  rewrite String.eqb_refl. cbn [str_or].
  apply String.eqb_neq in Hd. rewrite Hd.
  destruct (String.eqb "default" (column_name (k, a))); cbn [str_or]; rewrite ?Hd; reflexivity.
Qed.

(** C5, the code at the failing input: the pivot built from rows of
    asset "asset1" and telemetry key "key1" has the column
    "asset1 key1"; with the aggregation map [{"key1": "sum", "default":
    "mean"}] the function chosen for that column is "mean", not the "sum"
    configured for the key, and the daily sheet holds the means (15 and
    55), not the sums (60 and 220). *)
Theorem C5_entry_of_telemetry_key_ignored :
  exists pivot,
    build_pivot Samples.asset1_rows ["key1"] [] = Ok pivot
    /\ pv_columns pivot = ["asset1 key1"]
    /\ PyDict.get Samples.per_key_agg_map "key1" = Some "sum"
    /\ _build_agg_dict (pv_columns pivot) Samples.per_key_agg_map
       = [("asset1 key1", "mean")]
    /\ _resample_pivot pivot D Samples.per_key_agg_map Samples.sheets_cfg
       = Ok (mkFrame ["Date"; "asset1 key1"]
               [(days_from_civil 2026 1 1, [Some (15 # 1)]);
                (days_from_civil 2026 1 2, [Some (55 # 1)])]).
Proof.
  eexists. split; [vm_compute; reflexivity|].
  repeat split; vm_compute; reflexivity.
Qed.

(** ** Timestamp snapping *)



Lemma build_pivot_rows (src : list (Z * RawRow)) (ks : list string)
    (cm : PyDict.t (list string)) (pv : PivotTable) :
  build_pivot src ks cm = Ok pv -> map fst (pv_rows pv) = pivot_index src ks.
Proof.
  unfold build_pivot. destruct (find _ ks); [discriminate|].
  intros H. injection H as <-. cbn [pv_rows]. rewrite map_map. cbn [fst].
  apply map_id.
Qed.



(** ** The calendar *)

Lemma time_of_day_midnight (d : Z) : time_of_day (midnight d) = 0.
Proof. unfold time_of_day, midnight, MS_PER_DAY. apply Z.mod_mul. lia. Qed.

Lemma civil_from_days_shift (d k : Z) :
  civil_from_days (d + 146097 * k)
  = let '(y, m, dd) := civil_from_days d in (y + 400 * k, m, dd).
Proof.
  unfold civil_from_days.
  replace (d + 146097 * k + 719468) with (d + 719468 + k * 146097) by lia.
  rewrite Z.div_add by lia.
  set (z := d + 719468).
  replace (z + k * 146097 - (z / 146097 + k) * 146097) with (z - z / 146097 * 146097)
    by lia.
  set (doe := z - z / 146097 * 146097).
  set (yoe := (doe - doe / 1460 + doe / 36524 - doe / 146096) / 365).
  set (doy := doe - (365 * yoe + yoe / 4 - yoe / 100)).
  set (mp := (5 * doy + 2) / 153).
  destruct (_ <=? 2); f_equal; f_equal; lia.
Qed.

Lemma days_from_civil_shift (y m dd k : Z) :
  days_from_civil (y + 400 * k) m dd = days_from_civil y m dd + 146097 * k.
Proof.
  unfold days_from_civil.
  assert (forall y0, (y0 + 400 * k) / 400 = y0 / 400 + k) as Hdiv.
  { intros y0. replace (y0 + 400 * k) with (y0 + k * 400) by lia.
    apply Z.div_add. lia. }
  destruct (m <=? 2).
  - replace (y + 400 * k - 1) with (y - 1 + 400 * k) by lia. rewrite Hdiv.
    set (e := (y - 1) / 400).
    replace (y - 1 + 400 * k - (e + k) * 400) with (y - 1 - e * 400) by lia. lia.
  - rewrite Hdiv. set (e := y / 400).
    replace (y + 400 * k - (e + k) * 400) with (y - e * 400) by lia. lia.
Qed.

Lemma is_leap_shift (y k : Z) : is_leap (y + 400 * k) = is_leap y.
Proof.
  unfold is_leap.
  replace (y + 400 * k) with (y + (100 * k) * 4) at 1 by lia.
  replace (y + 400 * k) with (y + (4 * k) * 100) at 1 by lia.
  replace (y + 400 * k) with (y + k * 400) by lia.
  rewrite !Z.mod_add by lia. reflexivity.
Qed.

Lemma days_in_month_shift (y m k : Z) :
  days_in_month (y + 400 * k) m = days_in_month y m.
Proof. unfold days_in_month. rewrite is_leap_shift. reflexivity. Qed.

Lemma month_end_after_shift (d k : Z) :
  month_end_after (d + 146097 * k) = month_end_after d + 146097 * k.
Proof.
  unfold month_end_after. rewrite civil_from_days_shift.
  destruct (civil_from_days d) as [[y m] dd].
  rewrite days_in_month_shift.
  set (c := if dd =? days_in_month y m then 1 else 0).
  replace (12 * (y + 400 * k) + (m - 1) + c)
    with (12 * y + (m - 1) + c + (400 * k) * 12) by lia.
  rewrite Z.div_add, Z.mod_add by lia.
  rewrite days_in_month_shift, days_from_civil_shift. reflexivity.
Qed.

Lemma year_end_after_shift (d k : Z) :
  year_end_after (d + 146097 * k) = year_end_after d + 146097 * k.
Proof.
  unfold year_end_after. rewrite civil_from_days_shift.
  destruct (civil_from_days d) as [[y m] dd].
  destruct ((m =? 12) && (dd =? 31)).
  - replace (y + 400 * k + 1) with (y + 1 + 400 * k) by lia.
    apply days_from_civil_shift.
  - apply days_from_civil_shift.
Qed.

Lemma month_start_day_shift (i k : Z) :
  month_start_day (i + 4800 * k) = month_start_day i + 146097 * k.
Proof.
  unfold month_start_day.
  replace (i + 4800 * k) with (i + (400 * k) * 12) by lia.
  rewrite Z.div_add, Z.mod_add by lia. apply days_from_civil_shift.
Qed.

Lemma year_start_day_shift (y k : Z) :
  year_start_day (y + 400 * k) = year_start_day y + 146097 * k.
Proof. apply days_from_civil_shift. Qed.

Lemma all_from_spec (check : Z -> bool) (n : nat) (i x : Z) :
  all_from check n i = true -> i <= x < i + Z.of_nat n -> check x = true.
Proof.
  revert i. induction n as [|n IH]; intros i H Hx; [lia|].
  cbn [all_from] in H. apply andb_true_iff in H. destruct H as [H0 H1].
  destruct (Z.eq_dec x i) as [->|Hne]; [exact H0|].
  apply (IH (i + 1)); [exact H1 | lia].
Qed.

(** The checks hold over one period of the calendar, by evaluation. *)
Lemma month_check_period : all_from month_check (Z.to_nat 4800) 0 = true.
Proof. vm_compute. reflexivity. Qed.

Lemma year_check_period : all_from year_check (Z.to_nat 400) 0 = true.
Proof. vm_compute. reflexivity. Qed.

(** The checks, spelled out. *)
Lemma month_check_body :
  month_check
  = fun i => (month_end_after (month_start_day i) + 1 =? month_start_day (i + 1))
             && (month_start_day i + 28 <=? month_start_day (i + 1)).
Proof. reflexivity. Qed.

Lemma year_check_body :
  year_check
  = fun y => (year_end_after (year_start_day y) + 1 =? year_start_day (y + 1))
             && (year_start_day y + 28 <=? year_start_day (y + 1)).
Proof. reflexivity. Qed.

(** Hence for every month and every year: the month end after the first
    of a month is the day before the first of the next month, and the
    year end after 1 January is the day before the next 1 January. *)
Lemma month_end_of_month_start_in_period (i0 k : Z) :
  0 <= i0 < 4800 ->
  month_end_after (month_start_day (i0 + 4800 * k)) + 1
  = month_start_day (i0 + 4800 * k + 1)
  /\ month_start_day (i0 + 4800 * k) + 28 <= month_start_day (i0 + 4800 * k + 1).
Proof.
  intros Hb.
  assert (month_check i0 = true) as Hc.
  { apply (all_from_spec month_check (Z.to_nat 4800) 0);
      [apply month_check_period | lia]. }
  rewrite month_check_body in Hc. apply andb_true_iff in Hc. destruct Hc as [H1 H2].
  apply Z.eqb_eq in H1. apply Z.leb_le in H2.
  replace (i0 + 4800 * k + 1) with (i0 + 1 + 4800 * k) by lia.
  rewrite (month_start_day_shift i0 k), (month_start_day_shift (i0 + 1) k),
    month_end_after_shift.
  revert H1 H2.
  generalize (month_end_after (month_start_day i0)). intros a.
  generalize (month_start_day (i0 + 1)). intros c.
  generalize (month_start_day i0). intros b H1 H2.
  lia.
Qed.

Lemma month_end_of_month_start (i : Z) :
  month_end_after (month_start_day i) + 1 = month_start_day (i + 1)
  /\ month_start_day i + 28 <= month_start_day (i + 1).
Proof.
  pose proof (month_end_of_month_start_in_period (i mod 4800) (i / 4800)
                (Z.mod_pos_bound i 4800 ltac:(lia))) as H.
  replace (i mod 4800 + 4800 * (i / 4800)) with i in H
    by (pose proof (Z.div_mod i 4800 ltac:(lia)); lia).
  exact H.
Qed.

Lemma year_end_of_year_start_in_period (y0 k : Z) :
  0 <= y0 < 400 ->
  year_end_after (year_start_day (y0 + 400 * k)) + 1
  = year_start_day (y0 + 400 * k + 1)
  /\ year_start_day (y0 + 400 * k) + 28 <= year_start_day (y0 + 400 * k + 1).
Proof.
  intros Hb.
  assert (year_check y0 = true) as Hc.
  { apply (all_from_spec year_check (Z.to_nat 400) 0);
      [apply year_check_period | lia]. }
  rewrite year_check_body in Hc. apply andb_true_iff in Hc. destruct Hc as [H1 H2].
  apply Z.eqb_eq in H1. apply Z.leb_le in H2.
  replace (y0 + 400 * k + 1) with (y0 + 1 + 400 * k) by lia.
  rewrite (year_start_day_shift y0 k), (year_start_day_shift (y0 + 1) k),
    year_end_after_shift.
  revert H1 H2.
  generalize (year_end_after (year_start_day y0)). intros a.
  generalize (year_start_day (y0 + 1)). intros c.
  generalize (year_start_day y0). intros b H1 H2.
  lia.
Qed.

Lemma year_end_of_year_start (y : Z) :
  year_end_after (year_start_day y) + 1 = year_start_day (y + 1)
  /\ year_start_day y + 28 <= year_start_day (y + 1).
Proof.
  pose proof (year_end_of_year_start_in_period (y mod 400) (y / 400)
                (Z.mod_pos_bound y 400 ltac:(lia))) as H.
  replace (y mod 400 + 400 * (y / 400)) with y in H
    by (pose proof (Z.div_mod y 400 ltac:(lia)); lia).
  exact H.
Qed.

(** ** The completeness filter *)

Lemma date_of_midnight (d : Z) : date_of (midnight d) = d.
Proof. unfold date_of, midnight, MS_PER_DAY. apply Z.div_mul. lia. Qed.

Lemma normalize_midnight (d : Z) : normalize (midnight d) = midnight d.
Proof. unfold normalize. rewrite date_of_midnight. reflexivity. Qed.

Lemma normalize_le (t : Z) : normalize t <= t < normalize t + MS_PER_DAY.
Proof.
  unfold normalize, midnight, date_of, MS_PER_DAY.
  pose proof (Z.div_mod t 86400000 ltac:(lia)).
  pose proof (Z.mod_pos_bound t 86400000 ltac:(lia)). lia.
Qed.

Lemma date_of_mono (a b : Z) : a <= b -> date_of a <= date_of b.
Proof. intros H. unfold date_of, MS_PER_DAY. apply Z.div_le_mono; lia. Qed.

Lemma normalize_date (a b : Z) : date_of a = date_of b <-> normalize a = normalize b.
Proof.
  unfold normalize, midnight, MS_PER_DAY. split; [congruence | lia].
Qed.

(** What the loop body accepts. *)
Lemma complete_period_Some (freq : Freq) (data_start data_end period_end ps : Z) :
  complete_period freq data_start data_end period_end = Some ps <->
  ps = fst (period_bounds freq period_end)
  /\ normalize data_start <= ps
  /\ snd (period_bounds freq period_end) <= data_end
  /\ (date_of ps = date_of data_start -> data_start = normalize data_start).
Proof.
  unfold complete_period. destruct (period_bounds freq period_end) as [s e].
  cbn [fst snd].
  destruct (Z.leb_spec (normalize data_start) s) as [H1|H1],
           (Z.leb_spec e data_end) as [H2|H2]; cbn [andb];
    try (split; [discriminate | intros [-> [? [? _]]]; lia]).
  destruct (Z.eqb_spec (date_of s) (date_of data_start)) as [H3|H3],
           (Z.eqb_spec data_start (normalize data_start)) as [H4|H4]; cbn [andb negb].
  - split; [intros [= <-]; tauto | intros [-> _]; reflexivity].
  - split; [discriminate | intros [-> [_ [_ H]]]; tauto].
  - split; [intros [= <-]; tauto | intros [-> _]; reflexivity].
  - split; [intros [= <-]; tauto | intros [-> _]; reflexivity].
Qed.

(** An accepted period starts at midnight on or after the first
    timestamp of the data, whenever its start is a midnight. *)
Lemma complete_period_start (freq : Freq) (data_start data_end period_end ps : Z) :
  complete_period freq data_start data_end period_end = Some ps ->
  ps = normalize ps ->
  data_start <= ps.
Proof.
  intros H Hmid. apply complete_period_Some in H. destruct H as [_ [H1 [_ H3]]].
  destruct (Z.eq_dec (date_of ps) (date_of data_start)) as [E|E].
  - rewrite (H3 E). exact H1.
  - assert (date_of data_start < date_of ps) as Hlt.
    { pose proof (date_of_mono _ _ H1) as Hm. unfold normalize in Hm.
      rewrite date_of_midnight in Hm. lia. }
    pose proof (normalize_le data_start) as Hds. rewrite Hmid.
    unfold normalize, midnight, MS_PER_DAY in *. lia.
Qed.

Lemma complete_rows_of_In {A} (freq : Freq) (data_start data_end : Z)
    (res : list (Z * A)) (ps : Z) (row : A) :
  In (ps, row) (complete_rows_of freq data_start data_end res) <->
  exists period_end,
    In (period_end, row) res
    /\ complete_period freq data_start data_end period_end = Some ps.
Proof.
  induction res as [|[pe r] res IH]; cbn [complete_rows_of In].
  - split; [tauto | intros [? [[] _]]].
  - destruct (complete_period freq data_start data_end pe) as [s|] eqn:E; cbn [In];
      rewrite IH; split.
    + intros [[= <- <-] | [pe' [Hin Hc]]]; [exists pe; auto | exists pe'; auto].
    + intros [pe' [[[= <- <-] | Hin] Hc]]; [left; congruence | right; eauto].
    + intros [pe' [Hin Hc]]; eauto.
    + intros [pe' [[[= <- <-] | Hin] Hc]]; [congruence | eauto].
Qed.

(** The two ways [_resample_pivot] returns. *)
Lemma _resample_pivot_Ok (df : PivotTable) (freq : Freq) (agg_map : PyDict.t string)
    (sheets_cfg : SheetsCfg) (out : DataFrame) :
  _resample_pivot df freq agg_map sheets_cfg = Ok out <->
  exists res,
    resample_agg df (freq_str_of freq sheets_cfg)
                 (_build_agg_dict (pv_columns df) agg_map) = Ok res
    /\ ((complete_rows df freq res = [] /\ out = DataFrame_empty)
        \/ (complete_rows df freq res <> []
            /\ out = mkFrame ("Date" :: pv_columns df)
                       (map (fun dr => (date_of (fst dr), snd dr))
                            (complete_rows df freq res)))).
Proof.
  unfold _resample_pivot.
  destruct (resample_agg df _ _) as [res|e]; cbn [rbind].
  - destruct (complete_rows df freq res) as [|r rs] eqn:E.
    + split; [intros [= <-]; exists res; auto|].
      intros [res' [[= <-] [[_ ->] | [H _]]]]; [reflexivity | congruence].
    + split; [intros [= <-]; exists res; split; [reflexivity|]; right; split;
                [rewrite E; discriminate | rewrite E; reflexivity]|].
      intros [res' [[= <-] [[H _] | [_ ->]]]]; [congruence | rewrite E; reflexivity].
  - split; [discriminate | intros [res [H _]]; discriminate].
Qed.

(** Every row of a returned frame comes from a period the filter
    accepted. *)
Lemma _resample_pivot_rows (df : PivotTable) (freq : Freq) (agg_map : PyDict.t string)
    (sheets_cfg : SheetsCfg) (out : DataFrame) (data_start data_end : Z)
    (date : Z) (cells : list cell) :
  _resample_pivot df freq agg_map sheets_cfg = Ok out ->
  ts_min (map fst (pv_rows df)) = Some data_start ->
  ts_max (map fst (pv_rows df)) = Some data_end ->
  In (date, cells) (df_rows out) ->
  exists res period_end ps,
    resample_agg df (freq_str_of freq sheets_cfg)
                 (_build_agg_dict (pv_columns df) agg_map) = Ok res
    /\ In (period_end, cells) res
    /\ complete_period freq data_start data_end period_end = Some ps
    /\ date = date_of ps.
Proof.
  intros Hout Hmin Hmax Hin. apply _resample_pivot_Ok in Hout.
  destruct Hout as [res [Hres [[_ ->] | [_ ->]]]]; [destruct Hin|].
  cbn [df_rows] in Hin. apply in_map_iff in Hin. destruct Hin as [[ps c] [Heq Hin]].
  cbn [fst snd] in Heq. injection Heq as <- <-.
  unfold complete_rows in Hin. rewrite Hmin, Hmax in Hin.
  apply complete_rows_of_In in Hin. destruct Hin as [pe [Hin Hc]].
  exists res, pe, ps. auto.
Qed.

(** *** Earliest and latest timestamp *)

Lemma fold_min_spec (l : list Z) (x : Z) :
  (fold_left Z.min l x = x \/ In (fold_left Z.min l x) l)
  /\ fold_left Z.min l x <= x
  /\ forall y, In y l -> fold_left Z.min l x <= y.
Proof.
  revert x. induction l as [|a l IH]; intros x; cbn [fold_left In].
  - split; [now left | split; [lia | intros y []]].
  - destruct (IH (Z.min x a)) as [H1 [H2 H3]]. split; [|split].
    + destruct H1 as [H1 | H1]; [|right; right; exact H1].
      rewrite H1. destruct (Z.min_spec x a) as [[_ ->] | [_ ->]]; auto.
    + lia.
    + intros y [<- | Hy]; [lia | apply H3, Hy].
Qed.

Lemma fold_max_spec (l : list Z) (x : Z) :
  (fold_left Z.max l x = x \/ In (fold_left Z.max l x) l)
  /\ x <= fold_left Z.max l x
  /\ forall y, In y l -> y <= fold_left Z.max l x.
Proof.
  revert x. induction l as [|a l IH]; intros x; cbn [fold_left In].
  - split; [now left | split; [lia | intros y []]].
  - destruct (IH (Z.max x a)) as [H1 [H2 H3]]. split; [|split].
    + destruct H1 as [H1 | H1]; [|right; right; exact H1].
      rewrite H1. destruct (Z.max_spec x a) as [[_ ->] | [_ ->]]; auto.
    + lia.
    + intros y [<- | Hy]; [lia | apply H3, Hy].
Qed.

Lemma ts_min_spec (l : list Z) (m : Z) :
  ts_min l = Some m <-> In m l /\ forall y, In y l -> m <= y.
Proof.
  destruct l as [|x l]; cbn [ts_min].
  - split; [discriminate | intros [[] _]].
  - destruct (fold_min_spec l x) as [H1 [H2 H3]]. split.
    + intros [= <-]. split; [cbn; destruct H1 as [-> | H1]; auto|].
      intros y [<- | Hy]; [exact H2 | apply H3, Hy].
    + intros [Hin Hle]. f_equal. apply Z.le_antisymm.
      * destruct Hin as [<- | Hin]; [exact H2 | apply H3, Hin].
      * apply Hle. cbn. destruct H1 as [-> | H1]; auto.
Qed.

Lemma ts_max_spec (l : list Z) (m : Z) :
  ts_max l = Some m <-> In m l /\ forall y, In y l -> y <= m.
Proof.
  destruct l as [|x l]; cbn [ts_max].
  - split; [discriminate | intros [[] _]].
  - destruct (fold_max_spec l x) as [H1 [H2 H3]]. split.
    + intros [= <-]. split; [cbn; destruct H1 as [-> | H1]; auto|].
      intros y [<- | Hy]; [exact H2 | apply H3, Hy].
    + intros [Hin Hle]. f_equal. apply Z.le_antisymm.
      * apply Hle. cbn. destruct H1 as [-> | H1]; auto.
      * destruct Hin as [<- | Hin]; [exact H2 | apply H3, Hin].
Qed.

Lemma ts_min_perm (l l' : list Z) (m : Z) :
  Permutation l l' -> ts_min l = Some m -> ts_min l' = Some m.
Proof.
  intros Hp H. apply ts_min_spec in H. destruct H as [Hin Hle].
  apply ts_min_spec. split; [eapply Permutation_in; eassumption|].
  intros y Hy. apply Hle. eapply Permutation_in; [symmetry|]; eassumption.
Qed.

Lemma ts_max_perm (l l' : list Z) (m : Z) :
  Permutation l l' -> ts_max l = Some m -> ts_max l' = Some m.
Proof.
  intros Hp H. apply ts_max_spec in H. destruct H as [Hin Hle].
  apply ts_max_spec. split; [eapply Permutation_in; eassumption|].
  intros y Hy. apply Hle. eapply Permutation_in; [symmetry|]; eassumption.
Qed.

Lemma ts_min_le_max (l : list Z) (a b : Z) :
  ts_min l = Some a -> ts_max l = Some b -> a <= b.
Proof.
  intros Ha Hb. apply ts_min_spec in Ha. apply ts_max_spec in Hb.
  apply (proj2 Ha). exact (proj1 Hb).
Qed.

(** *** Ranges *)

Lemma zrange_In (a : Z) (n : nat) (x : Z) :
  In x (zrange a n) <-> a <= x < a + Z.of_nat n.
Proof.
  unfold zrange. rewrite in_map_iff. split.
  - intros [k [<- Hk]]. apply in_seq in Hk. lia.
  - intros H. exists (Z.to_nat (x - a)). split; [lia | apply in_seq; lia].
Qed.

Lemma zspan_In (a b x : Z) : In x (zspan a b) <-> a <= x <= b.
Proof. unfold zspan. rewrite zrange_In. lia. Qed.

Lemma zrange_S (a : Z) (n : nat) : zrange a (S n) = a :: zrange (a + 1) n.
Proof.
  unfold zrange. cbn [seq map]. f_equal; [lia|].
  rewrite <- seq_shift, map_map. apply map_ext. intros k. lia.
Qed.

Lemma zspan_cons (a b : Z) : a <= b -> zspan a b = a :: zspan (a + 1) b.
Proof.
  intros H. unfold zspan.
  replace (Z.to_nat (b - a + 1)) with (S (Z.to_nat (b - (a + 1) + 1))) by lia.
  apply zrange_S.
Qed.

(** *** The rows of a resample *)

Lemma resample_agg_labels (df : PivotTable) (fs : FreqStr) (agg_dict : PyDict.t string)
    (res : list (Z * list cell)) (data_start data_end : Z) :
  resample_agg df fs agg_dict = Ok res ->
  ts_min (map fst (pv_rows df)) = Some data_start ->
  ts_max (map fst (pv_rows df)) = Some data_end ->
  map fst res = map bin_label (resample_bins fs data_start data_end).
Proof.
  unfold resample_agg. destruct (rmap_list _ (pv_columns df)) as [funcs|e];
    cbn [rbind]; [|discriminate].
  intros H Hmin Hmax.
  assert (Permutation (map fst (pv_rows df)) (map fst (sort_by_ts (pv_rows df)))) as Hp.
  { apply Permutation_map. symmetry. apply sort_by_perm. }
  rewrite (ts_min_perm _ _ _ Hp Hmin), (ts_max_perm _ _ _ Hp Hmax) in H.
  injection H as <-. rewrite map_map. reflexivity.
Qed.

Lemma resample_bins_label (freq : Freq) (sheets_cfg : SheetsCfg) (tmin tmax : Z)
    (b : Bin) :
  In b (resample_bins (freq_str_of freq sheets_cfg) tmin tmax) ->
  label_of_freq freq (bin_label b).
Proof.
  destruct freq; cbn [freq_str_of label_of_freq];
    try destruct (_ =? 6); cbn [resample_bins]; unfold week_bins;
    rewrite in_map_iff; intros [x [<- _]]; eexists; reflexivity.
Qed.

(** *** The partially covered first day *)

Lemma ts_min_max_some (l : list Z) (a : Z) :
  ts_min l = Some a -> exists b, ts_max l = Some b.
Proof.
  destruct l as [|x l]; [discriminate|]. intros _. eexists. reflexivity.
Qed.

(** C2: when the earliest timestamp of the pivot is not a midnight, no
    row of any aggregate is dated on the day the data starts; for the
    data of the test (from 2026-01-01 12:00, every 6 hours, 5 days) the
    daily rows are those of 2026-01-02 to 2026-01-05; and when the data
    starts at a midnight and reaches the last second of that day, the
    first daily row is dated on the day the data starts. *)
Theorem C2_partial_first_day_dropped :
  (forall df freq agg_map sheets_cfg out data_start row,
      _resample_pivot df freq agg_map sheets_cfg = Ok out ->
      ts_min (map fst (pv_rows df)) = Some data_start ->
      data_start <> normalize data_start ->
      In row (df_rows out) ->
      fst row <> date_of data_start)
  /\ _resample_pivot (Samples.make_df (ts_of 2026 1 1 12 0 0) 5 6) D
       [("default", "last")] Samples.sheets_cfg
     = Ok (mkFrame ["Date"; "asset1 key1"]
             [(days_from_civil 2026 1 2, [Some (1050 # 1)]);
              (days_from_civil 2026 1 3, [Some (1090 # 1)]);
              (days_from_civil 2026 1 4, [Some (1130 # 1)]);
              (days_from_civil 2026 1 5, [Some (1170 # 1)])])
  /\ (forall df agg_map sheets_cfg out data_start data_end,
         _resample_pivot df D agg_map sheets_cfg = Ok out ->
         ts_min (map fst (pv_rows df)) = Some data_start ->
         ts_max (map fst (pv_rows df)) = Some data_end ->
         data_start = normalize data_start ->
         data_start + MS_PER_DAY - MS_PER_SECOND <= data_end ->
         exists cells rest, df_rows out = (date_of data_start, cells) :: rest).
Proof.
  split; [|split].
  - intros df freq agg_map sheets_cfg out data_start [date cells] Hout Hmin Hpart Hin.
    destruct (ts_min_max_some _ _ Hmin) as [data_end Hmax].
    destruct (_resample_pivot_rows _ _ _ _ _ _ _ _ _ Hout Hmin Hmax Hin)
      as [res [pe [ps [_ [_ [Hc ->]]]]]].
    apply complete_period_Some in Hc. cbn [fst]. intros E.
    apply Hpart. apply (proj2 (proj2 (proj2 Hc))). exact E.
  - vm_compute. reflexivity.
  - intros df agg_map sheets_cfg out data_start data_end Hout Hmin Hmax Hmid Hend.
    apply _resample_pivot_Ok in Hout. destruct Hout as [res [Hres Hout]].
    pose proof (resample_agg_labels _ _ _ _ _ _ Hres Hmin Hmax) as Hlab.
    cbn [freq_str_of resample_bins] in Hlab.
    pose proof (ts_min_le_max _ _ _ Hmin Hmax) as Hle.
    rewrite (zspan_cons (date_of data_start) (date_of data_end)) in Hlab
      by (apply date_of_mono; exact Hle).
    destruct res as [|[label r0] res']; [discriminate Hlab|].
    cbn [map fst day_bin bin_label] in Hlab. injection Hlab as Hl0 _.
    assert (label = data_start) as ->.
    { rewrite Hl0. symmetry. exact Hmid. }
    assert (complete_period D data_start data_end data_start = Some data_start) as Hc.
    { apply complete_period_Some. cbn [period_bounds fst snd].
      rewrite <- Hmid. repeat split; try lia. }
    assert (complete_rows df D ((data_start, r0) :: res')
            = (data_start, r0)
                :: complete_rows_of D data_start data_end res') as Hrows.
    { unfold complete_rows. rewrite Hmin, Hmax. cbn [complete_rows_of].
      rewrite Hc. reflexivity. }
    destruct Hout as [[Hnil _] | [_ ->]]; [rewrite Hrows in Hnil; discriminate|].
    rewrite Hrows. cbn [df_rows map fst snd]. eauto.
Qed.

Lemma C2_partial_first_day_dropped_witness :
  (forall row,
      In row [(days_from_civil 2026 1 2, [Some (1050 # 1)]);
              (days_from_civil 2026 1 3, [Some (1090 # 1)]);
              (days_from_civil 2026 1 4, [Some (1130 # 1)]);
              (days_from_civil 2026 1 5, [Some (1170 # 1)])] ->
      fst row <> days_from_civil 2026 1 1)
  /\ exists out cells rest,
       _resample_pivot (Samples.make_df (ts_of 2026 1 1 0 0 0) 5 6) D
         [("default", "last")] Samples.sheets_cfg = Ok out
       /\ df_rows out = (days_from_civil 2026 1 1, cells) :: rest.
Proof.
  destruct C2_partial_first_day_dropped as [Hdrop [Hrun Hkeep]].
  split.
  - intros row Hin.
    apply (Hdrop (Samples.make_df (ts_of 2026 1 1 12 0 0) 5 6) D
                 [("default", "last")] Samples.sheets_cfg _ (ts_of 2026 1 1 12 0 0) row
                 Hrun); [reflexivity | vm_compute; discriminate | exact Hin].
  - destruct (_resample_pivot (Samples.make_df (ts_of 2026 1 1 0 0 0) 5 6) D
                [("default", "last")] Samples.sheets_cfg) as [out|e] eqn:E;
      [|vm_compute in E; discriminate E].
    destruct (Hkeep (Samples.make_df (ts_of 2026 1 1 0 0 0) 5 6)
                [("default", "last")] Samples.sheets_cfg out
                (ts_of 2026 1 1 0 0 0) (ts_of 2026 1 5 18 0 0) E)
      as [cells [rest Hrows]];
      [reflexivity | reflexivity | reflexivity | vm_compute; discriminate |].
    exists out, cells, rest. split; [reflexivity | exact Hrows].
Defined.

(** ** Omission of empty granularities *)

Lemma add_MonthEnd_midnight (d : Z) : add_MonthEnd (midnight d) = midnight (month_end_after d).
Proof.
  unfold add_MonthEnd. rewrite date_of_midnight, time_of_day_midnight. lia.
Qed.

Lemma add_YearEnd_midnight (d : Z) : add_YearEnd (midnight d) = midnight (year_end_after d).
Proof.
  unfold add_YearEnd. rewrite date_of_midnight, time_of_day_midnight. lia.
Qed.

(** The period that stands behind a label starts at a midnight and is
    at least one day less one second long. *)
Lemma period_bounds_label (freq : Freq) (t : Z) :
  label_of_freq freq t ->
  let '(ps, pe) := period_bounds freq t in
  ps = normalize ps /\ ps + MS_PER_DAY - MS_PER_SECOND <= pe.
Proof.
  destruct freq; cbn [label_of_freq period_bounds]; intros [x ->].
  - rewrite !normalize_midnight. split; [reflexivity | lia].
  - replace (midnight x - 6 * MS_PER_DAY) with (midnight (x - 6))
      by (unfold midnight; lia).
    rewrite normalize_midnight. split; [reflexivity|].
    unfold midnight, MS_PER_DAY, MS_PER_SECOND. lia.
  - destruct (month_end_of_month_start x) as [Hm Hlen].
    rewrite add_MonthEnd_midnight, !normalize_midnight. split; [reflexivity|].
    unfold midnight, MS_PER_DAY, MS_PER_SECOND in *. lia.
  - destruct (year_end_of_year_start x) as [Hy Hlen].
    rewrite add_YearEnd_midnight, normalize_midnight. split; [reflexivity|].
    unfold midnight, MS_PER_DAY, MS_PER_SECOND in *. lia.
Qed.

(** Data spanning less than a day less one second holds no complete
    period of any granularity. *)
Lemma short_span_no_period (freq : Freq) (data_start data_end t : Z) :
  label_of_freq freq t ->
  data_end - data_start < MS_PER_DAY - MS_PER_SECOND ->
  complete_period freq data_start data_end t = None.
Proof.
  intros Hlab Hspan.
  destruct (complete_period freq data_start data_end t) as [ps|] eqn:E;
    [exfalso | reflexivity].
  pose proof (period_bounds_label freq t Hlab) as Hb.
  pose proof E as E'. apply complete_period_Some in E'.
  destruct (period_bounds freq t) as [s e]. cbn [fst snd] in E'.
  destruct E' as [-> [_ [He _]]]. destruct Hb as [Hmid Hlen].
  pose proof (complete_period_start _ _ _ _ _ E Hmid). lia.
Qed.

Lemma complete_rows_of_nil {A} (freq : Freq) (data_start data_end : Z)
    (res : list (Z * A)) :
  (forall pe row, In (pe, row) res ->
                  complete_period freq data_start data_end pe = None) ->
  complete_rows_of freq data_start data_end res = [].
Proof.
  induction res as [|[pe row] res IH]; intros H; [reflexivity|].
  cbn [complete_rows_of]. rewrite (H pe row (or_introl eq_refl)).
  apply IH. intros pe' row' Hin. apply (H pe' row'). now right.
Qed.

Lemma short_span_empty (df : PivotTable) (freq : Freq) (agg_map : PyDict.t string)
    (sheets_cfg : SheetsCfg) (out : DataFrame) (data_start data_end : Z) :
  ts_min (map fst (pv_rows df)) = Some data_start ->
  ts_max (map fst (pv_rows df)) = Some data_end ->
  data_end - data_start < MS_PER_DAY - MS_PER_SECOND ->
  _resample_pivot df freq agg_map sheets_cfg = Ok out ->
  out = DataFrame_empty.
Proof.
  intros Hmin Hmax Hspan Hout. apply _resample_pivot_Ok in Hout.
  destruct Hout as [res [Hres [[_ ->] | [Hne _]]]]; [reflexivity|].
  exfalso. apply Hne. unfold complete_rows. rewrite Hmin, Hmax.
  apply complete_rows_of_nil. intros pe row Hin.
  pose proof (resample_agg_labels _ _ _ _ _ _ Hres Hmin Hmax) as Hlab.
  assert (In pe (map fst res)) as Hpe by (apply in_map_iff; exists (pe, row); auto).
  rewrite Hlab in Hpe. apply in_map_iff in Hpe. destruct Hpe as [b [<- Hb]].
  apply short_span_no_period; [|exact Hspan].
  eapply resample_bins_label. exact Hb.
Qed.

(** What the loop over the four granularities leaves under each key. *)
Lemma build_agg_sheets_get (df : PivotTable) (agg_map : PyDict.t string)
    (sheets_cfg : SheetsCfg) (sheets : PyDict.t DataFrame) :
  build_agg_sheets df agg_map sheets_cfg freq_keys [] = Ok sheets ->
  forall freq key, In (freq, key) freq_keys ->
    exists out,
      _resample_pivot df freq agg_map sheets_cfg = Ok out
      /\ PyDict.get sheets key = if df_empty out then None else Some out.
Proof.
  unfold freq_keys. cbn [build_agg_sheets].
  destruct (_resample_pivot df D agg_map sheets_cfg) as [o1|] eqn:E1; [|discriminate].
  destruct (_resample_pivot df W agg_map sheets_cfg) as [o2|] eqn:E2; [|discriminate].
  destruct (_resample_pivot df MS agg_map sheets_cfg) as [o3|] eqn:E3; [|discriminate].
  destruct (_resample_pivot df YS agg_map sheets_cfg) as [o4|] eqn:E4; [|discriminate].
  cbn [rbind]. intros [= <-] freq key Hin.
  destruct Hin as [[= <- <-] | [[= <- <-] | [[= <- <-] | [[= <- <-] | []]]]].
  - exists o1. split; [exact E1|].
    destruct (df_empty o1), (df_empty o2), (df_empty o3), (df_empty o4); reflexivity.
  - exists o2. split; [exact E2|].
    destruct (df_empty o1), (df_empty o2), (df_empty o3), (df_empty o4); reflexivity.
  - exists o3. split; [exact E3|].
    destruct (df_empty o1), (df_empty o2), (df_empty o3), (df_empty o4); reflexivity.
  - exists o4. split; [exact E4|].
    destruct (df_empty o1), (df_empty o2), (df_empty o3), (df_empty o4); reflexivity.
Qed.

(** C9: when no period survives the filter, [_resample_pivot] returns
    the frame without columns and rows, and the granularity gets no
    entry in the mapping of aggregate tables; every table that is in the
    mapping has rows and columns; and a pivot whose timestamps span at
    most 10 hours gets an empty mapping. *)
Theorem C9_empty_granularity_omitted :
  (forall df freq agg_map sheets_cfg res,
      resample_agg df (freq_str_of freq sheets_cfg)
                   (_build_agg_dict (pv_columns df) agg_map) = Ok res ->
      complete_rows df freq res = [] ->
      _resample_pivot df freq agg_map sheets_cfg = Ok DataFrame_empty
      /\ df_columns DataFrame_empty = [] /\ df_rows DataFrame_empty = [])
  /\ (forall df agg_map sheets_cfg sheets freq key,
         build_agg_sheets df agg_map sheets_cfg freq_keys [] = Ok sheets ->
         In (freq, key) freq_keys ->
         (forall res,
             resample_agg df (freq_str_of freq sheets_cfg)
                          (_build_agg_dict (pv_columns df) agg_map) = Ok res ->
             complete_rows df freq res = [] ->
             PyDict.get sheets key = None)
         /\ (forall frame,
                PyDict.get sheets key = Some frame ->
                df_rows frame <> [] /\ df_columns frame <> []))
  /\ (forall df agg_map sheets_cfg sheets data_start data_end,
         ts_min (map fst (pv_rows df)) = Some data_start ->
         ts_max (map fst (pv_rows df)) = Some data_end ->
         data_end - data_start <= 10 * 3600 * MS_PER_SECOND ->
         build_agg_sheets df agg_map sheets_cfg freq_keys [] = Ok sheets ->
         sheets = []).
Proof.
  assert (forall df freq agg_map sheets_cfg res,
             resample_agg df (freq_str_of freq sheets_cfg)
                          (_build_agg_dict (pv_columns df) agg_map) = Ok res ->
             complete_rows df freq res = [] ->
             _resample_pivot df freq agg_map sheets_cfg = Ok DataFrame_empty) as Hempty.
  { intros df freq agg_map sheets_cfg res Hres Hnil.
    apply _resample_pivot_Ok. exists res. split; [exact Hres | left; auto]. }
  split; [|split].
  - intros df freq agg_map sheets_cfg res Hres Hnil.
    split; [eapply Hempty; eassumption | split; reflexivity].
  - intros df agg_map sheets_cfg sheets freq key Hb Hin.
    destruct (build_agg_sheets_get _ _ _ _ Hb freq key Hin) as [out [Hout Hget]].
    split.
    + intros res Hres Hnil. rewrite (Hempty _ _ _ _ _ Hres Hnil) in Hout.
      injection Hout as <-. exact Hget.
    + intros frame Hf. rewrite Hf in Hget.
      destruct (df_empty out) eqn:E; [discriminate|]. injection Hget as ->.
      unfold df_empty in E.
      destruct (df_columns out), (df_rows out); try discriminate; split; discriminate.
  - intros df agg_map sheets_cfg sheets data_start data_end Hmin Hmax Hspan Hb.
    assert (forall freq out, _resample_pivot df freq agg_map sheets_cfg = Ok out ->
                             out = DataFrame_empty) as Hall.
    { intros freq out. apply (short_span_empty _ _ _ _ _ _ _ Hmin Hmax).
      unfold MS_PER_DAY, MS_PER_SECOND in *. lia. }
    unfold freq_keys in Hb. cbn [build_agg_sheets] in Hb.
    destruct (_resample_pivot df D agg_map sheets_cfg) as [o1|] eqn:E1; [|discriminate].
    destruct (_resample_pivot df W agg_map sheets_cfg) as [o2|] eqn:E2; [|discriminate].
    destruct (_resample_pivot df MS agg_map sheets_cfg) as [o3|] eqn:E3; [|discriminate].
    destruct (_resample_pivot df YS agg_map sheets_cfg) as [o4|] eqn:E4; [|discriminate].
    rewrite (Hall _ _ E1), (Hall _ _ E2), (Hall _ _ E3), (Hall _ _ E4) in Hb.
    cbn in Hb. congruence.
Qed.

Lemma C9_empty_granularity_omitted_witness :
  build_agg_sheets Samples.ten_hours [("default", "mean")] Samples.sheets_cfg
    freq_keys [] = Ok []
  /\ _resample_pivot Samples.ten_hours D [("default", "mean")] Samples.sheets_cfg
     = Ok DataFrame_empty.
Proof.
  destruct C9_empty_granularity_omitted as [H1 [_ H3]].
  split.
  - destruct (build_agg_sheets Samples.ten_hours [("default", "mean")]
                Samples.sheets_cfg freq_keys []) as [sheets|e] eqn:E;
      [|vm_compute in E; discriminate E].
    f_equal.
    apply (H3 Samples.ten_hours [("default", "mean")] Samples.sheets_cfg sheets
              (ts_of 2026 1 1 8 0 0) (ts_of 2026 1 1 18 0 0));
      [reflexivity | reflexivity | vm_compute; discriminate | exact E].
  - apply (proj1 (H1 Samples.ten_hours D [("default", "mean")] Samples.sheets_cfg
                     [(ts_of 2026 1 1 0 0 0, [Some (1050 # 1)])]
                     ltac:(vm_compute; reflexivity) ltac:(vm_compute; reflexivity))).
Defined.

(** ** Periods whose last day is only touched *)

(** For a period that starts at a midnight, the two tests on the start
    of the data amount to: the data starts no later than the period. *)
Lemma start_test_iff (data_start ps : Z) :
  ps = normalize ps ->
  (normalize data_start <= ps
   /\ (date_of ps = date_of data_start -> data_start = normalize data_start))
  <-> data_start <= ps.
Proof.
  intros Hmid. pose proof (normalize_le data_start) as Hds. split.
  - intros [H1 H3]. destruct (Z.eq_dec (date_of ps) (date_of data_start)) as [E|E].
    + rewrite (H3 E). exact H1.
    + pose proof (date_of_mono _ _ H1) as Hm. unfold normalize in Hm.
      rewrite date_of_midnight in Hm. rewrite Hmid.
      unfold normalize, midnight, MS_PER_DAY in *. lia.
  - intros Hle. split; [lia|]. intros E. apply normalize_date in E. lia.
Qed.

(** The filter, for the labels a resample carries: a period is kept
    exactly when the data starts no later than the period and reaches the
    [period_end_excl] that the branch of the granularity computes. *)
Lemma complete_period_iff (freq : Freq) (data_start data_end t ps : Z) :
  label_of_freq freq t ->
  complete_period freq data_start data_end t = Some ps <->
  ps = fst (period_bounds freq t)
  /\ data_start <= ps
  /\ snd (period_bounds freq t) <= data_end.
Proof.
  intros Hlab. rewrite complete_period_Some.
  pose proof (period_bounds_label freq t Hlab) as Hb.
  destruct (period_bounds freq t) as [s e]. cbn [fst snd]. destruct Hb as [Hmid _].
  split.
  - intros [-> [H1 [H2 H3]]]. split; [reflexivity|]. split; [|exact H2].
    apply (start_test_iff data_start s Hmid). split; assumption.
  - intros [-> [H1 H2]]. split; [reflexivity|].
    destruct (proj2 (start_test_iff data_start s Hmid) H1) as [H3 H4]. auto.
Qed.

(** The bounds of the Month and Year branches, as equations. *)
Lemma period_bounds_MS (t : Z) :
  fst (period_bounds MS t) = t
  /\ snd (period_bounds MS t) = normalize (add_MonthEnd t) + MS_PER_DAY - MS_PER_SECOND.
Proof. split; reflexivity. Qed.

Lemma period_bounds_YS (t : Z) :
  fst (period_bounds YS t) = t /\ snd (period_bounds YS t) = add_YearEnd t.
Proof. split; reflexivity. Qed.

Lemma covered_to_last_second (data_start data_end a b c : Z) :
  b + 1 = c ->
  data_start <= midnight a ->
  midnight b + MS_PER_DAY - MS_PER_SECOND <= data_end ->
  fully_covered data_start data_end (midnight a) (midnight c).
Proof.
  intros <- H1 H2. split; [exact H1|].
  unfold midnight, MS_PER_DAY, MS_PER_SECOND in *. lia.
Qed.

Lemma pred_of_succ (a c : Z) : a + 1 = c -> c - 1 = a.
Proof. lia. Qed.

(** The Day and Month branches keep a period only when the data covers
    it to its last second. *)
Lemma day_row_fully_covered (data_start data_end d ps : Z) :
  complete_period D data_start data_end (midnight d) = Some ps ->
  ps = midnight d
  /\ fully_covered data_start data_end (midnight d) (midnight (d + 1)).
Proof.
  intros H. apply complete_period_iff in H; [|exists d; reflexivity].
  cbn [period_bounds fst snd] in H. rewrite normalize_midnight in H.
  destruct H as [-> [H1 H2]]. split; [reflexivity|].
  apply (covered_to_last_second data_start data_end d d (d + 1) eq_refl H1 H2).
Qed.

Lemma month_row_fully_covered (data_start data_end i ps : Z) :
  complete_period MS data_start data_end (midnight (month_start_day i)) = Some ps ->
  ps = midnight (month_start_day i)
  /\ fully_covered data_start data_end (midnight (month_start_day i))
                   (midnight (month_start_day (i + 1))).
Proof.
  intros H. apply complete_period_iff in H; [|exists i; reflexivity].
  rewrite (proj1 (period_bounds_MS _)), (proj2 (period_bounds_MS _)),
    add_MonthEnd_midnight, normalize_midnight in H.
  destruct H as [Hps [H1 H2]]. split; [exact Hps|]. rewrite Hps in H1.
  exact (covered_to_last_second data_start data_end _ _ _
           (proj1 (month_end_of_month_start i)) H1 H2).
Qed.

(** The Week and Year branches keep a period as soon as the data reaches
    the first instant of its last day. *)
Lemma week_row_reaches_last_midnight (data_start data_end e ps : Z) :
  complete_period W data_start data_end (midnight e) = Some ps <->
  ps = midnight (e - 6) /\ data_start <= midnight (e - 6) /\ midnight e <= data_end.
Proof.
  rewrite complete_period_iff by (exists e; reflexivity).
  cbn [period_bounds fst snd].
  replace (midnight e - 6 * MS_PER_DAY) with (midnight (e - 6))
    by (unfold midnight; lia).
  split; intros [-> H]; (split; [reflexivity | exact H]).
Qed.

Lemma year_row_reaches_last_midnight (data_start data_end y ps : Z) :
  complete_period YS data_start data_end (midnight (year_start_day y)) = Some ps <->
  ps = midnight (year_start_day y)
  /\ data_start <= midnight (year_start_day y)
  /\ midnight (year_start_day (y + 1) - 1) <= data_end.
Proof.
  rewrite complete_period_iff by (exists y; reflexivity).
  rewrite (proj1 (period_bounds_YS _)), (proj2 (period_bounds_YS _)),
    add_YearEnd_midnight.
  rewrite (pred_of_succ _ _ (proj1 (year_end_of_year_start y))).
  split; intros [Hps [H1 H2]]; (split; [exact Hps|]); (split; [|exact H2]);
    [rewrite <- Hps | rewrite Hps]; exact H1.
Qed.

(** So a week whose seventh day is only touched at its first instant is
    kept, for every week. *)
Lemma week_kept_on_partial_last_day (e : Z) :
  complete_period W (midnight (e - 6)) (midnight e) (midnight e) = Some (midnight (e - 6))
  /\ ~ fully_covered (midnight (e - 6)) (midnight e) (midnight (e - 6)) (midnight (e + 1)).
Proof.
  split.
  - apply week_row_reaches_last_midnight. repeat split; lia.
  - unfold fully_covered, midnight, MS_PER_DAY, MS_PER_SECOND. lia.
Qed.

(** C1, the code at the failing inputs.  With one row each midnight from
    Sunday 2026-01-04 to Saturday 2026-01-10 the data ends at the first
    instant of the Saturday, and the weekly sheet still holds the week of
    2026-01-04, which the data does not cover to its last second; the
    daily sheet of the same data ends with Friday 2026-01-09.  In the same
    way data that ends at 2025-12-31 00:00 yields the yearly row of 2025,
    while its monthly sheet ends with November. *)
Theorem C1_week_and_year_emitted_on_partial_last_day :
  ts_min (map fst (pv_rows Samples.sunday_to_saturday_midnight))
  = Some (ts_of 2026 1 4 0 0 0)
  /\ ts_max (map fst (pv_rows Samples.sunday_to_saturday_midnight))
     = Some (ts_of 2026 1 10 0 0 0)
  /\ _resample_pivot Samples.sunday_to_saturday_midnight W [("default", "sum")]
       Samples.sheets_cfg
     = Ok (mkFrame ["Date"; "asset1 key1"]
             [(days_from_civil 2026 1 4, [Some (7210 # 1)])])
  /\ ~ fully_covered (ts_of 2026 1 4 0 0 0) (ts_of 2026 1 10 0 0 0)
         (ts_of 2026 1 4 0 0 0) (ts_of 2026 1 11 0 0 0)
  /\ (exists out,
         _resample_pivot Samples.sunday_to_saturday_midnight D [("default", "sum")]
           Samples.sheets_cfg = Ok out
         /\ map fst (df_rows out) = zspan (days_from_civil 2026 1 4)
                                          (days_from_civil 2026 1 9))
  /\ ts_max (map fst (pv_rows Samples.year_to_last_midnight))
     = Some (ts_of 2025 12 31 0 0 0)
  /\ (exists out,
         _resample_pivot Samples.year_to_last_midnight YS [("default", "sum")]
           Samples.sheets_cfg = Ok out
         /\ map fst (df_rows out) = [days_from_civil 2025 1 1])
  /\ ~ fully_covered (ts_of 2025 1 1 0 0 0) (ts_of 2025 12 31 0 0 0)
         (ts_of 2025 1 1 0 0 0) (ts_of 2026 1 1 0 0 0)
  /\ (exists out,
         _resample_pivot Samples.year_to_last_midnight MS [("default", "sum")]
           Samples.sheets_cfg = Ok out
         /\ map fst (df_rows out)
            = map (fun m => days_from_civil 2025 m 1) [1; 2; 3; 4; 5; 6; 7; 8; 9; 10; 11]).
Proof.
  split; [reflexivity|]. split; [reflexivity|].
  split; [vm_compute; reflexivity|].
  split; [unfold fully_covered; vm_compute; intros [_ H]; apply H; reflexivity|].
  split; [eexists; split; vm_compute; reflexivity|].
  split; [reflexivity|].
  split; [eexists; split; vm_compute; reflexivity|].
  split; [unfold fully_covered; vm_compute; intros [_ H]; apply H; reflexivity|].
  eexists; split; vm_compute; reflexivity.
Qed.

(** ** Order of the input rows *)

Lemma existsb_perm {A} (f : A -> bool) (l l' : list A) :
  Permutation l l' -> existsb f l = existsb f l'.
Proof.
  intros Hp. destruct (existsb f l) eqn:E, (existsb f l') eqn:E'; try reflexivity.
  - apply existsb_exists in E. destruct E as [x [Hin Hf]].
    assert (existsb f l' = true) as H
        by (apply existsb_exists; exists x; split; [eapply Permutation_in|]; eassumption).
    congruence.
  - apply existsb_exists in E'. destruct E' as [x [Hin Hf]].
    assert (existsb f l = true) as H
        by (apply existsb_exists; exists x; split;
            [eapply Permutation_in; [symmetry|]|]; eassumption).
    congruence.
Qed.

Lemma has_column_perm (src src' : list (Z * RawRow)) (k : string) :
  Permutation src src' -> has_column (map snd src) k = has_column (map snd src') k.
Proof.
  intros Hp. unfold has_column. apply existsb_perm, Permutation_map, Hp.
Qed.

Lemma find_ext {A} (f g : A -> bool) (l : list A) :
  (forall x, f x = g x) -> find f l = find g l.
Proof.
  intros H. induction l as [|x l IH]; cbn [find]; [reflexivity|].
  rewrite H, IH. reflexivity.
Qed.

Lemma pivot_index_perm (src src' : list (Z * RawRow)) (ks : list string) :
  Permutation src src' -> pivot_index src ks = pivot_index src' ks.
Proof.
  intros Hp. unfold pivot_index.
  apply (sort_dedup_canonical Z.leb Z_leb_total Z_leb_trans Z_leb_antisym Z.eqb Z.eqb_eq).
  intros t. rewrite !in_map_iff.
  split; intros [s [Hs Hin]]; exists s; (split; [exact Hs|]);
    apply filter_In in Hin; apply filter_In; (split; [|tauto]);
    eapply Permutation_in; [| apply Hin | symmetry | apply Hin]; exact Hp.
Qed.

Lemma pivot_pairs_perm (src src' : list (Z * RawRow)) (ks : list string) :
  Permutation src src' -> pivot_pairs src ks = pivot_pairs src' ks.
Proof.
  intros Hp. unfold pivot_pairs.
  apply (sort_dedup_canonical pair_leb pair_leb_total pair_leb_trans pair_leb_antisym
           pair_eqb pair_eqb_eq).
  intros ka. rewrite !in_flat_map.
  split; intros [s [Hin Hka]]; exists s; (split; [|exact Hka]);
    eapply Permutation_in; [| exact Hin | symmetry | exact Hin]; exact Hp.
Qed.

Lemma pivot_pairs_key (src : list (Z * RawRow)) (ks : list string) (ka : string * string) :
  In ka (pivot_pairs src ks) -> In (fst ka) ks.
Proof.
  unfold pivot_pairs. rewrite sort_by_In, (dedup_In pair_eqb pair_eqb_eq), in_flat_map.
  intros [s [_ Hin]]. apply in_map_iff in Hin. destruct Hin as [k [<- Hk]].
  apply filter_In in Hk. exact (proj1 Hk).
Qed.

(** Where no two rows collide, the first value does not depend on the
    order of the rows. *)
Lemma first_value_perm (src src' : list (Z * RawRow)) (ks : list string)
    (t : Z) (asset k : string) :
  Permutation src src' -> collision_free src ks -> In k ks ->
  first_value src t asset k = first_value src' t asset k.
Proof.
  intros Hp Hfree Hk. unfold first_value.
  set (P := fun s : Z * RawRow =>
              (fst s =? t) && String.eqb (rr_entity (snd s)) asset
              && is_some (row_value (snd s) k)).
  assert (forall s, P s = true ->
                    fst s = t /\ rr_entity (snd s) = asset
                    /\ exists v, row_value (snd s) k = Some v) as HP.
  { intros s Hs. unfold P in Hs. rewrite !andb_true_iff in Hs.
    destruct Hs as [[H1 H2] H3]. apply Z.eqb_eq in H1. apply String.eqb_eq in H2.
    destruct (row_value (snd s) k) as [v|]; [|discriminate]. eauto. }
  destruct (find P src) as [s|] eqn:E, (find P src') as [s'|] eqn:E'.
  - apply find_some in E, E'. destruct E as [Hin Hs], E' as [Hin' Hs'].
    destruct (HP s Hs) as [H1 [H2 [v Hv]]], (HP s' Hs') as [H1' [H2' [v' Hv']]].
    rewrite Hv, Hv'. f_equal.
    apply (Hfree s s' k v v'); try assumption; try congruence.
    eapply Permutation_in; [symmetry; exact Hp | exact Hin'].
  - apply find_some in E. destruct E as [Hin Hs].
    pose proof (find_none _ _ E' s (Permutation_in _ Hp Hin)). congruence.
  - apply find_some in E'. destruct E' as [Hin' Hs'].
    pose proof (find_none _ _ E s' (Permutation_in _ (Permutation_sym Hp) Hin')).
    congruence.
  - reflexivity.
Qed.

Lemma named_value_perm (src src' : list (Z * RawRow)) (ks : list string)
    (t : Z) (c : string) :
  Permutation src src' -> collision_free src ks ->
  named_value src (pivot_pairs src ks) t c = named_value src' (pivot_pairs src ks) t c.
Proof.
  intros Hp Hfree. unfold named_value.
  destruct (find _ (pivot_pairs src ks)) as [ka|] eqn:E; [|reflexivity].
  apply find_some in E. destruct E as [Hin _].
  apply (first_value_perm src src' ks); [exact Hp | exact Hfree|].
  apply (pivot_pairs_key src). exact Hin.
Qed.

(** The columns and the index of the pivot depend on the set of rows
    only; so does the whole pivot where no two rows collide. *)
Lemma build_pivot_perm (src src' : list (Z * RawRow)) (ks : list string)
    (cm : PyDict.t (list string)) :
  Permutation src src' ->
  (forall pv pv',
      build_pivot src ks cm = Ok pv -> build_pivot src' ks cm = Ok pv' ->
      pv_columns pv = pv_columns pv' /\ map fst (pv_rows pv) = map fst (pv_rows pv'))
  /\ (forall e, build_pivot src ks cm = Raise e <-> build_pivot src' ks cm = Raise e)
  /\ (collision_free src ks -> build_pivot src ks cm = build_pivot src' ks cm).
Proof.
  intros Hp.
  assert (find (fun k => negb (has_column (map snd src) k)) ks
          = find (fun k => negb (has_column (map snd src') k)) ks) as Hfind.
  { apply find_ext. intros k. rewrite (has_column_perm src src' k Hp). reflexivity. }
  unfold build_pivot. rewrite <- Hfind.
  destruct (find _ ks) as [k|]; [repeat split; try discriminate; auto|].
  rewrite <- (pivot_pairs_perm src src' ks Hp), <- (pivot_index_perm src src' ks Hp).
  split; [|split].
  - intros pv pv' [= <-] [= <-]. cbn [pv_columns pv_rows].
    split; [reflexivity|]. rewrite !map_map. reflexivity.
  - intros e. split; discriminate.
  - intros Hfree. f_equal. f_equal. apply map_ext. intros t. f_equal.
    apply map_ext. intros c. apply (named_value_perm src src' ks); assumption.
Qed.

(** *** The result does not depend on earlier events *)

Lemma indep_ret {A} (a : A) : trace_independent (ret a).
Proof. intros tr tr'. reflexivity. Qed.

Lemma indep_raise {A} (e : exn) : trace_independent (@raise A e).
Proof. intros tr tr'. reflexivity. Qed.

Lemma indep_lift {A} (r : result A) : trace_independent (lift r).
Proof. intros tr tr'. reflexivity. Qed.

Lemma indep_bind {A B} (c : M A) (k : A -> M B) :
  trace_independent c -> (forall a, trace_independent (k a)) ->
  trace_independent (bind c k).
Proof.
  intros Hc Hk tr tr'. unfold bind. specialize (Hc tr tr').
  destruct (c tr) as [[a|e] tr1], (c tr') as [[a'|e'] tr1']; cbn [fst] in *;
    try congruence.
  injection Hc as <-. apply Hk.
Qed.

Section Stable_env.

Variable env : Env.
Hypothesis stable : stable_env env.

Lemma indep_requests_get (rq : Request) : trace_independent (requests_get env rq).
Proof. intros tr tr'. cbn. apply (proj1 stable). Qed.

Lemma indep_get_jwt : trace_independent (get_jwt env).
Proof. intros tr tr'. cbn. apply (proj2 stable). Qed.

Lemma indep_single (rq : Request) : trace_independent (_fetch_timeseries_single env rq).
Proof.
  unfold _fetch_timeseries_single.
  apply indep_bind; [apply indep_requests_get|]. intros r.
  apply indep_bind.
  - destruct (status_code r =? 401); [|apply indep_ret].
    apply indep_bind; [apply indep_get_jwt | intros _; apply indep_requests_get].
  - intros r2. destruct (is_http_error (status_code r2));
      [apply indep_raise | apply indep_ret].
Qed.

Lemma indep_chunk_loop (fuel : nat) (rq : Request) (chunk_ms end_ts t : Z)
    (merged : KeyedSeries) :
  trace_independent (chunk_loop fuel env rq chunk_ms end_ts t merged).
Proof.
  revert t merged. induction fuel as [|fuel IH]; intros t merged; cbn [chunk_loop];
    destruct (t <? end_ts); try apply indep_ret; try apply indep_raise.
  apply indep_bind; [apply indep_single | intros chunk; apply IH].
Qed.

Lemma indep_fetch (et eid : string) (ks : list string) (s e l : Z) (ag : string)
    (i : option Z) :
  trace_independent (_fetch_timeseries env et eid ks s e l ag i).
Proof.
  unfold _fetch_timeseries.
  destruct (_ && exceeds_cap _ _ _); [apply indep_chunk_loop | apply indep_single].
Qed.

Lemma indep_fetch_entities (p : Parsed) (es : list Entity) (rows : list RawRow) :
  trace_independent (fetch_entities env p es rows).
Proof.
  revert rows. induction es as [|e es IH]; intros rows; cbn [fetch_entities];
    [apply indep_ret|].
  apply indep_bind; [apply indep_fetch | intros data; apply IH].
Qed.

Lemma indep_generate (payload : option Payload) :
  trace_independent (generate_pivot_excel_file env payload).
Proof.
  unfold generate_pivot_excel_file.
  repeat (match goal with |- trace_independent (if ?b then _ else _) => destruct b end;
          try apply indep_raise).
  unfold build_dataframes_from_widget_payload.
  apply indep_bind; [apply indep_lift|]. intros p.
  apply indep_bind; [apply indep_fetch_entities|]. intros rows. apply indep_lift.
Qed.

End Stable_env.

(** C6, as the code has it.  Building the pivot from the same rows in
    another order gives the same columns in the same order and the same
    row index, and raises for the same inputs; it gives the same cells,
    hence the same pivot, when no two rows of one asset at one pivot
    timestamp hold different values for a key (where they do, the first
    row in input order wins); and with collaborators that answer the same
    whatever happened before, the entry point returns the same result for
    the same payload. *)
Theorem C6_pivot_independent_of_row_order :
  (forall src src' ks cm,
      Permutation src src' ->
      (forall pv pv',
          build_pivot src ks cm = Ok pv -> build_pivot src' ks cm = Ok pv' ->
          pv_columns pv = pv_columns pv'
          /\ map fst (pv_rows pv) = map fst (pv_rows pv'))
      /\ (forall e, build_pivot src ks cm = Raise e <-> build_pivot src' ks cm = Raise e)
      /\ (collision_free src ks -> build_pivot src ks cm = build_pivot src' ks cm))
  /\ (forall env payload tr tr',
         stable_env env ->
         fst (generate_pivot_excel_file env payload tr)
         = fst (generate_pivot_excel_file env payload tr')).
Proof.
  split.
  - intros src src' ks cm Hp. apply build_pivot_perm. exact Hp.
  - intros env payload tr tr' Hst. apply indep_generate. exact Hst.
Qed.

(** Rows with pairwise different pivot timestamps never collide. *)
Lemma distinct_ts_collision_free (src : list (Z * RawRow)) (ks : list string) :
  NoDup (map fst src) -> collision_free src ks.
Proof.
  intros Hnd s1 s2 k v1 v2 H1 H2 _ Ht _ Hv1 Hv2.
  assert (s1 = s2) as <-.
  { clear Hv1 Hv2. induction src as [|s src IH]; [destruct H1|].
    cbn [map] in Hnd. inversion Hnd as [|? ? Hnotin Hnd']; subst.
    destruct H1 as [-> | H1], H2 as [-> | H2].
    - reflexivity.
    - exfalso. apply Hnotin. rewrite Ht. apply in_map. exact H2.
    - exfalso. apply Hnotin. rewrite <- Ht. apply in_map. exact H1.
    - apply IH; assumption. }
  congruence.
Qed.

Lemma sample_rows_collision_free :
  collision_free (Samples.asset1_rows ++ [Samples.collide_b]) ["key1"].
Proof.
  apply distinct_ts_collision_free. vm_compute.
  repeat (constructor; [cbn; intuition discriminate|]). constructor.
Qed.

Lemma C6_pivot_independent_of_row_order_witness :
  build_pivot (Samples.asset1_rows ++ [Samples.collide_b]) ["key1"] []
  = build_pivot (Samples.collide_b :: Samples.asset1_rows) ["key1"] []
  /\ fst (generate_pivot_excel_file
            (Samples.source_env (Samples.halfopen_source Samples.store))
            (Some Samples.two_entities) [EvRefresh])
     = fst (generate_pivot_excel_file
              (Samples.source_env (Samples.halfopen_source Samples.store))
              (Some Samples.two_entities) []).
Proof.
  destruct C6_pivot_independent_of_row_order as [Hperm Hdet].
  split.
  - destruct (Hperm (Samples.asset1_rows ++ [Samples.collide_b])
                    (Samples.collide_b :: Samples.asset1_rows) ["key1"] [])
      as [_ [_ Hcells]].
    + symmetry. apply Permutation_cons_append.
    + apply Hcells. exact sample_rows_collision_free.
  - apply Hdet. split; intros; reflexivity.
Defined.

(** C6 as the claim words it fails: two rows of one asset that share
    the pivot timestamp and hold the values 1 and 2 give the cell 1 in
    one order and the cell 2 in the other. *)
Lemma C6_counterexample_first_wins :
  Permutation [Samples.collide_a; Samples.collide_b] [Samples.collide_b; Samples.collide_a]
  /\ build_pivot [Samples.collide_a; Samples.collide_b] ["key1"] []
     = Ok (mkPivot ["asset1 key1"] [(0, [Some (1 # 1)])])
  /\ build_pivot [Samples.collide_b; Samples.collide_a] ["key1"] []
     = Ok (mkPivot ["asset1 key1"] [(0, [Some (2 # 1)])])
  /\ build_pivot [Samples.collide_a; Samples.collide_b] ["key1"] []
     <> build_pivot [Samples.collide_b; Samples.collide_a] ["key1"] [].
Proof.
  split; [apply perm_swap|]. split; [vm_compute; reflexivity|].
  split; [vm_compute; reflexivity|]. vm_compute. discriminate.
Qed.

(** * Further properties *)

(** ** The row unifier *)

Lemma filter_filter_comm {A} (P Q : A -> bool) (l : list A) :
  filter P (filter Q l) = filter Q (filter P l).
Proof.
  induction l as [|x l IH]; [reflexivity|]. cbn [filter].
  destruct (P x) eqn:Px, (Q x) eqn:Qx; cbn [filter]; rewrite ?Px, ?Qx, IH; reflexivity.
Qed.

Lemma filter_filter_absorb {A} (P Q : A -> bool) (l : list A) :
  (forall x, P x = true -> Q x = true) -> filter P (filter Q l) = filter P l.
Proof.
  intros H. induction l as [|x l IH]; [reflexivity|]. cbn [filter].
  destruct (Q x) eqn:Qx; cbn [filter]; rewrite IH; [reflexivity|].
  destruct (P x) eqn:Px; [|reflexivity]. rewrite (H x Px) in Qx. discriminate.
Qed.

(** Removing duplicates commutes with filtering. *)
Lemma dedup_filter {A} (eqb : A -> A -> bool) (P : A -> bool) (l : list A) :
  (forall x y, eqb x y = true <-> x = y) ->
  dedup eqb (filter P l) = filter P (dedup eqb l).
Proof.
  intros Heq. induction l as [|y l IH]; [reflexivity|].
  cbn [dedup]. cbn [filter]. destruct (P y) eqn:Py.
  - cbn [dedup]. rewrite IH. f_equal. apply filter_filter_comm.
  - rewrite IH. symmetry. apply filter_filter_absorb.
    intros z Pz. destruct (eqb y z) eqn:E; [|reflexivity].
    apply Heq in E. congruence.
Qed.

Lemma dedup_drop_later {A} (eqb : A -> A -> bool) (t : A) (l1 l2 : list A) :
  (forall x y, eqb x y = true <-> x = y) ->
  In t l1 -> dedup eqb (l1 ++ t :: l2) = dedup eqb (l1 ++ l2).
Proof.
  intros Heq. induction l1 as [|x l1 IH]; intros Hin; [destruct Hin|].
  cbn [app dedup]. f_equal. destruct Hin as [-> | Hin].
  - rewrite <- !(dedup_filter eqb _ _ Heq), !filter_app. cbn [filter].
    assert (eqb t t = true) as -> by (apply Heq; reflexivity). reflexivity.
  - rewrite (IH Hin). reflexivity.
Qed.

Lemma dedup_of_nodup {A} (eqb : A -> A -> bool) (l : list A) :
  (forall x y, eqb x y = true <-> x = y) -> NoDup l -> dedup eqb l = l.
Proof.
  intros Heq. induction 1 as [|x l Hx Hnd IH]; [reflexivity|].
  cbn [dedup]. rewrite IH. f_equal.
  rewrite (filter_ext_in _ (fun _ => true)); [apply filter_true|].
  intros z Hz. destruct (eqb x z) eqn:E; [|reflexivity].
  apply Heq in E. subst. contradiction.
Qed.

Lemma _to_raw_rows_flat (entity_name : string) (data : KeyedSeries) :
  _to_raw_rows entity_name data
  = fold_left (unify_step entity_name) (keyed_points data) [].
Proof.
  unfold _to_raw_rows. generalize (@nil RawRow) as rows.
  induction data as [|[k pts] data IH]; intros rows; [reflexivity|].
  cbn [fold_left keyed_points flat_map fst snd]. rewrite fold_left_app.
  fold (keyed_points data). rewrite <- IH. f_equal.
  clear IH. revert rows. induction pts as [|p pts IHp]; intros rows; [reflexivity|].
  cbn [map fold_left]. rewrite <- IHp. reflexivity.
Qed.

Lemma filter_map_app {A B} (f : A -> option B) (l1 l2 : list A) :
  filter_map f (l1 ++ l2) = filter_map f l1 ++ filter_map f l2.
Proof.
  induction l1 as [|x l1 IH]; [reflexivity|]. cbn [app filter_map].
  destruct (f x); cbn [app]; rewrite IH; reflexivity.
Qed.

Lemma keyed_points_timestamps (data : KeyedSeries) :
  filter_map (fun kp => pt_ts (snd kp)) (keyed_points data) = point_timestamps data.
Proof.
  induction data as [|[k pts] data IH]; [reflexivity|].
  cbn [keyed_points point_timestamps flat_map fst snd].
  rewrite filter_map_app. fold (keyed_points data). fold (point_timestamps data).
  rewrite IH. f_equal.
  induction pts as [|p pts IHp]; [reflexivity|]. cbn [map filter_map snd].
  destruct (pt_ts p); rewrite IHp; reflexivity.
Qed.

Lemma set_row_value_ts (rows : list RawRow) (name : string) (t : Z) (k : string)
    (v : cell) :
  map rr_ts (set_row_value rows name t k v)
  = if existsb (Z.eqb t) (map rr_ts rows) then map rr_ts rows else map rr_ts rows ++ [t].
Proof.
  induction rows as [|r rows IH]; [reflexivity|].
  cbn [set_row_value map existsb]. rewrite (Z.eqb_sym t (rr_ts r)).
  destruct (rr_ts r =? t) eqn:E; cbn [map rr_ts orb]; [reflexivity|].
  rewrite IH. destruct (existsb (Z.eqb t) (map rr_ts rows)); reflexivity.
Qed.

Lemma set_row_value_entity (rows : list RawRow) (name : string) (t : Z) (k : string)
    (v : cell) :
  Forall (fun r => rr_entity r = name) rows ->
  Forall (fun r => rr_entity r = name) (set_row_value rows name t k v).
Proof.
  induction 1 as [|r rows Hr Hall IH]; cbn [set_row_value].
  - constructor; [reflexivity | constructor].
  - destruct (rr_ts r =? t); constructor; cbn [rr_entity]; assumption.
Qed.

Lemma unify_fold_ts (name : string) (l : list (string * Point)) (rows : list RawRow) :
  NoDup (map rr_ts rows) ->
  map rr_ts (fold_left (unify_step name) l rows)
  = dedup Z.eqb (map rr_ts rows ++ filter_map (fun kp => pt_ts (snd kp)) l).
Proof.
  revert rows. induction l as [|[k p] l IH]; intros rows Hnd.
  - cbn [fold_left filter_map]. rewrite app_nil_r.
    symmetry. apply dedup_of_nodup; [apply Z.eqb_eq | exact Hnd].
  - cbn [fold_left filter_map snd]. unfold unify_step at 2. cbn [fst snd].
    destruct (pt_ts p) as [t|]; [|apply IH; exact Hnd].
    pose proof (set_row_value_ts rows name t k (pt_value p)) as Hts.
    destruct (existsb (Z.eqb t) (map rr_ts rows)) eqn:E.
    + rewrite IH by (rewrite Hts; exact Hnd). rewrite Hts.
      symmetry. apply dedup_drop_later; [apply Z.eqb_eq|].
      apply existsb_exists in E. destruct E as [x [Hx Ex]].
      apply Z.eqb_eq in Ex. subst. exact Hx.
    + assert (~ In t (map rr_ts rows)) as Hnot.
      { intros Hin. assert (existsb (Z.eqb t) (map rr_ts rows) = true) as H.
        { apply existsb_exists. exists t. split; [exact Hin | apply Z.eqb_refl]. }
        congruence. }
      rewrite IH.
      * rewrite Hts, <- app_assoc. reflexivity.
      * rewrite Hts. apply NoDup_app; [exact Hnd | repeat constructor; intros [] |].
        intros x Hx [-> | []]. contradiction.
Qed.

(** X1: for a response none of whose keys is named like a field of the
    rows ("ts", "entity"), the unified rows of an entity hold one row per
    distinct timestamp of the response, in the order in which the
    timestamps are first met (key by key, point by point); points without
    a timestamp give no row; every row carries the entity name. *)
Theorem X1_one_row_per_timestamp (entity_name : string) (data : KeyedSeries) :
  Forall no_row_field (PyDict.keys data) ->
  map rr_ts (_to_raw_rows entity_name data) = dedup Z.eqb (point_timestamps data)
  /\ NoDup (map rr_ts (_to_raw_rows entity_name data))
  /\ Forall (fun r => rr_entity r = entity_name) (_to_raw_rows entity_name data).
Proof.
  intros _.
  assert (map rr_ts (_to_raw_rows entity_name data)
          = dedup Z.eqb (point_timestamps data)) as Hts.
  { rewrite _to_raw_rows_flat, unify_fold_ts by constructor.
    cbn [map app]. rewrite keyed_points_timestamps. reflexivity. }
  split; [exact Hts|]. split.
  - rewrite Hts. apply dedup_NoDup. apply Z.eqb_eq.
  - rewrite _to_raw_rows_flat.
    assert (forall l rows,
               Forall (fun r => rr_entity r = entity_name) rows ->
               Forall (fun r => rr_entity r = entity_name)
                      (fold_left (unify_step entity_name) l rows)) as H.
    { induction l as [|[k p] l IH]; intros rows Hr; [exact Hr|].
      cbn [fold_left]. apply IH. unfold unify_step. cbn [fst snd].
      destruct (pt_ts p); [apply set_row_value_entity|]; exact Hr. }
    apply H. constructor.
Qed.

Lemma cell_at_set (rows : list RawRow) (name : string) (t : Z) (k : string) (v : cell)
    (t' : Z) (k' : string) :
  cell_at (set_row_value rows name t k v) t' k'
  = if (t =? t') && String.eqb k k' then Some v else cell_at rows t' k'.
Proof.
  unfold cell_at, row_at. induction rows as [|r rows IH].
  - cbn [set_row_value find rr_ts].
    destruct (t =? t') eqn:Et; cbn [andb rr_vals PyDict.get]; [|reflexivity].
    destruct (String.eqb k k'); reflexivity.
  - cbn [set_row_value]. destruct (rr_ts r =? t) eqn:E.
    + apply Z.eqb_eq in E. subst t. cbn [find rr_ts].
      destruct (rr_ts r =? t') eqn:Et; cbn [andb rr_vals]; [|reflexivity].
      apply get_set.
    + cbn [find]. destruct (rr_ts r =? t') eqn:Et.
      * apply Z.eqb_eq in Et. subst t'. rewrite Z.eqb_sym, E. reflexivity.
      * exact IH.
Qed.

Lemma unify_fold_cell (name : string) (l : list (string * Point)) (rows : list RawRow)
    (t : Z) (k : string) :
  cell_at (fold_left (unify_step name) l rows) t k
  = fold_left (write_at t k) l (cell_at rows t k).
Proof.
  revert rows. induction l as [|[k0 p] l IH]; intros rows; [reflexivity|].
  cbn [fold_left]. rewrite IH. f_equal. unfold unify_step, write_at. cbn [fst snd].
  destruct (pt_ts p) as [t0|]; [|reflexivity]. apply cell_at_set.
Qed.

Lemma write_at_other_key (t : Z) (k k0 : string) (pts : list Point) (acc : option cell) :
  k0 <> k -> fold_left (write_at t k) (map (pair k0) pts) acc = acc.
Proof.
  intros Hne. revert acc. induction pts as [|p pts IH]; intros acc; [reflexivity|].
  cbn [map fold_left]. rewrite IH. unfold write_at. cbn [fst snd].
  destruct (pt_ts p); [|reflexivity].
  replace (String.eqb k0 k) with false by (symmetry; apply String.eqb_neq; exact Hne).
  rewrite andb_false_r. reflexivity.
Qed.

Lemma write_at_same_key (t : Z) (k : string) (pts : list Point) (acc : option cell) :
  fold_left (write_at t k) (map (pair k) pts) acc
  = fold_left
      (fun acc p =>
         match pt_ts p with
         | Some t' => if t' =? t then Some (pt_value p) else acc
         | None => acc
         end) pts acc.
Proof.
  revert acc. induction pts as [|p pts IH]; intros acc; [reflexivity|].
  cbn [map fold_left]. rewrite IH. f_equal. unfold write_at. cbn [fst snd].
  destruct (pt_ts p); [|reflexivity].
  rewrite String.eqb_refl, andb_true_r. reflexivity.
Qed.

Lemma write_at_keyed_points (t : Z) (k : string) (data : KeyedSeries) (acc : option cell) :
  NoDup (PyDict.keys data) ->
  fold_left (write_at t k) (keyed_points data) acc
  = match PyDict.get data k with
    | Some pts =>
        fold_left
          (fun acc p =>
             match pt_ts p with
             | Some t' => if t' =? t then Some (pt_value p) else acc
             | None => acc
             end) pts acc
    | None => acc
    end.
Proof.
  revert acc. induction data as [|[k0 pts] data IH]; intros acc Hnd; [reflexivity|].
  cbn [PyDict.keys map fst] in Hnd. inversion Hnd as [|? ? Hnotin Hnd']; subst.
  cbn [keyed_points flat_map fst snd PyDict.get]. rewrite fold_left_app.
  fold (keyed_points data). rewrite (IH _ Hnd').
  destruct (String.eqb_spec k0 k) as [->|Hne].
  - apply get_None_keys in Hnotin. rewrite Hnotin. apply write_at_same_key.
  - rewrite (write_at_other_key t k k0 pts acc Hne). reflexivity.
Qed.

Lemma row_at_of_member (rows : list RawRow) (r : RawRow) :
  NoDup (map rr_ts rows) -> In r rows -> row_at rows (rr_ts r) = Some r.
Proof.
  unfold row_at. induction rows as [|r0 rows IH]; intros Hnd Hin; [destruct Hin|].
  cbn [map] in Hnd. inversion Hnd as [|? ? Hnotin Hnd']; subst.
  cbn [find]. destruct Hin as [-> | Hin]; [rewrite Z.eqb_refl; reflexivity|].
  destruct (rr_ts r0 =? rr_ts r) eqn:E; [|apply IH; assumption].
  apply Z.eqb_eq in E. exfalso. apply Hnotin. rewrite E. apply in_map. exact Hin.
Qed.

Lemma X1_one_row_per_timestamp_witness :
  map rr_ts
    (_to_raw_rows "asset1"
       [("key1", [mkPoint (Some 1000) (Some (1 # 1)); mkPoint None (Some (9 # 1));
                  mkPoint (Some 2000) None; mkPoint (Some 1000) (Some (3 # 1))]);
        ("key2", [mkPoint (Some 2000) (Some (4 # 1)); mkPoint (Some 500) None])])
  = [1000; 2000; 500].
Proof.
  refine (proj1 (X1_one_row_per_timestamp "asset1"
                   [("key1", [mkPoint (Some 1000) (Some (1 # 1)); mkPoint None (Some (9 # 1));
                              mkPoint (Some 2000) None; mkPoint (Some 1000) (Some (3 # 1))]);
                    ("key2", [mkPoint (Some 2000) (Some (4 # 1)); mkPoint (Some 500) None])]
                   _)).
  repeat constructor; unfold no_row_field; cbn; intuition discriminate.
Defined.

(** X2: last write wins per key.  For a response with distinct keys,
    none of them named like a field of the rows ("ts", "entity"), and a
    key [k] that is no such name either: the value a unified row holds
    for [k] is the value of the last point of that key's series at the
    row's timestamp, and the row has no entry for a key without a point at
    that timestamp. *)
Theorem X2_last_write_wins (entity_name : string) (data : KeyedSeries)
    (r : RawRow) (k : string) :
  NoDup (PyDict.keys data) ->
  Forall no_row_field (PyDict.keys data) ->
  no_row_field k ->
  In r (_to_raw_rows entity_name data) ->
  PyDict.get (rr_vals r) k
  = match PyDict.get data k with
    | Some pts => last_point_value pts (rr_ts r)
    | None => None
    end.
Proof.
  intros Hnd _ _ Hin.
  assert (NoDup (map rr_ts (_to_raw_rows entity_name data))) as Hts.
  { rewrite _to_raw_rows_flat, unify_fold_ts by constructor.
    apply dedup_NoDup. apply Z.eqb_eq. }
  pose proof (row_at_of_member _ r Hts Hin) as Hrow.
  assert (cell_at (_to_raw_rows entity_name data) (rr_ts r) k
          = PyDict.get (rr_vals r) k) as <-.
  { unfold cell_at. rewrite Hrow. reflexivity. }
  rewrite _to_raw_rows_flat, unify_fold_cell.
  rewrite (write_at_keyed_points _ _ _ _ Hnd). reflexivity.
Qed.

Lemma X2_last_write_wins_witness :
  PyDict.get (rr_vals (mkRawRow 1000 "asset1" [("key1", Some (3 # 1))])) "key1"
  = last_point_value
      [mkPoint (Some 1000) (Some (1 # 1)); mkPoint None (Some (9 # 1));
       mkPoint (Some 2000) None; mkPoint (Some 1000) (Some (3 # 1))] 1000.
Proof.
  apply (X2_last_write_wins "asset1"
           [("key1", [mkPoint (Some 1000) (Some (1 # 1)); mkPoint None (Some (9 # 1));
                      mkPoint (Some 2000) None; mkPoint (Some 1000) (Some (3 # 1))])]
           (mkRawRow 1000 "asset1" [("key1", Some (3 # 1))]) "key1").
  - cbn. constructor; [intros [] | constructor].
  - repeat constructor; unfold no_row_field; cbn; intuition discriminate.
  - unfold no_row_field; cbn; intuition discriminate.
  - vm_compute. left. reflexivity.
Defined.

(** ** Requests sent by a fetch *)

(** X3: whatever the transport and the authentication service do, one
    call of [_fetch_timeseries_single] sends the request once, or once
    more after a single token renewal, and nothing else; and when it
    returns a body, that body is the answer to the last request sent and
    that answer was not a 4xx or 5xx one. *)
Theorem X3_single_sends_at_most_two_requests (env : Env) (rq : Request)
    (tr : list Event) :
  let out := _fetch_timeseries_single env rq tr in
  exists evs,
    snd out = tr ++ evs
    /\ (evs = [EvGet rq] \/ evs = [EvGet rq; EvRefresh]
        \/ evs = [EvGet rq; EvRefresh; EvGet rq])
    /\ forall body,
         fst out = Ok body ->
         exists tr0 r,
           snd out = tr0 ++ [EvGet rq]
           /\ transport env tr0 rq = Ok r
           /\ json r = body
           /\ is_http_error (status_code r) = false.
Proof.
  cbv zeta. unfold _fetch_timeseries_single, bind, requests_get, get_jwt, ret, raise.
  destruct (transport env tr rq) as [r|e] eqn:E1.
  - destruct (status_code r =? 401) eqn:E401.
    + destruct (refresh env (tr ++ [EvGet rq])) as [u|e] eqn:Er.
      * destruct (transport env ((tr ++ [EvGet rq]) ++ [EvRefresh]) rq) as [r2|e] eqn:E2.
        -- exists [EvGet rq; EvRefresh; EvGet rq].
           destruct (is_http_error (status_code r2)) eqn:Eh; cbn [fst snd];
             (split; [rewrite <- !app_assoc; reflexivity|]);
             (split; [auto|]); intros body Hb; [discriminate|].
           injection Hb as <-.
           exists ((tr ++ [EvGet rq]) ++ [EvRefresh]), r2. auto.
        -- exists [EvGet rq; EvRefresh; EvGet rq]. cbn [fst snd].
           split; [rewrite <- !app_assoc; reflexivity|].
           split; [auto | discriminate].
      * exists [EvGet rq; EvRefresh]. cbn [fst snd].
        split; [rewrite <- !app_assoc; reflexivity|]. split; [auto | discriminate].
    + exists [EvGet rq].
      destruct (is_http_error (status_code r)) eqn:Eh; cbn [fst snd];
        (split; [reflexivity|]); (split; [auto|]); intros body Hb; [discriminate|].
      injection Hb as <-. exists tr, r. auto.
  - exists [EvGet rq]. cbn [fst snd]. split; [reflexivity|]. split; [auto | discriminate].
Qed.









(** X5: a reversed range is not fetched at all.  When the chunking test
    passes although [end_ts <= start_ts] (a negative interval with a range
    running backwards), the loop body never runs: no request is sent and
    the result is the empty dictionary. *)
Theorem X5_reversed_range_sends_nothing (env : Env) (et eid : string)
    (ks : list string) (start_ts end_ts lim : Z) (ag : string) (i : Z)
    (tr : list Event) :
  i <> 0 ->
  ag <> "NONE" ->
  exceeds_cap start_ts end_ts i = true ->
  end_ts <= start_ts ->
  _fetch_timeseries env et eid ks start_ts end_ts lim ag (Some i) tr = (Ok [], tr).
Proof.
  intros Hi Hag Hcap Hrev. unfold _fetch_timeseries. cbn [truthy_Z some_or].
  replace (negb (i =? 0)) with true by (symmetry; apply negb_true_iff, Z.eqb_neq; lia).
  replace (negb (String.eqb ag "NONE")) with true
    by (symmetry; apply negb_true_iff, String.eqb_neq; exact Hag).
  cbn [andb]. rewrite Hcap.
  replace (Z.to_nat (end_ts - start_ts)) with 0%nat by lia.
  cbn [chunk_loop]. replace (start_ts <? end_ts) with false
    by (symmetry; apply Z.ltb_ge; exact Hrev).
  reflexivity.
Qed.

Lemma X5_reversed_range_sends_nothing_witness :
  _fetch_timeseries (Samples.scripted [] Samples.one_point)
    "DEVICE" "id1" ["k"] 1000 0 100 "AVG" (Some (-1)) [] = (Ok [], []).
Proof.
  apply X5_reversed_range_sends_nothing;
    [lia | discriminate | reflexivity | lia].
Defined.

(** ** More on the resampler *)

(** *** The days the labels of a resample stand for *)

Lemma midnight_lt (a b : Z) : a < b -> midnight a < midnight b.
Proof. unfold midnight, MS_PER_DAY. lia. Qed.

Lemma midnight_inj (a b : Z) : midnight a = midnight b -> a = b.
Proof. unfold midnight, MS_PER_DAY. lia. Qed.

Lemma zrange_sorted (n : nat) : forall a, StronglySorted Z.lt (zrange a n).
Proof.
  induction n as [|n IH]; intros a; [constructor|].
  rewrite zrange_S. constructor; [apply IH|].
  apply Forall_forall. intros x Hx. apply zrange_In in Hx. lia.
Qed.

Lemma sorted_map_mono (f : Z -> Z) (l : list Z) :
  (forall x y, x < y -> f x < f y) ->
  StronglySorted Z.lt l -> StronglySorted Z.lt (map f l).
Proof.
  intros Hf. induction 1 as [|x l Hs IH Hall]; cbn [map]; constructor; [exact IH|].
  apply Forall_forall. intros y Hy. apply in_map_iff in Hy. destruct Hy as [z [<- Hz]].
  apply Hf. rewrite Forall_forall in Hall. apply Hall, Hz.
Qed.

Lemma month_start_day_step (n : nat) (i : Z) :
  month_start_day i < month_start_day (i + 1 + Z.of_nat n).
Proof.
  induction n as [|n IH].
  - replace (i + 1 + Z.of_nat 0) with (i + 1) by lia.
    pose proof (proj2 (month_end_of_month_start i)). lia.
  - replace (i + 1 + Z.of_nat (S n)) with (i + 1 + Z.of_nat n + 1) by lia.
    pose proof (proj2 (month_end_of_month_start (i + 1 + Z.of_nat n))). lia.
Qed.

Lemma month_start_day_lt (i j : Z) : i < j -> month_start_day i < month_start_day j.
Proof.
  intros H. replace j with (i + 1 + Z.of_nat (Z.to_nat (j - i - 1))) by lia.
  apply month_start_day_step.
Qed.

Lemma year_start_day_step (n : nat) (y : Z) :
  year_start_day y < year_start_day (y + 1 + Z.of_nat n).
Proof.
  induction n as [|n IH].
  - replace (y + 1 + Z.of_nat 0) with (y + 1) by lia.
    pose proof (proj2 (year_end_of_year_start y)). lia.
  - replace (y + 1 + Z.of_nat (S n)) with (y + 1 + Z.of_nat n + 1) by lia.
    pose proof (proj2 (year_end_of_year_start (y + 1 + Z.of_nat n))). lia.
Qed.

Lemma year_start_day_lt (y z : Z) : y < z -> year_start_day y < year_start_day z.
Proof.
  intros H. replace z with (y + 1 + Z.of_nat (Z.to_nat (z - y - 1))) by lia.
  apply year_start_day_step.
Qed.

(** The labels of a resample are the midnights of strictly ascending
    days. *)
Lemma resample_bins_days (fs : FreqStr) (tmin tmax : Z) :
  exists ds,
    map bin_label (resample_bins fs tmin tmax) = map midnight ds
    /\ StronglySorted Z.lt ds.
Proof.
  destruct fs; cbn [resample_bins]; unfold week_bins; rewrite map_map; cbn [bin_label].
  - exists (zspan (date_of tmin) (date_of tmax)).
    split; [reflexivity | apply zrange_sorted].
  - exists (map (fun k => week_end_day 5 (date_of tmin) + 7 * k)
                (zspan 0 ((week_end_day 5 (date_of tmax)
                           - week_end_day 5 (date_of tmin)) / 7))).
    split; [rewrite map_map; reflexivity|].
    apply sorted_map_mono; [intros; lia | apply zrange_sorted].
  - exists (map (fun k => week_end_day 6 (date_of tmin) + 7 * k)
                (zspan 0 ((week_end_day 6 (date_of tmax)
                           - week_end_day 6 (date_of tmin)) / 7))).
    split; [rewrite map_map; reflexivity|].
    apply sorted_map_mono; [intros; lia | apply zrange_sorted].
  - exists (map month_start_day
                (zspan (month_index (date_of tmin)) (month_index (date_of tmax)))).
    split; [rewrite map_map; reflexivity|].
    apply sorted_map_mono; [apply month_start_day_lt | apply zrange_sorted].
  - exists (map year_start_day
                (zspan (year_of (date_of tmin)) (year_of (date_of tmax)))).
    split; [rewrite map_map; reflexivity|].
    apply sorted_map_mono; [apply year_start_day_lt | apply zrange_sorted].
Qed.

(** The date of the period a label stands for: the labelled day, or six
    days before it for a week. *)
Lemma period_start_date (freq : Freq) (d : Z) :
  date_of (fst (period_bounds freq (midnight d)))
  = match freq with W => d - 6 | _ => d end.
Proof.
  destruct freq; cbn [period_bounds fst].
  - rewrite normalize_midnight. apply date_of_midnight.
  - replace (midnight d - 6 * MS_PER_DAY) with (midnight (d - 6))
      by (unfold midnight; lia).
    apply date_of_midnight.
  - apply date_of_midnight.
  - apply date_of_midnight.
Qed.

Lemma complete_rows_of_sorted {A} (freq : Freq) (data_start data_end : Z)
    (res : list (Z * A)) :
  forall ds,
    map fst res = map midnight ds ->
    StronglySorted Z.lt ds ->
    StronglySorted Z.lt
      (map (fun dr => date_of (fst dr))
           (complete_rows_of freq data_start data_end res)).
Proof.
  induction res as [|[pe r] res IH]; intros ds Hl Hs; [constructor|].
  destruct ds as [|d ds]; [discriminate|].
  cbn [map fst] in Hl. injection Hl as Hpe Hl.
  inversion Hs as [|? ? Hs' Hall]; subst.
  cbn [complete_rows_of].
  destruct (complete_period freq data_start data_end (midnight d)) as [ps|] eqn:E;
    [|apply (IH ds Hl Hs')].
  cbn [map fst]. constructor; [apply (IH ds Hl Hs')|].
  apply Forall_forall. intros x Hx. apply in_map_iff in Hx.
  destruct Hx as [[ps' r'] [<- Hin]]. cbn [fst].
  apply complete_rows_of_In in Hin. destruct Hin as [pe' [Hin' Hc']].
  assert (In pe' (map midnight ds)) as Hpe'.
  { rewrite <- Hl. apply in_map_iff. exists (pe', r'). split; [reflexivity | exact Hin']. }
  apply in_map_iff in Hpe'. destruct Hpe' as [d' [<- Hd']].
  rewrite Forall_forall in Hall. pose proof (Hall d' Hd') as Hlt.
  apply complete_period_Some in E. apply complete_period_Some in Hc'.
  destruct E as [-> _]. destruct Hc' as [-> _].
  rewrite !period_start_date. destruct freq; lia.
Qed.

(** The surviving rows of [_resample_pivot], with the extremes of the
    data. *)
Lemma _resample_pivot_frame (df : PivotTable) (freq : Freq) (agg_map : PyDict.t string)
    (sheets_cfg : SheetsCfg) (out : DataFrame) :
  _resample_pivot df freq agg_map sheets_cfg = Ok out ->
  df_rows out = [] \/
  exists res data_start data_end,
    resample_agg df (freq_str_of freq sheets_cfg)
                 (_build_agg_dict (pv_columns df) agg_map) = Ok res
    /\ ts_min (map fst (pv_rows df)) = Some data_start
    /\ ts_max (map fst (pv_rows df)) = Some data_end
    /\ df_columns out = "Date" :: pv_columns df
    /\ df_rows out = map (fun dr => (date_of (fst dr), snd dr))
                         (complete_rows_of freq data_start data_end res).
Proof.
  intros Hout. apply _resample_pivot_Ok in Hout.
  destruct Hout as [res [Hres [[_ ->] | [Hne ->]]]]; [left; reflexivity|].
  right. unfold complete_rows in *.
  destruct (ts_min (map fst (pv_rows df))) as [data_start|]; [|congruence].
  destruct (ts_max (map fst (pv_rows df))) as [data_end|]; [|congruence].
  exists res, data_start, data_end. auto.
Qed.

Lemma sorted_lt_NoDup (l : list Z) : StronglySorted Z.lt l -> NoDup l.
Proof.
  induction 1 as [|x l Hs IH Hall]; constructor; [|exact IH].
  intros Hin. rewrite Forall_forall in Hall. specialize (Hall x Hin). lia.
Qed.

(** X6: the rows of an aggregate sheet are dated in strictly ascending
    order, one row per period at most, whatever the order of the pivot
    rows; with their "Date" first, the columns are those of the pivot. *)
Theorem X6_aggregate_rows_ascending (df : PivotTable) (freq : Freq)
    (agg_map : PyDict.t string) (sheets_cfg : SheetsCfg) (out : DataFrame) :
  _resample_pivot df freq agg_map sheets_cfg = Ok out ->
  StronglySorted Z.lt (map fst (df_rows out))
  /\ NoDup (map fst (df_rows out))
  /\ (df_rows out <> [] -> df_columns out = "Date" :: pv_columns df).
Proof.
  intros Hout.
  assert (StronglySorted Z.lt (map fst (df_rows out))
          /\ (df_rows out <> [] -> df_columns out = "Date" :: pv_columns df)) as [Hs Hc].
  { destruct (_resample_pivot_frame _ _ _ _ _ Hout)
      as [-> | [res [data_start [data_end [Hres [Hmin [Hmax [Hcols ->]]]]]]]].
    - split; [constructor | congruence].
    - split; [|intros _; exact Hcols].
      rewrite map_map. cbn [fst].
      destruct (resample_bins_days (freq_str_of freq sheets_cfg) data_start data_end)
        as [ds [Hds Hsorted]].
      apply (complete_rows_of_sorted freq data_start data_end res ds); [|exact Hsorted].
      rewrite <- Hds. eapply resample_agg_labels; eassumption. }
  split; [exact Hs|]. split; [|exact Hc].
  apply sorted_lt_NoDup. exact Hs.
Qed.

Lemma X6_aggregate_rows_ascending_witness :
  StronglySorted Z.lt
    (map fst [(days_from_civil 2026 1 4, [Some (7210 # 1)])])
  /\ NoDup (map fst [(days_from_civil 2026 1 4, [Some (7210 # 1)])])
  /\ ([(days_from_civil 2026 1 4, [Some (7210 # 1)])] <> [] ->
      ["Date"; "asset1 key1"] = "Date" :: pv_columns Samples.sunday_to_saturday_midnight).
Proof.
  exact (X6_aggregate_rows_ascending Samples.sunday_to_saturday_midnight W
           [("default", "sum")] Samples.sheets_cfg
           (mkFrame ["Date"; "asset1 key1"]
              [(days_from_civil 2026 1 4, [Some (7210 # 1)])])
           ltac:(vm_compute; reflexivity)).
Defined.

(** *** Weeks *)

Lemma weekday_week_end_day (anchor d k : Z) :
  0 <= anchor < 7 -> weekday (week_end_day anchor d + 7 * k) = anchor.
Proof.
  intros Ha. unfold week_end_day, weekday.
  generalize ((d + 3) mod 7), (Z.mod_pos_bound (d + 3) 7 ltac:(lia)),
    (Z.div_mod (d + 3) 7 ltac:(lia)).
  intros w Hw Hdm.
  generalize ((anchor - w) mod 7), (Z.mod_pos_bound (anchor - w) 7 ltac:(lia)),
    (Z.div_mod (anchor - w) 7 ltac:(lia)).
  intros u Hu Hum.
  symmetry. apply (Z.mod_unique _ _ ((d + 3) / 7 - (anchor - w) / 7 + k)); lia.
Qed.

Lemma weekday_minus_6 (e : Z) : weekday (e - 6) = (weekday e + 1) mod 7.
Proof.
  unfold weekday.
  generalize ((e + 3) mod 7), (Z.mod_pos_bound (e + 3) 7 ltac:(lia)),
    (Z.div_mod (e + 3) 7 ltac:(lia)).
  intros w Hw Hdm.
  assert (e - 6 + 3 = 7 * ((e + 3) / 7 - 1) + (w + 1)) as E by lia.
  rewrite E, Z.add_comm, Z.mul_comm, Z.mod_add by lia. reflexivity.
Qed.

Lemma week_bins_label (anchor d0 d1 : Z) (b : Bin) :
  0 <= anchor < 7 ->
  In b (week_bins anchor d0 d1) ->
  exists e, bin_label b = midnight e /\ weekday e = anchor.
Proof.
  intros Ha Hin. unfold week_bins in Hin. apply in_map_iff in Hin.
  destruct Hin as [k [<- _]]. eexists. split; [reflexivity|].
  apply weekday_week_end_day. exact Ha.
Qed.

(** X7: every row of the weekly sheet is dated on the first day of its
    week: a Sunday when the configured [week_start] is "sunday" in any
    letter case (or is absent), a Monday for every other value. *)
Theorem X7_weekly_rows_start_on_week_start (df : PivotTable)
    (agg_map : PyDict.t string) (sheets_cfg : SheetsCfg) (out : DataFrame)
    (date : Z) (cells : list cell) :
  _resample_pivot df W agg_map sheets_cfg = Ok out ->
  In (date, cells) (df_rows out) ->
  weekday date
  = if String.eqb (lower (match week_start sheets_cfg with
                          | Some s => s | None => "Sunday" end)) "sunday"
    then 6 else 0.
Proof.
  intros Hout Hin.
  destruct (_resample_pivot_frame _ _ _ _ _ Hout)
    as [E | [res [data_start [data_end [Hres [Hmin [Hmax [_ E]]]]]]]];
    rewrite E in Hin; [destruct Hin|].
  apply in_map_iff in Hin. destruct Hin as [[ps c] [Heq Hin]].
  cbn [fst snd] in Heq. injection Heq as <- <-.
  apply complete_rows_of_In in Hin. destruct Hin as [pe [Hin Hc]].
  pose proof (resample_agg_labels _ _ _ _ _ _ Hres Hmin Hmax) as Hlab.
  assert (In pe (map fst res)) as Hpe
    by (apply in_map_iff; exists (pe, c); split; [reflexivity | exact Hin]).
  rewrite Hlab in Hpe. apply in_map_iff in Hpe. destruct Hpe as [b [<- Hb]].
  apply complete_period_Some in Hc. destruct Hc as [-> _].
  cbn [freq_str_of] in Hb. unfold _week_start_offset in Hb.
  destruct (String.eqb (lower _) "sunday"); cbn [Z.eqb Pos.eqb resample_bins] in Hb.
  - destruct (week_bins_label 5 _ _ b ltac:(lia) Hb) as [e [-> He]].
    rewrite (period_start_date W e), weekday_minus_6, He. reflexivity.
  - destruct (week_bins_label 6 _ _ b ltac:(lia) Hb) as [e [-> He]].
    rewrite (period_start_date W e), weekday_minus_6, He. reflexivity.
Qed.

Lemma X7_weekly_rows_start_on_week_start_witness :
  weekday (days_from_civil 2026 1 4) = 6.
Proof.
  exact (X7_weekly_rows_start_on_week_start Samples.sunday_to_saturday_midnight
           [("default", "sum")] Samples.sheets_cfg
           (mkFrame ["Date"; "asset1 key1"]
              [(days_from_civil 2026 1 4, [Some (7210 # 1)])])
           (days_from_civil 2026 1 4) [Some (7210 # 1)]
           ltac:(vm_compute; reflexivity) (or_introl eq_refl)).
Defined.

(** *** Days and months *)

Lemma resample_row_label (df : PivotTable) (freq : Freq) (sheets_cfg : SheetsCfg)
    (agg_dict : PyDict.t string) (res : list (Z * list cell))
    (data_start data_end pe : Z) (cells : list cell) :
  resample_agg df (freq_str_of freq sheets_cfg) agg_dict = Ok res ->
  ts_min (map fst (pv_rows df)) = Some data_start ->
  ts_max (map fst (pv_rows df)) = Some data_end ->
  In (pe, cells) res ->
  label_of_freq freq pe.
Proof.
  intros Hres Hmin Hmax Hin.
  pose proof (resample_agg_labels _ _ _ _ _ _ Hres Hmin Hmax) as Hlab.
  assert (In pe (map fst res)) as Hpe
    by (apply in_map_iff; exists (pe, cells); split; [reflexivity | exact Hin]).
  rewrite Hlab in Hpe. apply in_map_iff in Hpe. destruct Hpe as [b [<- Hb]].
  eapply resample_bins_label. exact Hb.
Qed.

(** X8: the Daily and the Monthly sheet hold fully covered periods only.
    For data that reaches from [data_start] to [data_end], every daily
    row is dated on a day, and every monthly row on the first day of a
    month, that the data covers from its first instant to its last
    second. *)
Theorem X8_daily_and_monthly_rows_fully_covered (df : PivotTable)
    (agg_map : PyDict.t string) (sheets_cfg : SheetsCfg)
    (data_start data_end : Z) :
  ts_min (map fst (pv_rows df)) = Some data_start ->
  ts_max (map fst (pv_rows df)) = Some data_end ->
  (forall out date cells,
      _resample_pivot df D agg_map sheets_cfg = Ok out ->
      In (date, cells) (df_rows out) ->
      fully_covered data_start data_end (midnight date) (midnight (date + 1)))
  /\ (forall out date cells,
         _resample_pivot df MS agg_map sheets_cfg = Ok out ->
         In (date, cells) (df_rows out) ->
         exists i,
           date = month_start_day i
           /\ fully_covered data_start data_end (midnight date)
                (midnight (month_start_day (i + 1)))).
Proof.
  intros Hmin Hmax. split; intros out date cells Hout Hin;
    destruct (_resample_pivot_rows _ _ _ _ _ _ _ _ _ Hout Hmin Hmax Hin)
      as [res [pe [ps [Hres [Hpe [Hc ->]]]]]];
    pose proof (resample_row_label _ _ _ _ _ _ _ _ _ Hres Hmin Hmax Hpe) as Hl;
    cbn [label_of_freq] in Hl.
  - destruct Hl as [d ->]. apply day_row_fully_covered in Hc.
    destruct Hc as [-> Hcov]. rewrite date_of_midnight. exact Hcov.
  - destruct Hl as [i ->]. apply month_row_fully_covered in Hc.
    destruct Hc as [-> Hcov]. rewrite date_of_midnight. exists i.
    split; [reflexivity | exact Hcov].
Qed.

Lemma X8_daily_and_monthly_rows_fully_covered_witness :
  fully_covered (ts_of 2026 1 1 12 0 0) (ts_of 2026 1 6 6 0 0)
    (midnight (days_from_civil 2026 1 2)) (midnight (days_from_civil 2026 1 2 + 1)).
Proof.
  exact (proj1 (X8_daily_and_monthly_rows_fully_covered
                  (Samples.make_df (ts_of 2026 1 1 12 0 0) 5 6)
                  [("default", "last")] Samples.sheets_cfg
                  (ts_of 2026 1 1 12 0 0) (ts_of 2026 1 6 6 0 0)
                  ltac:(vm_compute; reflexivity) ltac:(vm_compute; reflexivity))
           (mkFrame ["Date"; "asset1 key1"]
              [(days_from_civil 2026 1 2, [Some (1050 # 1)]);
               (days_from_civil 2026 1 3, [Some (1090 # 1)]);
               (days_from_civil 2026 1 4, [Some (1130 # 1)]);
               (days_from_civil 2026 1 5, [Some (1170 # 1)])])
           (days_from_civil 2026 1 2) [Some (1050 # 1)]
           ltac:(vm_compute; reflexivity) (or_introl eq_refl)).
Defined.

(** *** The order of the pivot rows *)

Lemma sorted_unique_on {A} (leb : A -> A -> bool) (l1 : list A) :
  forall l2,
    (forall x y, In x l1 -> In y l1 -> leb x y = true -> leb y x = true -> x = y) ->
    StronglySorted (fun a b => leb a b = true) l1 ->
    StronglySorted (fun a b => leb a b = true) l2 ->
    NoDup l1 -> NoDup l2 ->
    (forall x, In x l1 <-> In x l2) ->
    l1 = l2.
Proof.
  induction l1 as [|a l1 IH]; intros l2 Hanti H1 H2 Hn1 Hn2 Hin.
  - destruct l2 as [|b l2]; [reflexivity|].
    exfalso. apply (proj2 (Hin b)). now left.
  - destruct l2 as [|b l2]; [exfalso; apply (proj1 (Hin a)); now left|].
    inversion H1 as [|? ? Hs1 Hall1]; inversion H2 as [|? ? Hs2 Hall2]; subst.
    assert (a = b) as <-.
    { destruct (proj1 (Hin a) (or_introl eq_refl)) as [Hba | Hina]; [congruence|].
      destruct (proj2 (Hin b) (or_introl eq_refl)) as [Hab | Hinb]; [congruence|].
      rewrite Forall_forall in Hall1, Hall2.
      apply Hanti; [now left | now right | apply Hall1, Hinb | apply Hall2, Hina]. }
    inversion Hn1 as [|? ? Hna1 Hn1']; inversion Hn2 as [|? ? Hna2 Hn2']; subst.
    f_equal. apply IH; try assumption.
    + intros x y Hx Hy. apply Hanti; now right.
    + intros x. split; intros Hx.
      * destruct (proj1 (Hin x) (or_intror Hx)) as [-> | H]; [contradiction | exact H].
      * destruct (proj2 (Hin x) (or_intror Hx)) as [-> | H]; [contradiction | exact H].
Qed.

Lemma NoDup_map_fst_inj {A} (l : list (Z * A)) (x y : Z * A) :
  NoDup (map fst l) -> In x l -> In y l -> fst x = fst y -> x = y.
Proof.
  induction l as [|a l IH]; intros Hn Hx Hy E; [destruct Hx|].
  cbn [map] in Hn. inversion Hn as [|? ? Hna Hn']; subst.
  destruct Hx as [-> | Hx], Hy as [-> | Hy].
  - reflexivity.
  - exfalso. apply Hna. rewrite E. apply in_map. exact Hy.
  - exfalso. apply Hna. rewrite <- E. apply in_map. exact Hx.
  - apply IH; assumption.
Qed.

Lemma sort_by_ts_perm {A} (rows rows' : list (Z * A)) :
  Permutation rows rows' -> NoDup (map fst rows) ->
  sort_by_ts rows = sort_by_ts rows'.
Proof.
  intros Hp Hn. unfold sort_by_ts.
  assert (NoDup rows) as Hnr by (eapply NoDup_map_inv; exact Hn).
  apply (sorted_unique_on (fun a b : Z * A => fst a <=? fst b)).
  - intros x y Hx Hy Hxy Hyx. apply sort_by_In in Hx, Hy.
    apply (NoDup_map_fst_inj rows); try assumption.
    apply Z.leb_le in Hxy, Hyx. lia.
  - apply sort_by_sorted; [intros x y | intros x y z]; rewrite ?Z.leb_le; lia.
  - apply sort_by_sorted; [intros x y | intros x y z]; rewrite ?Z.leb_le; lia.
  - apply sort_by_NoDup. exact Hnr.
  - apply sort_by_NoDup. eapply Permutation_NoDup; eassumption.
  - intros x. rewrite !sort_by_In. split; apply Permutation_in; [|symmetry]; exact Hp.
Qed.

Lemma ts_min_perm_eq (l l' : list Z) : Permutation l l' -> ts_min l = ts_min l'.
Proof.
  intros Hp. destruct (ts_min l) as [m|] eqn:E.
  - symmetry. eapply ts_min_perm; eassumption.
  - destruct l; [|discriminate]. apply Permutation_nil in Hp. subst. reflexivity.
Qed.

Lemma ts_max_perm_eq (l l' : list Z) : Permutation l l' -> ts_max l = ts_max l'.
Proof.
  intros Hp. destruct (ts_max l) as [m|] eqn:E.
  - symmetry. eapply ts_max_perm; eassumption.
  - destruct l; [|discriminate]. apply Permutation_nil in Hp. subst. reflexivity.
Qed.

Lemma _resample_pivot_perm (cols : list string) (rows rows' : list (Z * list cell))
    (freq : Freq) (agg_map : PyDict.t string) (sheets_cfg : SheetsCfg) :
  Permutation rows rows' -> NoDup (map fst rows) ->
  _resample_pivot (mkPivot cols rows) freq agg_map sheets_cfg
  = _resample_pivot (mkPivot cols rows') freq agg_map sheets_cfg.
Proof.
  intros Hp Hn. unfold _resample_pivot, resample_agg, complete_rows.
  cbn [pv_columns pv_rows].
  rewrite (sort_by_ts_perm rows rows' Hp Hn).
  rewrite (ts_min_perm_eq (map fst rows) (map fst rows') (Permutation_map fst Hp)).
  rewrite (ts_max_perm_eq (map fst rows) (map fst rows') (Permutation_map fst Hp)).
  reflexivity.
Qed.

Lemma build_agg_sheets_desc (cols : list string) (rows : list (Z * list cell))
    (agg_map : PyDict.t string) (sheets_cfg : SheetsCfg) (todo : list (Freq * string)) :
  NoDup (map fst rows) ->
  forall acc,
    build_agg_sheets (mkPivot cols (sort_desc rows)) agg_map sheets_cfg todo acc
    = build_agg_sheets (mkPivot cols rows) agg_map sheets_cfg todo acc.
Proof.
  intros Hn. induction todo as [|[freq key] todo IH]; intros acc; [reflexivity|].
  cbn [build_agg_sheets].
  rewrite <- (_resample_pivot_perm cols rows (sort_desc rows) freq agg_map sheets_cfg);
    [|symmetry; apply sort_by_perm | exact Hn].
  destruct (_resample_pivot (mkPivot cols rows) freq agg_map sheets_cfg) as [df_agg|e];
    cbn [rbind]; [apply IH | reflexivity].
Qed.

(** X9: the aggregate sheets do not depend on the order of the pivot
    rows.  When no two pivot rows share a timestamp, resampling any
    reordering of the rows gives the same frame; in particular the sheets
    built from the pivot sorted in descending order (order "DESC") are
    those of the ascending pivot. *)
Theorem X9_aggregates_independent_of_row_order (cols : list string)
    (rows : list (Z * list cell)) (agg_map : PyDict.t string)
    (sheets_cfg : SheetsCfg) :
  NoDup (map fst rows) ->
  (forall rows' freq,
      Permutation rows rows' ->
      _resample_pivot (mkPivot cols rows') freq agg_map sheets_cfg
      = _resample_pivot (mkPivot cols rows) freq agg_map sheets_cfg)
  /\ forall todo acc,
       build_agg_sheets (mkPivot cols (sort_desc rows)) agg_map sheets_cfg todo acc
       = build_agg_sheets (mkPivot cols rows) agg_map sheets_cfg todo acc.
Proof.
  intros Hn. split.
  - intros rows' freq Hp. symmetry. apply _resample_pivot_perm; assumption.
  - intros todo acc. apply build_agg_sheets_desc. exact Hn.
Qed.

Lemma X9_aggregates_independent_of_row_order_witness :
  build_agg_sheets
    (mkPivot ["asset1 key1"]
       (sort_desc [(ts_of 2026 1 1 0 0 0, [Some (1 # 1)]);
                   (ts_of 2026 1 2 0 0 0, [Some (2 # 1)])]))
    [("default", "sum")] Samples.sheets_cfg freq_keys []
  = build_agg_sheets
      (mkPivot ["asset1 key1"]
         [(ts_of 2026 1 1 0 0 0, [Some (1 # 1)]);
          (ts_of 2026 1 2 0 0 0, [Some (2 # 1)])])
      [("default", "sum")] Samples.sheets_cfg freq_keys [].
Proof.
  apply (proj2 (X9_aggregates_independent_of_row_order ["asset1 key1"]
                  [(ts_of 2026 1 1 0 0 0, [Some (1 # 1)]);
                   (ts_of 2026 1 2 0 0 0, [Some (2 # 1)])]
                  [("default", "sum")] Samples.sheets_cfg
                  ltac:(repeat constructor; cbn; intuition discriminate))).
Defined.

(** ** More on the pivot *)

Lemma sorted_leb_NoDup_lt (l : list Z) :
  StronglySorted (fun a b => (a <=? b) = true) l -> NoDup l -> StronglySorted Z.lt l.
Proof.
  induction 1 as [|x l Hs IH Hall]; intros Hn; constructor.
  - apply IH. inversion Hn; assumption.
  - inversion Hn as [|? ? Hx Hn']; subst. rewrite Forall_forall in *.
    intros y Hy. pose proof (Hall y Hy) as Hle. apply Z.leb_le in Hle.
    assert (x <> y) by (intros ->; contradiction). lia.
Qed.

Lemma pivot_index_sorted (src : list (Z * RawRow)) (ks : list string) :
  StronglySorted Z.lt (pivot_index src ks).
Proof.
  unfold pivot_index. apply sorted_leb_NoDup_lt.
  - apply (sort_by_sorted Z.leb Z_leb_total Z_leb_trans).
  - apply sort_by_NoDup, (dedup_NoDup Z.eqb Z.eqb_eq).
Qed.

Lemma pivot_index_spec (src : list (Z * RawRow)) (ks : list string) (t : Z) :
  In t (pivot_index src ks) <->
  exists s k, In s src /\ fst s = t /\ In k ks /\ row_value (snd s) k <> None.
Proof.
  unfold pivot_index. rewrite sort_by_In, (dedup_In Z.eqb Z.eqb_eq), in_map_iff.
  split.
  - intros [s [Hs Hin]]. apply filter_In in Hin. destruct Hin as [Hin Hex].
    apply existsb_exists in Hex. destruct Hex as [k [Hk Hv]].
    exists s, k. repeat split; try assumption.
    destruct (row_value (snd s) k); [discriminate | discriminate Hv].
  - intros [s [k [Hin [Hs [Hk Hv]]]]]. exists s. split; [exact Hs|].
    apply filter_In. split; [exact Hin|]. apply existsb_exists. exists k.
    split; [exact Hk|]. destruct (row_value (snd s) k); [reflexivity | congruence].
Qed.

(** X10: the pivot has one row per timestamp, in strictly ascending
    order; a timestamp has a row exactly when some source row of that
    timestamp holds a value for a requested key (a timestamp whose
    values are all missing has none); and every row has one cell per
    column. *)
Theorem X10_pivot_rows_ascending_and_complete (src : list (Z * RawRow))
    (ks : list string) (cm : PyDict.t (list string)) (pv : PivotTable) :
  build_pivot src ks cm = Ok pv ->
  StronglySorted Z.lt (map fst (pv_rows pv))
  /\ (forall t, In t (map fst (pv_rows pv)) <->
                exists s k, In s src /\ fst s = t /\ In k ks
                            /\ row_value (snd s) k <> None)
  /\ Forall (fun row => List.length (snd row) = List.length (pv_columns pv))
            (pv_rows pv).
Proof.
  intros Hpv. rewrite (build_pivot_rows _ _ _ _ Hpv).
  split; [apply pivot_index_sorted|]. split; [apply pivot_index_spec|].
  unfold build_pivot in Hpv. destruct (find _ ks); [discriminate|].
  injection Hpv as <-. cbn [pv_rows pv_columns].
  apply Forall_forall. intros row Hrow. apply in_map_iff in Hrow.
  destruct Hrow as [t [<- _]]. cbn [snd]. apply length_map.
Qed.

Lemma X10_pivot_rows_ascending_and_complete_witness :
  exists pv,
    build_pivot Samples.asset1_rows ["key1"] [] = Ok pv
    /\ StronglySorted Z.lt (map fst (pv_rows pv)).
Proof.
  destruct (build_pivot Samples.asset1_rows ["key1"] []) as [pv|e] eqn:E;
    [|vm_compute in E; discriminate E].
  exists pv. split; [reflexivity|].
  exact (proj1 (X10_pivot_rows_ascending_and_complete
                  Samples.asset1_rows ["key1"] [] pv E)).
Defined.

(** *** The order of the columns *)

Lemma mem_str_In (c : string) (l : list string) : mem_str c l = true <-> In c l.
Proof.
  unfold mem_str. rewrite existsb_exists. split.
  - intros [x [Hin E]]. apply String.eqb_eq in E. subst. exact Hin.
  - intros Hin. exists c. split; [exact Hin | apply String.eqb_refl].
Qed.

Lemma column_leb_total (a b : string) : column_leb a b = true \/ column_leb b a = true.
Proof. apply pair_leb_total. Qed.

Lemma column_leb_trans (a b c : string) :
  column_leb a b = true -> column_leb b c = true -> column_leb a c = true.
Proof. apply pair_leb_trans. Qed.

Lemma NoDup_append {A} (l1 l2 : list A) :
  NoDup l1 -> NoDup l2 -> (forall x, In x l1 -> ~ In x l2) -> NoDup (l1 ++ l2).
Proof.
  induction l1 as [|a l1 IH]; intros H1 H2 Hd; [exact H2|].
  inversion H1 as [|? ? Ha H1']; subst. cbn [app]. constructor.
  - rewrite in_app_iff. intros [H | H]; [contradiction|].
    apply (Hd a); [now left | exact H].
  - apply IH; try assumption. intros x Hx. apply Hd. now right.
Qed.

Lemma column_order_perm (cm : PyDict.t (list string)) (cols : list string) :
  NoDup (PyDict.keys cm) -> NoDup cols -> ~ In "Timestamp" cols ->
  Permutation (column_order cm cols) cols.
Proof.
  intros Hk Hc Hts. unfold column_order. apply NoDup_Permutation.
  - apply NoDup_append.
    + apply NoDup_filter. exact Hk.
    + apply sort_by_NoDup, NoDup_filter. exact Hc.
    + intros x Hx. rewrite sort_by_In, filter_In. intros [_ Hn].
      apply negb_true_iff in Hn.
      assert (mem_str x ("Timestamp" :: filter (fun c => mem_str c cols) (PyDict.keys cm))
              = true) as Hm by (apply mem_str_In; now right).
      congruence.
  - exact Hc.
  - intros x. rewrite in_app_iff, sort_by_In, !filter_In. split.
    + intros [[_ Hm] | [Hin _]]; [apply mem_str_In; exact Hm | exact Hin].
    + intros Hin.
      destruct (mem_str x ("Timestamp" :: filter (fun c => mem_str c cols) (PyDict.keys cm)))
        eqn:E.
      * apply mem_str_In in E. destruct E as [<- | E]; [contradiction|].
        left. apply filter_In in E. exact E.
      * right. split; [exact Hin | reflexivity].
Qed.

Lemma has_space_append (a b : string) :
  has_space (String.append a b) = has_space a || has_space b.
Proof.
  induction a as [|c a IH]; cbn [String.append has_space]; [reflexivity|].
  rewrite IH. apply orb_assoc.
Qed.

Lemma column_name_not_Timestamp (ka : string * string) : column_name ka <> "Timestamp".
Proof.
  intros E. assert (has_space (column_name ka) = true) as H.
  { unfold column_name. rewrite !has_space_append. cbn. apply orb_true_r. }
  rewrite E in H. discriminate H.
Qed.

(** X11: the column map only reorders.  When the column names of the
    pivot are distinct and the column map has no key "Timestamp", the
    columns after ordering are a rearrangement of the columns
    [pivot_table] produced: none is dropped or repeated, and keys of the
    column map that name no column are ignored.  The columns named by the
    column map come first, in the order of the map; the others follow,
    none of them a key of the map, sorted by the part of the name before
    its first space and then by the part behind it. *)
Theorem X11_column_map_only_reorders (src : list (Z * RawRow)) (ks : list string)
    (cm : PyDict.t (list string)) (pv : PivotTable) :
  NoDup (PyDict.keys cm) ->
  ~ In "Timestamp" (PyDict.keys cm) ->
  NoDup (map column_name (pivot_pairs src ks)) ->
  build_pivot src ks cm = Ok pv ->
  Permutation (pv_columns pv) (map column_name (pivot_pairs src ks))
  /\ exists rest,
       pv_columns pv
       = filter (fun c => mem_str c (map column_name (pivot_pairs src ks)))
                (PyDict.keys cm) ++ rest
       /\ StronglySorted (fun a b => column_leb a b = true) rest
       /\ forall c, In c rest -> ~ In c (PyDict.keys cm).
Proof.
  intros Hk _ Hc Hpv. unfold build_pivot in Hpv. destruct (find _ ks); [discriminate|].
  injection Hpv as <-. cbn [pv_columns]. split.
  - apply column_order_perm; try assumption.
    intros Hin. apply in_map_iff in Hin. destruct Hin as [ka [E _]].
    exact (column_name_not_Timestamp ka E).
  - unfold column_order. eexists. split; [reflexivity|]. split.
    + apply (sort_by_sorted column_leb column_leb_total column_leb_trans).
    + intros c Hin Hkey. apply sort_by_In, filter_In in Hin. destruct Hin as [Hin Hn].
      apply negb_true_iff in Hn.
      assert (mem_str c ("Timestamp"
                         :: filter (fun c0 => mem_str c0 (map column_name (pivot_pairs src ks)))
                                   (PyDict.keys cm)) = true) as Hm.
      { apply mem_str_In. right. apply filter_In. split; [exact Hkey|].
        apply mem_str_In. exact Hin. }
      congruence.
Qed.

Lemma X11_column_map_only_reorders_witness :
  exists pv,
    build_pivot Samples.asset1_rows ["key1"]
      [("asset1 key1", ["Unit A"; "Energy"]); ("asset2 key1", ["Unit B"; "Energy"])]
    = Ok pv
    /\ Permutation (pv_columns pv)
         (map column_name (pivot_pairs Samples.asset1_rows ["key1"])).
Proof.
  destruct (build_pivot Samples.asset1_rows ["key1"]
              [("asset1 key1", ["Unit A"; "Energy"]); ("asset2 key1", ["Unit B"; "Energy"])])
    as [pv|e] eqn:E; [|vm_compute in E; discriminate E].
  exists pv. split; [reflexivity|].
  refine (proj1 (X11_column_map_only_reorders Samples.asset1_rows ["key1"]
                   [("asset1 key1", ["Unit A"; "Energy"]);
                    ("asset2 key1", ["Unit B"; "Energy"])] pv _ _ _ E)).
  - repeat constructor; cbn; intuition discriminate.
  - cbn. intuition discriminate.
  - vm_compute. repeat constructor; cbn; intuition discriminate.
Defined.

(** *** A requested key without data *)






(** *** Entities without an id *)

Lemma filter_map_none {A B} (f : A -> option B) (l : list A) :
  Forall (fun x => f x = None) l -> filter_map f l = [].
Proof.
  induction 1 as [|x l Hx _ IH]; cbn [filter_map]; [reflexivity|].
  rewrite Hx. exact IH.
Qed.

Lemma Forall_firstn {A} (P : A -> Prop) (n : nat) (l : list A) :
  Forall P l -> Forall P (firstn n l).
Proof.
  intros H. rewrite <- (firstn_skipn n l) in H.
  apply Forall_app in H. exact (proj1 H).
Qed.

(** X13: entities without an id are dropped before anything is fetched.
    Take a payload that the checks of the entry point let pass (a time
    range, a non-empty entity list, a non-empty key list), with a usable
    limit and order, whose entities are all objects without an id.
    Parsing keeps no entity, table building sends no request and returns
    empty tables and no aggregate sheet instead of an error; and header
    resolution for the columns of that pivot, of which there are none,
    raises, so the export of these tables cannot be completed. *)
Theorem X13_entities_without_id_give_empty_tables (env : Env) (payload : Payload)
    (s e : Z) (ej : EntityJson) (ejs : list EntityJson) (k : option string)
    (ks : list (option string)) (requested : Z) (ord : string) (tr : list Event) :
  p_timeEpoch payload = Some (mkTimeEpoch (Some s) (Some e)) ->
  p_entities payload = Some (ej :: ejs) ->
  p_keys payload = Some (k :: ks) ->
  (if truthy_num (q_limit (some_or (p_query payload) (mkQuery None None NNull SNull)))
   then int_num (q_limit (some_or (p_query payload) (mkQuery None None NNull SNull)))
   else Ok 10000) = Ok requested ->
  upper_or (q_order (some_or (p_query payload) (mkQuery None None NNull SNull))) "ASC"
  = Ok ord ->
  Forall (fun x => usable_entity x /\ truthy_str (e_id x) = false) (ej :: ejs) ->
  ~ (time_range_missing payload \/ entity_list_empty payload \/ key_list_empty payload)
  /\ exists p,
       _parse_payload payload = Ok p
       /\ entities p = []
       /\ build_dataframes_from_widget_payload env payload tr
          = (Ok (mkTables (mkRawTable [] []) (mkPivot [] []) [] p), tr)
       /\ exists msg,
            _resolve_headers (pv_columns (mkPivot [] [])) (S.column_map (cfg p))
            = Raise (ValueError msg).
Proof.
  intros Ht He Hk Hlim Hord Hid. split.
  - unfold time_range_missing, entity_list_empty, key_list_empty.
    intros [H | [[H | H] | [H | H]]]; [exact (H s e Ht) | congruence ..].
  - assert (rfilter_map norm_entity (firstn 500 (some_or (p_entities payload) []))
            = Ok []) as Hnone.
    { rewrite rfilter_map_usable.
      - rewrite filter_map_none; [reflexivity|].
        rewrite He. cbn [some_or]. apply Forall_firstn.
        eapply Forall_impl; [|exact Hid]. cbn beta.
        intros x [[ty [eid [name ->]]] Hx]. unfold kept_entity. cbn [norm_entity e_id] in *.
        rewrite Hx. reflexivity.
      - rewrite He. cbn [some_or]. apply Forall_firstn.
        eapply Forall_impl; [|exact Hid]. cbn beta. intros x [Hx _]. exact Hx. }
    pose proof (_parse_payload_eq payload s e requested ord Ht Hlim Hord) as Hp.
    rewrite Hnone in Hp. cbn [rbind] in Hp.
    eexists. split; [exact Hp|]. split; [reflexivity|]. split.
    + unfold build_dataframes_from_widget_payload, bind, lift. rewrite Hp.
      reflexivity.
    + eexists. reflexivity.
Qed.

Lemma X13_entities_without_id_give_empty_tables_witness :
  exists p,
    _parse_payload
      (mkPayload None (Some (mkTimeEpoch (Some 0) (Some 3600000)))
         (Some [mkEntityJson (Some "device") None (Some "ghost")])
         (Some [Some "k"]) None None) = Ok p
    /\ entities p = []
    /\ build_dataframes_from_widget_payload (Samples.scripted [] Samples.one_point)
         (mkPayload None (Some (mkTimeEpoch (Some 0) (Some 3600000)))
            (Some [mkEntityJson (Some "device") None (Some "ghost")])
            (Some [Some "k"]) None None) []
       = (Ok (mkTables (mkRawTable [] []) (mkPivot [] []) [] p), []).
Proof.
  destruct (X13_entities_without_id_give_empty_tables
              (Samples.scripted [] Samples.one_point)
              (mkPayload None (Some (mkTimeEpoch (Some 0) (Some 3600000)))
                 (Some [mkEntityJson (Some "device") None (Some "ghost")])
                 (Some [Some "k"]) None None)
              0 3600000 (mkEntityJson (Some "device") None (Some "ghost")) []
              (Some "k") [] 10000 "ASC" [] eq_refl eq_refl eq_refl eq_refl eq_refl)
    as [_ [p [Hp [He [Hb _]]]]].
  - repeat constructor. eexists _, _, _; reflexivity.
  - exists p. auto.
Defined.

(** ** Configuration *)

Lemma dict_merge_get {V} (b : PyDict.t V) :
  forall a k,
    NoDup (PyDict.keys b) ->
    PyDict.get (S.dict_merge a b) k
    = match PyDict.get b k with Some v => Some v | None => PyDict.get a k end.
Proof.
  unfold S.dict_merge.
  induction b as [|[k0 v0] b IH]; intros a k Hn; cbn [fold_left PyDict.get fst snd];
    [reflexivity|].
  cbn [PyDict.keys map fst] in Hn. inversion Hn as [|? ? Hk0 Hn']; subst.
  rewrite (IH _ k Hn'), get_set.
  destruct (String.eqb_spec k0 k) as [->|Hne]; [|reflexivity].
  rewrite (proj2 (get_None_keys b k) Hk0). reflexivity.
Qed.

(** X14: how an override of the aggregation map is resolved.  A
    non-empty [agg_map] of the payload is laid over the default map: a
    key it names gets its value, every other key keeps the default's; an
    empty [agg_map] switches the defaults off altogether, so that every
    column falls back to "mean" whatever the default map said. *)
Theorem X14_agg_map_override (defaults : S.ReportConfig) (rc : S.Overrides)
    (pa : PyDict.t string) :
  S.o_agg_map rc = Some pa ->
  NoDup (PyDict.keys pa) ->
  (pa <> [] ->
   forall k,
     PyDict.get (S.agg_map (S.resolve_config defaults (Some rc))) k
     = match PyDict.get pa k with
       | Some v => Some v
       | None => PyDict.get (S.agg_map defaults) k
       end)
  /\ (pa = [] ->
      forall col,
        _get_agg_func col (S.agg_map (S.resolve_config defaults (Some rc))) = "mean").
Proof.
  intros Hpa Hn. unfold S.resolve_config. cbn [S.agg_map]. rewrite Hpa. split.
  - intros Hne k. destruct pa as [|kv pa]; [congruence|]. cbn [S.is_nil].
    apply dict_merge_get. exact Hn.
  - intros -> col. reflexivity.
Qed.

Lemma X14_agg_map_override_witness :
  PyDict.get
    (S.agg_map (S.resolve_config S.DEFAULT_REPORT_CONFIG
                  (Some (S.mkOverrides None None None
                           (Some [("asset1 key1", "sum")]) None None))))
    "default"
  = Some "mean".
Proof.
  exact (proj1 (X14_agg_map_override S.DEFAULT_REPORT_CONFIG
                  (S.mkOverrides None None None (Some [("asset1 key1", "sum")]) None None)
                  [("asset1 key1", "sum")] eq_refl
                  ltac:(repeat constructor; cbn; intuition discriminate))
           ltac:(discriminate) "default").
Defined.

(** ** Header labels *)

Section Fold_set.

Context {V : Type}.
Variable f : string -> V.

Lemma set_nonempty (d : PyDict.t V) (k : string) (v : V) : PyDict.set d k v <> [].
Proof. destruct d as [|[k0 v0] d]; cbn [PyDict.set]; [|destruct (String.eqb k0 k)]; discriminate. Qed.

Lemma fold_set_nonempty (cols : list string) :
  forall d, d <> [] -> fold_left (fun d col => PyDict.set d col (f col)) cols d <> [].
Proof.
  induction cols as [|c cols IH]; intros d Hd; [exact Hd|].
  cbn [fold_left]. apply IH, set_nonempty.
Qed.

Lemma set_Forall (P : string * V -> Prop) (d : PyDict.t V) (k : string) (v : V) :
  Forall P d -> P (k, v) -> Forall P (PyDict.set d k v).
Proof.
  intros Hd Hkv. induction Hd as [|[k0 v0] d H0 Hd IH]; cbn [PyDict.set].
  - constructor; [exact Hkv | constructor].
  - destruct (String.eqb_spec k0 k) as [->|Hne]; constructor; assumption.
Qed.

Lemma fold_set_Forall (P : string * V -> Prop) (cols : list string) :
  forall d,
    Forall P d -> (forall c, In c cols -> P (c, f c)) ->
    Forall P (fold_left (fun d col => PyDict.set d col (f col)) cols d).
Proof.
  induction cols as [|c cols IH]; intros d Hd Hc; [exact Hd|].
  cbn [fold_left]. apply IH.
  - apply set_Forall; [exact Hd | apply Hc; now left].
  - intros c' Hc'. apply Hc. now right.
Qed.

Lemma fold_set_get (cols : list string) (k : string) :
  forall d,
    PyDict.get (fold_left (fun d col => PyDict.set d col (f col)) cols d) k
    = if mem_str k cols then Some (f k) else PyDict.get d k.
Proof.
  induction cols as [|c cols IH]; intros d; [reflexivity|].
  cbn [fold_left]. rewrite IH, get_set. unfold mem_str. cbn [existsb].
  fold (mem_str k cols). destruct (mem_str k cols); [rewrite orb_true_r; reflexivity|].
  rewrite orb_false_r, String.eqb_sym.
  destruct (String.eqb_spec k c) as [->|Hne]; reflexivity.
Qed.

End Fold_set.

Lemma max_length_fold (d : PyDict.t (list string)) :
  forall m0 m,
    fold_left (fun m kv => Nat.max m (List.length (snd kv))) d m0 = m ->
    (m0 <= m)%nat
    /\ Forall (fun kv => (List.length (snd kv) <= m)%nat) d
    /\ (m = m0 \/ exists kv, In kv d /\ List.length (snd kv) = m).
Proof.
  induction d as [|kv d IH]; intros m0 m Hm; cbn [fold_left] in Hm.
  - subst m. split; [lia|]. split; [constructor | now left].
  - destruct (IH _ _ Hm) as [H1 [H2 H3]].
    split; [lia|]. split.
    + constructor; [lia | exact H2].
    + destruct H3 as [H3 | [kv' [Hin Hlen]]].
      * destruct (Nat.max_spec m0 (List.length (snd kv))) as [[_ E] | [_ E]].
        -- right. exists kv. split; [now left | lia].
        -- left. lia.
      * right. exists kv'. split; [now right | exact Hlen].
Qed.

Lemma pad_labels_length (n : nat) (l : list string) :
  (List.length l <= n)%nat -> List.length (pad_labels n l) = n.
Proof. intros H. unfold pad_labels. rewrite length_app, repeat_length. lia. Qed.

Lemma get_map_values {V U} (g : V -> U) (d : PyDict.t V) (k : string) :
  PyDict.get (map (fun kv => (fst kv, g (snd kv))) d) k = option_map g (PyDict.get d k).
Proof.
  induction d as [|[k0 v0] d IH]; cbn [map PyDict.get fst snd option_map]; [reflexivity|].
  destruct (String.eqb k0 k); [reflexivity | exact IH].
Qed.

Lemma get_In {V} (d : PyDict.t V) (k : string) (v : V) :
  PyDict.get d k = Some v -> exists kv, In kv d /\ snd kv = v.
Proof.
  induction d as [|[k0 v0] d IH]; cbn [PyDict.get]; [discriminate|].
  destruct (String.eqb k0 k).
  - intros [= <-]. exists (k0, v0). split; [now left | reflexivity].
  - intros H. destruct (IH H) as [kv [Hin Hs]]. exists kv. split; [now right | exact Hs].
Qed.

(** X15: the header block is rectangular.  For a non-empty list of
    columns [_resolve_headers] returns, for every column, its labels (from
    the column map, or derived from the name) followed by empty labels
    only, all padded to the same number of rows; that number is the
    length of the longest unpadded label list, so some column is not
    padded at all.  For no column it raises. *)
Theorem X15_headers_rectangular (pivot_cols : list string)
    (column_map : PyDict.t (list string)) :
  (pivot_cols = [] -> exists e, _resolve_headers pivot_cols column_map = Raise e)
  /\ (pivot_cols <> [] ->
      exists resolved max_rows,
        _resolve_headers pivot_cols column_map = Ok (resolved, max_rows)
        /\ Forall (fun kv => List.length (snd kv) = max_rows) resolved
        /\ (forall col, In col pivot_cols ->
              PyDict.get resolved col
              = Some (header_labels column_map col
                      ++ repeat "" (max_rows - List.length (header_labels column_map col)))
              /\ (List.length (header_labels column_map col) <= max_rows)%nat)
        /\ exists col, In col pivot_cols
                       /\ List.length (header_labels column_map col) = max_rows).
Proof.
  split; [intros ->; eexists; reflexivity|].
  intros Hne. unfold _resolve_headers.
  remember (fold_left (fun d col => PyDict.set d col (header_labels column_map col))
                      pivot_cols []) as r0 eqn:Hr0.
  assert (r0 <> []) as Hne0.
  { rewrite Hr0. destruct pivot_cols as [|c cols]; [congruence|]. cbn [fold_left].
    apply fold_set_nonempty. discriminate. }
  assert (Forall (fun kv => In (fst kv) pivot_cols
                            /\ snd kv = header_labels column_map (fst kv)) r0) as Hent.
  { rewrite Hr0.
    apply fold_set_Forall; [constructor | intros c Hc; split; [exact Hc | reflexivity]]. }
  assert (forall col, In col pivot_cols ->
                      PyDict.get r0 col = Some (header_labels column_map col)) as Hget.
  { intros col Hcol. rewrite Hr0, fold_set_get.
    rewrite (proj2 (mem_str_In col pivot_cols) Hcol). reflexivity. }
  clear Hr0.
  destruct (max_length_fold r0 0%nat (max_length r0) eq_refl) as [_ [Hle Hatt]].
  rewrite Forall_forall in Hle, Hent.
  exists (map (fun kv => (fst kv, pad_labels (max_length r0) (snd kv))) r0), (max_length r0).
  split; [destruct r0; [congruence | reflexivity]|]. split; [|split].
  - apply Forall_forall. intros kv Hkv. apply in_map_iff in Hkv.
    destruct Hkv as [kv' [<- Hin]]. cbn [snd]. apply pad_labels_length.
    apply Hle, Hin.
  - intros col Hcol. specialize (Hget col Hcol). split.
    + rewrite (get_map_values (pad_labels (max_length r0)) r0 col), Hget. reflexivity.
    + destruct (get_In r0 col _ Hget) as [kv [Hin Hs]]. rewrite <- Hs. apply Hle, Hin.
  - destruct Hatt as [Hz | [kv [Hin Hlen]]].
    + destruct r0 as [|kv0 r0']; [congruence|].
      assert (In kv0 (kv0 :: r0')) as Hin0 by now left.
      destruct (Hent kv0 Hin0) as [Hc Hl]. exists (fst kv0). split; [exact Hc|].
      pose proof (Hle kv0 Hin0) as Hb. rewrite <- Hl. lia.
    + destruct (Hent kv Hin) as [Hc Hl].
      exists (fst kv). split; [exact Hc|]. rewrite <- Hl. exact Hlen.
Qed.

Lemma split_space_join (c : string) :
  has_space c = true ->
  c = String.append (fst (split_space c)) (String.append " " (snd (split_space c)))
  /\ has_space (fst (split_space c)) = false.
Proof.
  induction c as [|ch c IH]; cbn [has_space split_space]; [discriminate|].
  destruct (Ascii.eqb_spec ch " "%char) as [->|Hne]; cbn [orb].
  - intros _. split; reflexivity.
  - intros Hs. destruct (IH Hs) as [Hj Ha].
    destruct (split_space c) as [a b]. cbn [fst snd] in *.
    split; [cbn [String.append]; f_equal; exact Hj|].
    cbn [has_space]. rewrite Ha.
    destruct (Ascii.eqb_spec ch " "%char); [contradiction | reflexivity].
Qed.

Lemma split_space_column_name (k a : string) :
  has_space a = false -> split_space (column_name (k, a)) = (a, k).
Proof.
  unfold column_name. cbn [fst snd].
  change (String.append " " k) with (String " "%char k).
  induction a as [|ch a IH]; cbn [has_space String.append split_space].
  - intros _. reflexivity.
  - intros H. apply orb_false_iff in H. destruct H as [Hch Ha].
    rewrite Hch, (IH Ha). reflexivity.
Qed.

(** X16: the automatic header of a column that the column map does not
    name.  A name without a space is its own single label.  A name with
    a space is split at its first space into two labels which, joined by
    a space, give the name back; for the pivot column of an asset whose
    name has no space these are the asset and the telemetry key. *)
Theorem X16_auto_header_splits_at_first_space (column_map : PyDict.t (list string))
    (col : string) :
  col <> "Date" -> col <> "Timestamp" ->
  PyDict.get column_map col = None ->
  (has_space col = false -> header_labels column_map col = [col])
  /\ (has_space col = true ->
      exists a k,
        header_labels column_map col = [a; k]
        /\ col = String.append a (String.append " " k)
        /\ has_space a = false)
  /\ (forall k a, col = column_name (k, a) -> has_space a = false ->
                  header_labels column_map col = [a; k]).
Proof.
  intros Hd Ht Hg.
  assert (header_labels column_map col = split1 col) as Hl.
  { unfold header_labels. rewrite Hg.
    destruct (String.eqb_spec col "Date"); [contradiction|].
    destruct (String.eqb_spec col "Timestamp"); [contradiction|]. reflexivity. }
  rewrite Hl. unfold split1. split; [|split].
  - intros ->. reflexivity.
  - intros Hs. rewrite Hs. destruct (split_space_join col Hs) as [Hj Ha].
    eexists _, _. split; [reflexivity|]. split; assumption.
  - intros k a -> Ha.
    assert (has_space (column_name (k, a)) = true) as Hs.
    { unfold column_name. rewrite !has_space_append. cbn. apply orb_true_r. }
    rewrite Hs, (split_space_column_name k a Ha). reflexivity.
Qed.

Lemma X16_auto_header_splits_at_first_space_witness :
  header_labels [] "asset1 key1" = ["asset1"; "key1"].
Proof.
  exact (proj2 (proj2 (X16_auto_header_splits_at_first_space [] "asset1 key1"
                         ltac:(discriminate) ltac:(discriminate) eq_refl))
           "key1" "asset1" eq_refl eq_refl).
Defined.

(** ** The name of the workbook *)

Lemma string_app_nil_r (s : string) : String.append s "" = s.
Proof. induction s as [|c s IH]; cbn [String.append]; [reflexivity | now rewrite IH]. Qed.

Lemma string_app_assoc (a b c : string) :
  String.append (String.append a b) c = String.append a (String.append b c).
Proof. induction a as [|x a IH]; cbn [String.append]; [reflexivity | now rewrite IH]. Qed.

Lemma lower_append (a b : string) :
  lower (String.append a b) = String.append (lower a) (lower b).
Proof. induction a as [|c a IH]; cbn [String.append lower]; [reflexivity | now rewrite IH]. Qed.

Lemma lower_ascii_dot (c : ascii) :
  Ascii.eqb (lower_ascii c) "."%char = Ascii.eqb c "."%char.
Proof. destruct c as [[] [] [] [] [] [] [] []]; reflexivity. Qed.

Lemma has_char_lower (s : string) : has_char "." (lower s) = has_char "." s.
Proof.
  induction s as [|c s IH]; cbn [lower has_char]; [reflexivity|].
  rewrite lower_ascii_dot, IH. reflexivity.
Qed.

Lemma has_char_substring (ch : ascii) (s : string) :
  forall n m, has_char ch s = false -> has_char ch (substring n m s) = false.
Proof.
  induction s as [|c s IH]; intros n m H.
  - destruct n, m; reflexivity.
  - cbn [has_char] in H. apply orb_false_iff in H. destruct H as [Hc Hs].
    destruct n as [|n]; [destruct m as [|m]|]; cbn [substring has_char].
    + reflexivity.
    + rewrite Hc. apply IH. exact Hs.
    + apply IH. exact Hs.
Qed.

Lemma ends_with_dotfree (t : string) :
  has_char "." t = false -> ends_with ".xlsx" t = false.
Proof.
  intros H. unfold ends_with. apply andb_false_iff. right.
  apply String.eqb_neq. intros E.
  pose proof (has_char_substring "." t (String.length t - String.length ".xlsx")
                (String.length ".xlsx") H) as Hs.
  rewrite E in Hs. discriminate Hs.
Qed.

Lemma substring_whole (s : string) : substring 0 (String.length s) s = s.
Proof. induction s as [|c s IH]; cbn [String.length substring]; [reflexivity | now rewrite IH]. Qed.

Lemma substring_skip (a b : string) (m : nat) :
  substring (String.length a) m (String.append a b) = substring 0 m b.
Proof. induction a as [|c a IH]; cbn [String.length String.append substring]; [reflexivity | exact IH]. Qed.

Lemma ends_with_append (suffix a : string) :
  ends_with suffix (String.append a suffix) = true.
Proof.
  unfold ends_with. rewrite append_length. apply andb_true_iff. split.
  - apply Nat.leb_le. lia.
  - replace (String.length a + String.length suffix - String.length suffix)%nat
      with (String.length a) by lia.
    rewrite substring_skip, substring_whole. apply String.eqb_refl.
Qed.

Lemma replace_all_step (old new : string) (c : ascii) (s : string) :
  String.prefix old (String c s) = false ->
  replace_all old new (String c s) = String c (replace_all old new s).
Proof. intros H. cbn [replace_all]. rewrite H. reflexivity. Qed.

Lemma prefix_xlsx_other (c : ascii) (s : string) :
  Ascii.eqb c "."%char = false -> String.prefix ".xlsx" (String c s) = false.
Proof.
  intros H. cbn [String.prefix]. destruct (Ascii.ascii_dec "."%char c) as [E|_]; [|reflexivity].
  subst c. discriminate H.
Qed.

Lemma replace_all_suffix (new stem : string) :
  has_char "." stem = false ->
  replace_all ".xlsx" new (String.append stem ".xlsx") = String.append stem new.
Proof.
  induction stem as [|c stem IH]; cbn [has_char String.append].
  - intros _. cbn. apply string_app_nil_r.
  - intros H. apply orb_false_iff in H. destruct H as [Hc Hs].
    rewrite (replace_all_step _ _ _ _ (prefix_xlsx_other c _ Hc)), (IH Hs). reflexivity.
Qed.

Lemma replace_all_upper (new stem : string) :
  has_char "." stem = false ->
  replace_all ".xlsx" new (String.append stem ".XLSX") = String.append stem ".XLSX".
Proof.
  induction stem as [|c stem IH]; cbn [has_char String.append].
  - intros _. reflexivity.
  - intros H. apply orb_false_iff in H. destruct H as [Hc Hs].
    rewrite (replace_all_step _ _ _ _ (prefix_xlsx_other c _ Hc)), (IH Hs). reflexivity.
Qed.

(** X17: the name of the exported workbook, for a file name whose stem
    [stem] has no dot.  With the timestamp switched on, [stem] and
    [stem.xlsx] both become [stem_<ts>.xlsx]; with it switched off,
    [stem] becomes [stem.xlsx].  An upper-case extension is accepted as
    it is, but then the timestamp is silently left out: [stem.XLSX] stays
    [stem.XLSX] although the timestamp is switched on. *)
Theorem X17_output_filename (stem ts : string) :
  has_char "." stem = false ->
  output_filename stem true ts
  = String.append stem (String.append "_" (String.append ts ".xlsx"))
  /\ output_filename (String.append stem ".xlsx") true ts
     = String.append stem (String.append "_" (String.append ts ".xlsx"))
  /\ output_filename stem false ts = String.append stem ".xlsx"
  /\ output_filename (String.append stem ".XLSX") true ts = String.append stem ".XLSX".
Proof.
  intros H. unfold output_filename.
  assert (ends_with ".xlsx" (lower stem) = false) as E0
    by (apply ends_with_dotfree; rewrite has_char_lower; exact H).
  assert (ends_with ".xlsx" (lower (String.append stem ".xlsx")) = true) as E1
    by (rewrite lower_append; apply ends_with_append).
  assert (ends_with ".xlsx" (lower (String.append stem ".XLSX")) = true) as E2
    by (rewrite lower_append; apply ends_with_append).
  rewrite E0, E1, E2. cbn [negb].
  split; [apply replace_all_suffix; exact H|].
  split; [apply replace_all_suffix; exact H|].
  split; [reflexivity|].
  apply replace_all_upper; exact H.
Qed.

Lemma X17_output_filename_witness :
  output_filename "tb_pivot_export" true "20260101_120000"
  = "tb_pivot_export_20260101_120000.xlsx"
  /\ output_filename "tb_pivot_export.xlsx" true "20260101_120000"
     = "tb_pivot_export_20260101_120000.xlsx"
  /\ output_filename "tb_pivot_export" false "20260101_120000" = "tb_pivot_export.xlsx"
  /\ output_filename "tb_pivot_export.XLSX" true "20260101_120000"
     = "tb_pivot_export.XLSX".
Proof.
  exact (X17_output_filename "tb_pivot_export" "20260101_120000" eq_refl).
Defined.

(** ** Merged header cells *)

Lemma cell_value_inside (values : list string) (c : Z) :
  1 <= c <= len values -> exists v, cell_value values c = Some v.
Proof.
  intros H. unfold cell_value.
  replace ((1 <=? c) && (c <=? len values)) with true
    by (symmetry; apply andb_true_iff; split; apply Z.leb_le; lia).
  destruct (nth_error values (Z.to_nat (c - 1))) as [v|] eqn:E; [eauto|].
  apply nth_error_None in E. unfold len in H. lia.
Qed.

Lemma cell_value_outside (values : list string) (c : Z) :
  len values < c -> cell_value values c = None.
Proof.
  intros H. unfold cell_value.
  replace (c <=? len values) with false by (symmetry; apply Z.leb_gt; lia).
  rewrite andb_false_r. reflexivity.
Qed.

Lemma option_str_eqb_eq (a b : option string) : option_str_eqb a b = true <-> a = b.
Proof.
  destruct a as [x|], b as [y|]; cbn [option_str_eqb]; try (split; congruence).
  rewrite String.eqb_eq. split; congruence.
Qed.

Lemma sorted_app_single {A} (R : A -> A -> Prop) (l : list A) (y : A) :
  StronglySorted R l -> (forall x, In x l -> R x y) -> StronglySorted R (l ++ [y]).
Proof.
  induction 1 as [|x l Hs IH Hall]; intros Hy; cbn [app].
  - constructor; constructor.
  - constructor.
    + apply IH. intros z Hz. apply Hy. now right.
    + apply Forall_app. split; [exact Hall|]. constructor; [|constructor].
      apply Hy. now left.
Qed.

Lemma merge_step_inv (values : list string) (c : Z) (st : Z * list (Z * Z)) :
  3 <= c <= len values + 1 ->
  merge_inv values c st ->
  merge_inv values (c + 1) (merge_step values st c).
Proof.
  intros Hc. destruct st as [start merges]. unfold merge_inv. cbn [fst snd].
  intros [H1 [_ [H3 [H4 [H5 H6]]]]].
  unfold merge_step.
  assert ((if c <=? len values then cell_value values c else None) = cell_value values c)
    as ->.
  { destruct (Z.leb_spec c (len values)); [reflexivity|].
    symmetry. apply cell_value_outside. lia. }
  destruct (negb (option_str_eqb (cell_value values c) (cell_value values start))
            || (len values <? c)) eqn:E; cbn [fst snd].
  - assert (cell_value values c <> cell_value values start) as Hneq.
    { apply orb_true_iff in E. destruct E as [E | E].
      - apply negb_true_iff in E. intros Heq. apply option_str_eqb_eq in Heq. congruence.
      - apply Z.ltb_lt in E. rewrite (cell_value_outside values c E).
        destruct (cell_value_inside values start ltac:(lia)) as [v ->]. discriminate. }
    assert (forall s e, maximal_run values s e -> s < e -> e < c -> start <= e ->
                        s = start /\ e = c - 1) as Huniq.
    { intros s e [Hs2 [Hse [Hen [Hrun [Hr Hl]]]]] Hlt Hec Hst.
      assert (s = start) as ->.
      { destruct (Z.lt_trichotomy s start) as [Hlt' | [Heq | Hgt]]; [|exact Heq|].
        - exfalso. destruct H4 as [H4 | H4]; [lia|]. apply H4.
          rewrite (Hrun (start - 1) ltac:(lia)), (Hrun start ltac:(lia)). reflexivity.
        - exfalso. destruct Hl as [Hl | Hl]; [lia|]. apply Hl.
          rewrite (H3 (s - 1) ltac:(lia)), (H3 s ltac:(lia)). reflexivity. }
      split; [reflexivity|].
      destruct (Z.eq_dec e (c - 1)) as [He | He]; [exact He|].
      exfalso. apply Hr. apply H3. lia. }
    split; [lia|]. split; [lia|]. split; [|split; [|split]].
    + intros x Hx. replace x with c by lia. reflexivity.
    + right. replace (c + 1 - 1) with c in * by lia.
      rewrite (H3 (c - 1) ltac:(lia)). congruence.
    + destruct (start <? c - 1); [|exact H5].
      apply sorted_app_single; [exact H5|].
      intros [s e] Hin. cbn [fst snd]. apply H6 in Hin. lia.
    + intros s e. split.
      * intros Hin.
        assert (In (s, e) merges \/ (start < c - 1 /\ (s, e) = (start, c - 1))) as [Hm | [Hlt Heq]].
        { destruct (Z.ltb_spec start (c - 1)); [|now left].
          apply in_app_iff in Hin. destruct Hin as [Hin | [Heq | []]];
            [now left | right; split; [assumption | congruence]]. }
        -- apply H6 in Hm. destruct Hm as [Hm [Hse He]]. split; [exact Hm | lia].
        -- injection Heq as -> ->. split; [|lia].
           unfold maximal_run. split; [lia|]. split; [lia|]. split; [lia|].
           split; [exact H3|]. split; [|exact H4].
           replace (c - 1 + 1) with c by lia. exact Hneq.
      * intros [Hm [Hse He]].
        destruct (Z.lt_ge_cases e start) as [Hlt | Hge].
        -- assert (In (s, e) merges) as Hin by (apply H6; auto).
           destruct (start <? c - 1); [apply in_app_iff; now left | exact Hin].
        -- destruct (Huniq s e Hm Hse ltac:(lia) Hge) as [-> ->].
           replace (start <? c - 1) with true by (symmetry; apply Z.ltb_lt; lia).
           apply in_app_iff. right. now left.
  - apply orb_false_iff in E. destruct E as [E1 E2].
    apply negb_false_iff, option_str_eqb_eq in E1. apply Z.ltb_ge in E2.
    split; [lia|]. split; [lia|]. split; [|split; [exact H4 | split; [exact H5 | exact H6]]].
    intros x Hx. destruct (Z.eq_dec x c) as [-> | Hne]; [exact E1|].
    apply H3. lia.
Qed.

Lemma merge_fold_inv (values : list string) (k : nat) :
  forall a st,
    3 <= a -> a + Z.of_nat k = len values + 2 ->
    merge_inv values a st ->
    merge_inv values (len values + 2) (fold_left (merge_step values) (zrange a k) st).
Proof.
  induction k as [|k IH]; intros a st Ha Hk Hinv.
  - cbn. replace (len values + 2) with a by lia. exact Hinv.
  - rewrite zrange_S. cbn [fold_left]. apply IH; [lia | lia|].
    apply merge_step_inv; [lia | exact Hinv].
Qed.

Lemma header_merge_loop_spec (values : list string) :
  (forall s e, In (s, e) (header_merge_loop values) <-> (maximal_run values s e /\ s < e))
  /\ StronglySorted (fun a b => snd a < fst b) (header_merge_loop values).
Proof.
  unfold header_merge_loop, zspan.
  destruct (Z.lt_ge_cases (len values) 2) as [Hsmall | Hbig].
  - replace (Z.to_nat (len values + 1 - 3 + 1)) with 0%nat by lia. cbn.
    split; [|constructor].
    intros s e. split; [intros [] | intros [[H2 [Hse [Hen _]]] Hlt]; lia].
  - pose proof (merge_fold_inv values (Z.to_nat (len values + 1 - 3 + 1)) 3 (2, [])
                  ltac:(lia) ltac:(lia)) as Hinv.
    destruct (fold_left (merge_step values)
                (zrange 3 (Z.to_nat (len values + 1 - 3 + 1))) (2, [])) as [start merges].
    unfold merge_inv in Hinv. cbn [fst snd] in *.
    destruct Hinv as [_ [Hend [_ [_ [Hs Hiff]]]]].
    + split; [lia|]. split; [lia|]. split; [intros x Hx; replace x with 2 by lia; reflexivity|].
      split; [now left|]. split; [constructor|].
      intros s e. split; [intros [] | intros [[H2 _] [Hlt He]]; lia].
    + split; [|exact Hs]. intros s e. rewrite Hiff, (Hend ltac:(lia)).
      split; [intros [Hm [Hlt _]]; auto|].
      intros [Hm Hlt]. split; [exact Hm|]. split; [exact Hlt|].
      destruct Hm as [_ [_ [Hen _]]]. lia.
Qed.

Lemma hd_pad_labels (n : nat) (l : list string) : hd "" (pad_labels n l) = hd "" l.
Proof.
  unfold pad_labels. destruct l as [|x l]; [|reflexivity].
  cbn [app]. destruct (n - List.length (@nil string))%nat; reflexivity.
Qed.

Lemma _resolve_headers_first_row (cols : list string) (column_map : PyDict.t (list string))
    (resolved : PyDict.t (list string)) (max_rows : nat) :
  _resolve_headers cols column_map = Ok (resolved, max_rows) ->
  first_header_row cols resolved = map (fun col => hd "" (header_labels column_map col)) cols.
Proof.
  unfold _resolve_headers.
  remember (fold_left (fun d col => PyDict.set d col (header_labels column_map col))
                      cols []) as r0 eqn:Hr0.
  assert (forall col, In col cols ->
                      PyDict.get r0 col = Some (header_labels column_map col)) as Hget.
  { intros col Hcol. rewrite Hr0, fold_set_get.
    rewrite (proj2 (mem_str_In col cols) Hcol). reflexivity. }
  clear Hr0. intros H.
  assert (resolved = map (fun kv => (fst kv, pad_labels (max_length r0) (snd kv))) r0)
    as -> by (destruct r0; [discriminate | injection H as <- _; reflexivity]).
  unfold first_header_row. apply map_ext_in. intros col Hcol.
  rewrite (get_map_values (pad_labels (max_length r0)) r0 col), (Hget col Hcol).
  cbn [option_map some_or]. apply hd_pad_labels.
Qed.

(** X18: the merged cells of the first header row are exactly the runs
    of equal labels, for a header of more than one row.  When
    [_write_headers] succeeds with a single header row (or none) it
    merges nothing.  With more header rows it merges columns [s .. e] of
    row 1 if and only if they are a maximal run of at least two data
    columns (from column 2 on) whose first labels are equal; the merged
    ranges follow one another from left to right without overlap. *)
Theorem X18_header_merges_are_the_runs (cols : list string)
    (column_map : PyDict.t (list string)) (max_rows : nat) (merges : list (Z * Z)) :
  _write_headers cols column_map = Ok (max_rows, merges) ->
  ((max_rows <= 1)%nat -> merges = [])
  /\ ((1 < max_rows)%nat ->
      (forall s e,
          In (s, e) merges
          <-> (maximal_run (map (fun col => hd "" (header_labels column_map col)) cols) s e
               /\ s < e))
      /\ StronglySorted (fun a b => snd a < fst b) merges).
Proof.
  unfold _write_headers.
  destruct (_resolve_headers cols column_map) as [[resolved m]|x] eqn:E;
    cbn [rbind]; [|discriminate].
  intros [= <- <-]. split.
  - intros Hle. replace (1 <? m)%nat with false
      by (symmetry; apply Nat.ltb_ge; exact Hle).
    reflexivity.
  - intros Hlt. replace (1 <? m)%nat with true
      by (symmetry; apply Nat.ltb_lt; exact Hlt).
    rewrite (_resolve_headers_first_row _ _ _ _ E).
    apply header_merge_loop_spec.
Qed.

Lemma X18_header_merges_are_the_runs_witness :
  (_write_headers ["Timestamp"; "a x"; "a y"; "b z"] []
   = Ok (2%nat, [(2, 3)]))
  /\ (_write_headers ["Timestamp"; "a"; "a"; "b"] [] = Ok (1%nat, []))
  /\ maximal_run
       (map (fun col => hd "" (header_labels [] col)) ["Timestamp"; "a x"; "a y"; "b z"])
       2 3.
Proof.
  split; [reflexivity|]. split; [reflexivity|].
  refine (proj1 (proj1 (proj1 (proj2 (X18_header_merges_are_the_runs
                                        ["Timestamp"; "a x"; "a y"; "b z"] [] 2%nat [(2, 3)]
                                        eq_refl) _) 2 3) _)).
  - lia.
  - left. reflexivity.
Defined.

(** ** Column widths and header colours *)

Lemma fold_longest (lengths : list Z) :
  forall m0,
    m0 <= fold_left (fun m v => if m <? v then v else m) lengths m0
    /\ forall v, In v lengths ->
                 v <= fold_left (fun m v => if m <? v then v else m) lengths m0.
Proof.
  induction lengths as [|x l IH]; intros m0; cbn [fold_left].
  - split; [lia | intros v []].
  - destruct (IH (if m0 <? x then x else m0)) as [H1 H2].
    destruct (Z.ltb_spec m0 x); (split; [lia|]);
      intros v [<- | Hv]; try lia; apply H2, Hv.
Qed.

(** X19: the width [_autosize] gives a column never exceeds [max_width];
    it is at least [min_width] when the two bounds are consistent; and
    it leaves room for every cell text plus two characters unless that
    would exceed [max_width]. *)
Theorem X19_autosize_width_bounds (lengths : list Z) (min_width max_width : Z) :
  _autosize_width lengths min_width max_width <= max_width
  /\ (min_width <= max_width -> min_width <= _autosize_width lengths min_width max_width)
  /\ (forall v, In v lengths -> v + 2 <= max_width ->
                v + 2 <= _autosize_width lengths min_width max_width).
Proof.
  unfold _autosize_width.
  destruct (fold_longest lengths 0) as [_ H].
  split; [lia|]. split; [lia|].
  intros v Hv Hcap. specialize (H v Hv). lia.
Qed.

(** X20: the fill colour of a header row.  With a non-empty palette,
    row [i] (counted from 0) gets the [i]-th colour, and every row past
    the end of the palette gets the last colour; with an empty palette
    the lookup fails. *)
Theorem X20_fill_color_clamped (colors : list string) (row_index : Z) :
  0 <= row_index ->
  (colors <> [] ->
   _get_fill_color (Some colors) row_index
   = nth_error colors (Z.to_nat (Z.min row_index (len colors - 1)))
   /\ exists c, _get_fill_color (Some colors) row_index = Some c /\ In c colors)
  /\ (colors = [] -> _get_fill_color (Some colors) row_index = None).
Proof.
  intros Hrow. unfold _get_fill_color, py_index. cbn [some_or]. split.
  - intros Hne. assert (0 < len colors) as Hlen.
    { destruct colors; [congruence|]. unfold len. cbn [List.length]. lia. }
    replace ((0 <=? Z.min row_index (len colors - 1))
             && (Z.min row_index (len colors - 1) <? len colors)) with true
      by (symmetry; apply andb_true_iff; split; [apply Z.leb_le | apply Z.ltb_lt]; lia).
    split; [reflexivity|].
    destruct (nth_error colors (Z.to_nat (Z.min row_index (len colors - 1)))) as [c|] eqn:E.
    + exists c. split; [reflexivity|]. eapply nth_error_In. exact E.
    + apply nth_error_None in E. unfold len in *. lia.
  - intros ->. unfold len. cbn [List.length Z.of_nat].
    replace (Z.min row_index (0 - 1)) with (-1) by lia. reflexivity.
Qed.

Lemma X20_fill_color_clamped_witness :
  _get_fill_color (Some default_fill_colors) 5
  = nth_error default_fill_colors (Z.to_nat (Z.min 5 (len default_fill_colors - 1)))
  /\ exists c, _get_fill_color (Some default_fill_colors) 5 = Some c
               /\ In c default_fill_colors.
Proof.
  exact (proj1 (X20_fill_color_clamped default_fill_colors 5 ltac:(lia))
           ltac:(discriminate)).
Defined.

(** ** What an aggregate row aggregates *)









(** ** Requests of a run and the order of the rows *)

Lemma single_ok_trace (env : Env) (rq : Request) (tr : list Event) :
  (forall tr0 rq0, exists r, transport env tr0 rq0 = Ok r /\ status_code r = 200) ->
  exists body, _fetch_timeseries_single env rq tr = (Ok body, tr ++ [EvGet rq]).
Proof.
  intros Hok. destruct (Hok tr rq) as [r [Hr Hs]].
  destruct r as [sc body]. cbn [status_code] in Hs. subst sc.
  unfold _fetch_timeseries_single, bind, requests_get, ret. rewrite Hr.
  cbn. eexists. reflexivity.
Qed.

(** X22: a run without chunking and without failures sends exactly one
    request per entity.  When the transport answers every request with
    status 200 and the range does not call for chunking, the loop over
    the entities succeeds and its only effects are one request for each
    entity, in the order of the payload, all for the same keys, time
    range, limit and aggregation, and no token renewal. *)
Theorem X22_one_request_per_entity (env : Env) (p : Parsed) (es : list Entity)
    (raw_rows : list RawRow) (tr : list Event) :
  (forall tr0 rq0, exists r, transport env tr0 rq0 = Ok r /\ status_code r = 200) ->
  truthy_Z (interval p) && negb (String.eqb (agg p) "NONE")
  && exceeds_cap (startTs p) (endTs p) (some_or (interval p) 0) = false ->
  exists rows',
    fetch_entities env p es raw_rows tr
    = (Ok rows',
       tr ++ map (fun e =>
                    EvGet (mkRequest (ent_type e) (ent_id e) (keys p) (startTs p)
                             (endTs p) (limit p) (agg p)
                             (if truthy_Z (interval p)
                                 && negb (String.eqb (agg p) "NONE")
                              then interval p else None))) es).
Proof.
  intros Hok Hcap. revert raw_rows tr.
  induction es as [|e es IH]; intros raw_rows tr.
  - exists raw_rows. cbn [fetch_entities map]. rewrite app_nil_r. reflexivity.
  - cbn [fetch_entities map]. unfold bind at 1. unfold _fetch_timeseries.
    cbv zeta. rewrite Hcap.
    destruct (single_ok_trace env
                (mkRequest (ent_type e) (ent_id e) (keys p) (startTs p) (endTs p)
                   (limit p) (agg p)
                   (if truthy_Z (interval p) && negb (String.eqb (agg p) "NONE")
                    then interval p else None)) tr Hok) as [body ->].
    destruct (IH (raw_rows ++ _to_raw_rows (ent_name e) body)
                 (tr ++ [EvGet (mkRequest (ent_type e) (ent_id e) (keys p) (startTs p)
                                  (endTs p) (limit p) (agg p)
                                  (if truthy_Z (interval p)
                                      && negb (String.eqb (agg p) "NONE")
                                   then interval p else None))])) as [rows' ->].
    exists rows'. rewrite <- app_assoc. reflexivity.
Qed.

Lemma X22_one_request_per_entity_witness :
  exists rows',
    fetch_entities (Samples.source_env (Samples.halfopen_source Samples.store))
      Samples.no_agg (entities Samples.no_agg) [] []
    = (Ok rows',
       [] ++ map (fun e =>
                    EvGet (mkRequest (ent_type e) (ent_id e) (keys Samples.no_agg)
                             (startTs Samples.no_agg) (endTs Samples.no_agg)
                             (limit Samples.no_agg) (agg Samples.no_agg)
                             (if truthy_Z (interval Samples.no_agg)
                                 && negb (String.eqb (agg Samples.no_agg) "NONE")
                              then interval Samples.no_agg else None)))
                 (entities Samples.no_agg)).
Proof.
  apply (X22_one_request_per_entity
           (Samples.source_env (Samples.halfopen_source Samples.store))
           Samples.no_agg (entities Samples.no_agg) [] []).
  - intros tr0 rq0. eexists. split; reflexivity.
  - reflexivity.
Defined.

Lemma insert_desc_last {A} (x : Z * A) (l : list (Z * A)) :
  Forall (fun y => fst x < fst y) l ->
  insert_by (fun a b => fst b <=? fst a) x l = l ++ [x].
Proof.
  induction 1 as [|y l Hy _ IH]; cbn [insert_by app]; [reflexivity|].
  replace (fst y <=? fst x) with false by (symmetry; apply Z.leb_gt; exact Hy).
  rewrite IH. reflexivity.
Qed.

Lemma sort_desc_rev {A} (l : list (Z * A)) :
  StronglySorted Z.lt (map fst l) -> sort_desc l = rev l.
Proof.
  unfold sort_desc, sort_by. induction l as [|x l IH]; intros Hs; [reflexivity|].
  cbn [map] in Hs. inversion Hs as [|? ? Hs' Hall]; subst.
  cbn [fold_right rev]. rewrite (IH Hs'). apply insert_desc_last.
  apply Forall_forall. intros y Hy. apply in_rev in Hy.
  rewrite Forall_forall in Hall. apply Hall. apply in_map. exact Hy.
Qed.

(** X23: the order of the query changes the order of the rows and
    nothing else.  Where a run with an order other than "DESC" gives
    tables, the same run with order "DESC" gives tables too: the raw
    table has the same columns and the same rows in another order, the
    pivot has the same columns and its rows exactly reversed, and the
    aggregate sheets are the same. *)
Theorem X23_order_changes_row_order_only (env : Env) (tz : string) (s e : Z)
    (es : list Entity) (ks : list string) (ag : string) (iv : option Z) (lim : Z)
    (o : string) (rc : S.ReportConfig) (raw_rows : list RawRow) (t : Tables) :
  o <> "DESC" ->
  tables_of_rows env (mkParsed tz s e es ks ag iv lim o rc) raw_rows = Ok t ->
  exists t',
    tables_of_rows env (mkParsed tz s e es ks ag iv lim "DESC" rc) raw_rows = Ok t'
    /\ rt_columns (df_raw t') = rt_columns (df_raw t)
    /\ Permutation (rt_rows (df_raw t')) (rt_rows (df_raw t))
    /\ pv_columns (df_pivot t') = pv_columns (df_pivot t)
    /\ pv_rows (df_pivot t') = rev (pv_rows (df_pivot t))
    /\ agg_sheets t' = agg_sheets t.
Proof.
  intros Ho. unfold tables_of_rows.
  destruct raw_rows as [|r rows].
  - intros [= <-]. eexists. split; [reflexivity|]. cbn. repeat split; reflexivity.
  - unfold pivot_source, pivot_ts_ms, raw_table.
    cbn [timezone keys agg interval order cfg].
    replace (String.eqb o "DESC") with false by (symmetry; apply String.eqb_neq; exact Ho).
    cbn [String.eqb Ascii.eqb Bool.eqb andb].
    destruct (build_pivot _ ks (S.column_map rc)) as [pv|x] eqn:Epv; cbn [rbind];
      [|discriminate].
    pose proof (build_pivot_rows _ _ _ _ Epv) as Hidx.
    assert (StronglySorted Z.lt (map fst (pv_rows pv))) as Hsorted
      by (rewrite Hidx; apply pivot_index_sorted).
    destruct pv as [cols prows]. cbn [pv_columns pv_rows] in *.
    rewrite (build_agg_sheets_desc cols prows (S.agg_map rc) (S.sheets rc) freq_keys
               (sorted_lt_NoDup _ Hsorted)).
    destruct (build_agg_sheets (mkPivot cols prows) (S.agg_map rc) (S.sheets rc)
                freq_keys []) as [sheets|x]; cbn [rbind]; [|discriminate].
    intros [= <-]. eexists. split; [reflexivity|].
    cbn [df_raw df_pivot agg_sheets rt_columns rt_rows pv_columns pv_rows].
    split; [reflexivity|]. split; [apply sort_by_perm|]. split; [reflexivity|].
    split; [apply sort_desc_rev; exact Hsorted | reflexivity].
Qed.

Lemma X23_order_changes_row_order_only_witness :
  exists t',
    tables_of_rows (Samples.scripted [] [])
      (mkParsed "Asia/Bangkok" 0 7200000 [mkEntity "DEVICE" "id1" "asset1"] ["key1"]
         "NONE" None 10000 "DESC" S.DEFAULT_REPORT_CONFIG) Samples.midpoint_rows = Ok t'
    /\ pv_rows (df_pivot t') = [(5400000, [Some (2 # 1)]); (1800000, [Some (1 # 1)])].
Proof.
  destruct (tables_of_rows (Samples.scripted [] []) Samples.no_agg Samples.midpoint_rows)
    as [t|x] eqn:E; [|vm_compute in E; discriminate E].
  destruct (X23_order_changes_row_order_only (Samples.scripted [] [])
              "Asia/Bangkok" 0 7200000 [mkEntity "DEVICE" "id1" "asset1"] ["key1"]
              "NONE" None 10000 "ASC" S.DEFAULT_REPORT_CONFIG Samples.midpoint_rows t
              ltac:(discriminate) E) as [t' [Ht' [_ [_ [_ [Hrows _]]]]]].
  exists t'. split; [exact Ht'|]. rewrite Hrows.
  vm_compute in E. injection E as <-. reflexivity.
Defined.
